(** * Timetable generator of [src/pages/Timetable.tsx]

    A shallow embedding of the hourly-slot timetable generator
    ([generateTimetableMutation.mutationFn], first variant of the page) and
    the properties of the schedules it produces.

    Conventions of the embedding:
    - JavaScript objects keyed by day are functions from [Day]; the arrays
      they hold are lists read with [!!] and written with [<[i:=x]>];
      every write of the source is guarded by [i < timeSlots.length], so the
      silent out-of-range behaviour of list insertion is never exercised;
    - a [Set] of ids is a [gset string], the usage counter object a
      [gmap string nat] read with default [0] (the source's [|| 0]);
    - [day_of_week] is the five-day enum of [integrations/supabase/types.ts],
      ids and times are strings, [weekly_hours] is an integer;
    - [indexOf] returning [-1] is [None];
    - [Math.random] is an ambient stream of draws [rand : nat -> nat] read
      through a cursor; [arr.sort(() => Math.random() - 0.5)] yields an
      order of [arr] that is fixed by those draws only. *)

From Stdlib Require Import ZArith String Ascii Lia.
From stdpp Require Import base option list gmap strings functions.

(** ** Catalog rows *)

(** The days of [daysOfWeek], the only ones the generator reads or writes:
    its grids are built for these five, every entry it makes is on one of
    them, and every availability test asks about one of them.  The enum of
    [database_schema.sql] also has Saturday and Sunday; the seeding loop
    puts a row of such a day into a grid row of its own, which no test
    reads.  The rows the page displays keep their day as the store has it
    ([Row]). *)
Inductive Day := Monday | Tuesday | Wednesday | Thursday | Friday.

Inductive SubjectType := lecture | lab | tutorial.

#[global] Instance Day_eq_dec : EqDecision Day.
Proof. solve_decision. Defined.

#[global] Instance SubjectType_eq_dec : EqDecision SubjectType.
Proof. solve_decision. Defined.

Module SectionRow.
Record t := mk { id : string; name : string; year_level : string }.
End SectionRow.

Module Subject.
Record t := mk {
  id : string;
  year_level : string;
  weekly_hours : Z;
  has_lab : bool;
  has_tutorial : bool }.
End Subject.

Module FacultySubject.
Record t := mk {
  faculty_id : string;
  subject_id : string;
  subject_types : option (list string) }.
End FacultySubject.

Module Classroom.
Record t := mk { id : string; room_type : SubjectType }.
End Classroom.

Module Entry.
Record t := mk {
  section_id : string;
  subject_id : string;
  faculty_id : string;
  classroom_id : string;
  day_of_week : Day;
  start_time : string;
  end_time : string;
  subject_type : SubjectType;
  batch_number : option nat }.
End Entry.

Module Batch.
Record t := mk { number : nat; name : string }.
End Batch.

#[global] Instance Entry_eq_dec : EqDecision Entry.t.
Proof. solve_decision. Defined.

(** ** Constants of the page *)

Definition timeSlots : list string :=
  ["08:00"; "09:00"; "10:00"; "11:00"; "12:00";
   "13:00"; "14:00"; "15:00"; "16:00"; "17:00"].

Definition daysOfWeek : list Day :=
  [Monday; Tuesday; Wednesday; Thursday; Friday].

Definition BREAK_START : nat := 4.

(** [for (let i = lo; i < hi; i++)] visits [range lo hi]. *)
Definition range (lo hi : nat) : list nat := seq lo (hi - lo).

(** ** The ambient random source *)

(** [pickOrder rand pos n l] draws [n] times, each draw selecting one of the
    elements still left. *)
Fixpoint pickOrder {A} (rand : nat → nat) (pos n : nat) (l : list A) : list A :=
  match n with
  | 0 => []
  | S n' =>
      let k := rand pos mod length l in
      match l !! k with
      | Some x => x :: pickOrder rand (S pos) n' (delete k l)
      | None => []
      end
  end.

(** [[...l].sort(() => Math.random() - 0.5)]: the order and the cursor after it. *)
Definition shuffle {A} (rand : nat → nat) (pos : nat) (l : list A) : list A * nat :=
  (pickOrder rand pos (length l) l, pos + length l).

(** ** Availability grid *)

Record Grid := mkGrid {
  schedule : Day → list (option Entry.t);
  facultySchedule : Day → list (gset string);
  classroomSchedule : Day → list (gset string) }.

Definition getTimeIndex (time : string) : option nat :=
  fst <$> list_find (λ t, t = time) timeSlots.

Definition cellFree (cell : option (option Entry.t)) : bool :=
  match cell with
  | Some None => true
  | _ => false
  end.

Definition isSlotAvailable (g : Grid) (day : Day) (timeIndex duration : nat) : bool :=
  let endIndex := timeIndex + duration in
  forallb (λ i, cellFree (schedule g day !! i))
          (range timeIndex (endIndex `min` length timeSlots))
  && bool_decide (endIndex ≤ length timeSlots).

Definition holds (id : string) (cell : option (gset string)) : bool :=
  match cell with
  | Some s => bool_decide (id ∈ s)
  | None => false
  end.

Definition isFacultyAvailable (g : Grid) (facultyId : string) (day : Day)
    (timeIndex duration : nat) : bool :=
  let endIndex := timeIndex + duration in
  forallb (λ i, negb (holds facultyId (facultySchedule g day !! i)))
          (range timeIndex (endIndex `min` length timeSlots)).

Definition isClassroomAvailable (g : Grid) (classroomId : string) (day : Day)
    (timeIndex duration : nat) : bool :=
  let endIndex := timeIndex + duration in
  forallb (λ i, negb (holds classroomId (classroomSchedule g day !! i)))
          (range timeIndex (endIndex `min` length timeSlots)).

(** [busy[day][i].add(id)], creating the set when the cell is empty. *)
Definition addBusy (id : string) (i : nat) (row : list (gset string)) : list (gset string) :=
  <[i := default ∅ (row !! i) ∪ {[id]}]> row.

(** One round of the loop of [markSlotOccupied]. *)
Definition markCell (day : Day) (facultyId classroomId : string) (entry : Entry.t)
    (g : Grid) (i : nat) : Grid :=
  {| schedule := <[day := <[i := Some entry]> (schedule g day)]> (schedule g);
     facultySchedule := <[day := addBusy facultyId i (facultySchedule g day)]> (facultySchedule g);
     classroomSchedule := <[day := addBusy classroomId i (classroomSchedule g day)]> (classroomSchedule g) |}.

Definition markSlotOccupied (g : Grid) (day : Day) (timeIndex duration : nat)
    (facultyId classroomId : string) (entry : Entry.t) : Grid :=
  let endIndex := timeIndex + duration in
  foldl (markCell day facultyId classroomId entry) g
        (range timeIndex (endIndex `min` length timeSlots)).

(** The grid after [daysOfWeek.forEach(day => ...)]. *)
Definition emptyGrid : Grid :=
  {| schedule := λ _, replicate (length timeSlots) None;
     facultySchedule := λ _, replicate (length timeSlots) ∅;
     classroomSchedule := λ _, replicate (length timeSlots) ∅ |}.

(** One round of the seeding loop: only the two busy grids are written. *)
Definition seedCell (entry : Entry.t) (g : Grid) (i : nat) : Grid :=
  let day := Entry.day_of_week entry in
  {| schedule := schedule g;
     facultySchedule :=
       <[day := addBusy (Entry.faculty_id entry) i (facultySchedule g day)]> (facultySchedule g);
     classroomSchedule :=
       <[day := addBusy (Entry.classroom_id entry) i (classroomSchedule g day)]> (classroomSchedule g) |}.

(** Body of [existingTimetable.forEach].  [duration = endIndex - startIndex]
    only bounds the loop, which runs from [startIndex] while
    [i < startIndex + duration]; a non-positive duration gives no round. *)
Definition seedEntry (g : Grid) (entry : Entry.t) : Grid :=
  match getTimeIndex (substring 0 5 (Entry.start_time entry)),
        getTimeIndex (substring 0 5 (Entry.end_time entry)) with
  | Some startIndex, Some endIndex =>
      let duration := endIndex - startIndex in
      foldl (seedCell entry) g
            (range startIndex ((startIndex + duration) `min` length timeSlots))
  | _, _ => g
  end.

Definition seedGrid (existingTimetable : list Entry.t) : Grid :=
  foldl seedEntry emptyGrid existingTimetable.

(** ** Slot search *)

Definition getRandomStartTimes (rand : nat → nat) (pos : nat) : list nat * nat :=
  shuffle rand pos [0; 1; 2; 3; 5; 6; 7; 8; 9].

Definition isBreakTime (timeIndex : nat) : bool := bool_decide (timeIndex = BREAK_START).

Definition spansBreak (startIndex duration : nat) : bool :=
  existsb isBreakTime (range startIndex (startIndex + duration)).

(** The test applied to each candidate start of [findBestTimeSlot]. *)
Definition slotFits (g : Grid) (day : Day) (duration : nat) (facultyId classroomId : string)
    (startIndex : nat) : bool :=
  negb (isBreakTime startIndex)
  && negb (spansBreak startIndex duration)
  && isSlotAvailable g day startIndex duration
  && isFacultyAvailable g facultyId day startIndex duration
  && isClassroomAvailable g classroomId day startIndex duration.

Definition findBestTimeSlot (g : Grid) (day : Day) (duration : nat) (facultyId : string)
    (classroom : Classroom.t) (timesToTry : list nat) : option nat :=
  match find (slotFits g day duration facultyId (Classroom.id classroom)) timesToTry with
  | Some startIndex => Some startIndex
  | None =>
      find (slotFits g day duration facultyId (Classroom.id classroom))
           (range 0 (length timeSlots - duration))
  end.

(** ** Scheduler state *)

Record Sched := mkSched {
  grid : Grid;
  subjectWeeklyHours : gmap string nat;
  timetableEntries : list Entry.t;
  dailySubjectLectures : Day → gset string;
  lectureRoomIndex : nat;
  labRoomIndex : nat;
  tutorialRoomIndex : nat;
  facultyUsageCount : gmap string nat;
  rpos : nat }.

(** What the run reads from the catalog; the entries of the other sections,
    read as well, only feed [seedGrid]. *)
Record Inputs := mkInputs {
  sectionId : string;
  section : SectionRow.t;
  subjects : list Subject.t;
  facultySubjects : list FacultySubject.t;
  lectureClassrooms : list Classroom.t;
  labClassrooms : list Classroom.t;
  tutorialClassrooms : list Classroom.t }.

Definition typeName (kind : SubjectType) : string :=
  match kind with
  | lecture => "lecture"
  | lab => "lab"
  | tutorial => "tutorial"
  end.

(** Slots taken by a session: the [duration] argument of the three call
    sites of [findBestTimeSlot] and [markSlotOccupied]. *)
Definition sessionDuration (kind : SubjectType) : nat :=
  match kind with
  | lecture => 1
  | lab => 2
  | tutorial => 1
  end.

Definition roomsOf (inp : Inputs) (kind : SubjectType) : list Classroom.t :=
  match kind with
  | lecture => lectureClassrooms inp
  | lab => labClassrooms inp
  | tutorial => tutorialClassrooms inp
  end.

Definition roomIndexOf (st : Sched) (kind : SubjectType) : nat :=
  match kind with
  | lecture => lectureRoomIndex st
  | lab => labRoomIndex st
  | tutorial => tutorialRoomIndex st
  end.

Definition usageOf (usage : gmap string nat) (facultyId : string) : nat :=
  default 0 (usage !! facultyId).

(** [facultySubjects.filter(fs => fs.subject_id === subject.id &&
    fs.subject_types?.includes(kind))]. *)
Definition isQualified (subject : Subject.t) (kind : SubjectType) (fs : FacultySubject.t) : bool :=
  bool_decide (FacultySubject.subject_id fs = Subject.id subject)
  && match FacultySubject.subject_types fs with
     | Some types => bool_decide (typeName kind ∈ types)
     | None => false
     end.

Definition qualifiedFaculty (inp : Inputs) (subject : Subject.t) (kind : SubjectType)
  : list FacultySubject.t :=
  List.filter (isQualified subject kind) (facultySubjects inp).

(** The callback of the [reduce] that selects the faculty member. *)
Definition leastUsedStep (usage : gmap string nat) (leastUsed current : FacultySubject.t)
  : FacultySubject.t :=
  let leastUsedCount := usageOf usage (FacultySubject.faculty_id leastUsed) in
  let currentCount := usageOf usage (FacultySubject.faculty_id current) in
  if bool_decide (currentCount < leastUsedCount) then current else leastUsed.

(** [qualified.reduce(...)] without an initial value; the source only calls
    it on a non-empty array, [None] stands for the guarded empty case. *)
Definition selectLeastUsed (usage : gmap string nat) (qualified : list FacultySubject.t)
  : option FacultySubject.t :=
  match qualified with
  | [] => None
  | first :: rest => Some (foldl (leastUsedStep usage) first rest)
  end.

(** The room loop shared by the three session kinds: rooms are tried from
    [roomIndex] on, each try calling [findBestTimeSlot] with a fresh random
    order of start times.  Returns the room, the slot and the next value of
    the room index, with the cursor of the random source. *)
Fixpoint roomSearch (rand : nat → nat) (g : Grid) (day : Day) (duration : nat)
    (facultyId : string) (rooms : list Classroom.t) (roomIndex : nat)
    (tries : list nat) (pos : nat) : option (Classroom.t * nat * nat) * nat :=
  match tries with
  | [] => (None, pos)
  | i :: tries' =>
      let roomIndexToTry := (roomIndex + i) mod length rooms in
      match rooms !! roomIndexToTry with
      | None => (None, pos)
      | Some room =>
          let '(timesToTry, pos') := getRandomStartTimes rand pos in
          match findBestTimeSlot g day duration facultyId room timesToTry with
          | Some slot => (Some (room, slot, (roomIndexToTry + 1) mod length rooms), pos')
          | None => roomSearch rand g day duration facultyId rooms roomIndex tries' pos'
          end
      end
  end.

Definition findRoom (rand : nat → nat) (inp : Inputs) (st : Sched) (kind : SubjectType)
    (day : Day) (facultyId : string) : option (Classroom.t * nat * nat) * nat :=
  let rooms := roomsOf inp kind in
  roomSearch rand (grid st) day (sessionDuration kind) facultyId rooms
             (roomIndexOf st kind) (range 0 (length rooms)) (rpos st).

Definition withRpos (st : Sched) (pos : nat) : Sched :=
  {| grid := grid st;
     subjectWeeklyHours := subjectWeeklyHours st;
     timetableEntries := timetableEntries st;
     dailySubjectLectures := dailySubjectLectures st;
     lectureRoomIndex := lectureRoomIndex st;
     labRoomIndex := labRoomIndex st;
     tutorialRoomIndex := tutorialRoomIndex st;
     facultyUsageCount := facultyUsageCount st;
     rpos := pos |}.

(** [timeSlots[timeIndex + duration] || '18:00'], and [timeSlots[timeIndex]]
    (never out of range: see [generated_placed]). *)
Definition endLabel (i : nat) : string := default "18:00" (timeSlots !! i).
Definition startLabel (i : nat) : string := default "" (timeSlots !! i).

Definition newEntry (inp : Inputs) (kind : SubjectType) (subject : Subject.t)
    (facultyId : string) (room : Classroom.t) (day : Day) (timeIndex : nat)
    (batch : option Batch.t) : Entry.t :=
  {| Entry.section_id := sectionId inp;
     Entry.subject_id := Subject.id subject;
     Entry.faculty_id := facultyId;
     Entry.classroom_id := Classroom.id room;
     Entry.day_of_week := day;
     Entry.start_time := startLabel timeIndex;
     Entry.end_time := endLabel (timeIndex + sessionDuration kind);
     Entry.subject_type := kind;
     Entry.batch_number := Batch.number <$> batch |}.

(** The commit shared by the three session kinds: the room index assigned in
    the room loop, the entry pushed, the slots marked and the usage counter
    raised by the session's hours.  The two lecture-only updates
    ([dailySubjectLectures], [subjectWeeklyHours]) are guarded by the kind. *)
Definition placeSession (inp : Inputs) (st : Sched) (kind : SubjectType)
    (subject : Subject.t) (facultyId : string) (room : Classroom.t) (day : Day)
    (timeIndex nextRoomIndex : nat) (batch : option Batch.t) (pos : nat) : Sched :=
  let entry := newEntry inp kind subject facultyId room day timeIndex batch in
  {| grid := markSlotOccupied (grid st) day timeIndex (sessionDuration kind)
                              facultyId (Classroom.id room) entry;
     subjectWeeklyHours :=
       match kind with
       | lecture => <[Subject.id subject :=
                      default 0 (subjectWeeklyHours st !! Subject.id subject) + 1]>
                    (subjectWeeklyHours st)
       | _ => subjectWeeklyHours st
       end;
     timetableEntries := timetableEntries st ++ [entry];
     dailySubjectLectures :=
       match kind with
       | lecture => <[day := dailySubjectLectures st day ∪ {[Subject.id subject]}]>
                    (dailySubjectLectures st)
       | _ => dailySubjectLectures st
       end;
     lectureRoomIndex := match kind with lecture => nextRoomIndex | _ => lectureRoomIndex st end;
     labRoomIndex := match kind with lab => nextRoomIndex | _ => labRoomIndex st end;
     tutorialRoomIndex :=
       match kind with tutorial => nextRoomIndex | _ => tutorialRoomIndex st end;
     facultyUsageCount :=
       <[facultyId := usageOf (facultyUsageCount st) facultyId + sessionDuration kind]>
       (facultyUsageCount st);
     rpos := pos |}.

(** ** Phase 1: lectures *)

(** One round of the [while] loop of a subject.  The two [break]s of the
    source sit right after a [splice] that emptied [availableDays]; the loop
    test would end the loop there as well, so they are rounds like the
    others. *)
Definition lectureRound (rand : nat → nat) (inp : Inputs) (shuffledDays : list Day)
    (subject : Subject.t) (facultyId : string)
    (st : Sched) (hoursScheduled : nat) (availableDays : list Day)
  : Sched * nat * list Day :=
  let dayIndex := hoursScheduled mod length availableDays in
  match availableDays !! dayIndex with
  | None => (st, hoursScheduled, availableDays)
  | Some day =>
      if bool_decide (Subject.id subject ∈ dailySubjectLectures st day)
      then (st, hoursScheduled, delete dayIndex availableDays)
      else
        match findRoom rand inp st lecture day facultyId with
        | (None, pos) => (withRpos st pos, hoursScheduled, delete dayIndex availableDays)
        | (Some (room, timeIndex, nextRoomIndex), pos) =>
            let st' := placeSession inp st lecture subject facultyId room day
                                    timeIndex nextRoomIndex None pos in
            let hoursScheduled' := S hoursScheduled in
            let availableDays' := delete dayIndex availableDays in
            let refill :=
              if bool_decide (length availableDays' = 0)
                 && bool_decide (Z.of_nat hoursScheduled' < Subject.weekly_hours subject)%Z
              then List.filter
                     (λ d, negb (bool_decide (Subject.id subject ∈ dailySubjectLectures st' d)))
                     shuffledDays
              else [] in
            (st', hoursScheduled', availableDays' ++ refill)
        end
  end.

Definition lectureGuard (subject : Subject.t) (hoursScheduled : nat)
    (availableDays : list Day) : bool :=
  bool_decide (Z.of_nat hoursScheduled < Subject.weekly_hours subject)%Z
  && bool_decide (0 < length availableDays).

(** The [while] loop, unrolled at most [fuel] times ([lectureFuel] is
    always enough: [lectureLoop_fuel]). *)
Fixpoint lectureLoop (fuel : nat) (rand : nat → nat) (inp : Inputs) (shuffledDays : list Day)
    (subject : Subject.t) (facultyId : string)
    (st : Sched) (hoursScheduled : nat) (availableDays : list Day) : Sched :=
  match fuel with
  | 0 => st
  | S fuel' =>
      if lectureGuard subject hoursScheduled availableDays then
        let '(st', hoursScheduled', availableDays') :=
          lectureRound rand inp shuffledDays subject facultyId
                       st hoursScheduled availableDays in
        lectureLoop fuel' rand inp shuffledDays subject facultyId
                    st' hoursScheduled' availableDays'
      else st
  end.

(** The [while] loop as a relation: started in the first state it leaves
    through its test after the given number of rounds, in the last state. *)
Inductive lectureWhile (rand : nat → nat) (inp : Inputs) (shuffledDays : list Day)
    (subject : Subject.t) (facultyId : string)
  : Sched * nat * list Day → nat → Sched * nat * list Day → Prop :=
  | lectureWhile_exit st hoursScheduled availableDays :
      lectureGuard subject hoursScheduled availableDays = false →
      lectureWhile rand inp shuffledDays subject facultyId
                   (st, hoursScheduled, availableDays) 0 (st, hoursScheduled, availableDays)
  | lectureWhile_round st hoursScheduled availableDays rounds final :
      lectureGuard subject hoursScheduled availableDays = true →
      lectureWhile rand inp shuffledDays subject facultyId
                   (lectureRound rand inp shuffledDays subject facultyId
                                 st hoursScheduled availableDays)
                   rounds final →
      lectureWhile rand inp shuffledDays subject facultyId
                   (st, hoursScheduled, availableDays) (S rounds) final.

(** Days on which the subject has no lecture yet. *)
Definition openDays (st : Sched) (subject : Subject.t) : nat :=
  length (List.filter
            (λ d, negb (bool_decide (Subject.id subject ∈ dailySubjectLectures st d)))
            daysOfWeek).

Definition lectureMeasure (shuffledDays : list Day) (st : Sched) (subject : Subject.t)
    (availableDays : list Day) : nat :=
  openDays st subject * S (length shuffledDays) + length availableDays.

Definition lectureFuel (shuffledDays : list Day) (st : Sched) (subject : Subject.t) : nat :=
  S (lectureMeasure shuffledDays st subject shuffledDays).

(** Body of the first [for (const subject of subjects)]. *)
Definition scheduleLectures (rand : nat → nat) (inp : Inputs) (shuffledDays : list Day)
    (st : Sched) (subject : Subject.t) : Sched :=
  match selectLeastUsed (facultyUsageCount st) (qualifiedFaculty inp subject lecture) with
  | None => st
  | Some lectureFaculty =>
      lectureLoop (lectureFuel shuffledDays st subject) rand inp shuffledDays subject
                  (FacultySubject.faculty_id lectureFaculty) st 0 shuffledDays
  end.

(** ** Phase 2: labs and tutorials *)

Definition digit (n : nat) : string := String (ascii_of_nat (48 + n)) EmptyString.

(** [Array.from({ length: 3 }, (_, i) => ({ number: i + 1, name: ... }))]. *)
Definition batches (inp : Inputs) : list Batch.t :=
  (λ i, {| Batch.number := i + 1;
           Batch.name := SectionRow.name (section inp) +:+ digit (i + 1) |}) <$> range 0 3.

(** [for (const day of shuffledDays)] for one batch: the first day with a
    room and a slot takes the session and sets [scheduled]. *)
Fixpoint scheduleBatch (rand : nat → nat) (inp : Inputs) (kind : SubjectType)
    (subject : Subject.t) (facultyId : string) (batch : Batch.t)
    (days : list Day) (st : Sched) : Sched :=
  match days with
  | [] => st
  | day :: days' =>
      match findRoom rand inp st kind day facultyId with
      | (None, pos) =>
          scheduleBatch rand inp kind subject facultyId batch days' (withRpos st pos)
      | (Some (room, timeIndex, nextRoomIndex), pos) =>
          placeSession inp st kind subject facultyId room day
                       timeIndex nextRoomIndex (Some batch) pos
      end
  end.

(** The block under [if (subject.has_lab)] and its twin under
    [if (subject.has_tutorial)]. *)
Definition scheduleBatches (rand : nat → nat) (inp : Inputs) (shuffledDays : list Day)
    (kind : SubjectType) (subject : Subject.t) (st : Sched) : Sched :=
  match selectLeastUsed (facultyUsageCount st) (qualifiedFaculty inp subject kind) with
  | None => st
  | Some faculty =>
      let '(shuffledBatches, pos) := shuffle rand (rpos st) (batches inp) in
      foldl (λ st' batch,
               scheduleBatch rand inp kind subject (FacultySubject.faculty_id faculty)
                             batch shuffledDays st')
            (withRpos st pos) shuffledBatches
  end.

(** Body of the second [for (const subject of subjects)]. *)
Definition schedulePracticals (rand : nat → nat) (inp : Inputs) (shuffledDays : list Day)
    (st : Sched) (subject : Subject.t) : Sched :=
  let st1 := if Subject.has_lab subject
             then scheduleBatches rand inp shuffledDays lab subject st else st in
  if Subject.has_tutorial subject
  then scheduleBatches rand inp shuffledDays tutorial subject st1 else st1.

(** ** The run *)

Definition initialSched (inp : Inputs) (existingTimetable : list Entry.t) (pos : nat)
  : Sched :=
  {| grid := seedGrid existingTimetable;
     subjectWeeklyHours := foldl (λ m s, <[Subject.id s := 0]> m) ∅ (subjects inp);
     timetableEntries := [];
     dailySubjectLectures := λ _, ∅;
     lectureRoomIndex := 0;
     labRoomIndex := 0;
     tutorialRoomIndex := 0;
     facultyUsageCount := ∅;
     rpos := pos |}.

(** The scheduling part of [mutationFn], from the helpers down to the entries
    handed to the insert. *)
Definition runScheduler (rand : nat → nat) (inp : Inputs)
    (existingTimetable : list Entry.t) : Sched :=
  let '(shuffledDays, pos) := shuffle rand 0 daysOfWeek in
  let st1 := foldl (scheduleLectures rand inp shuffledDays)
                   (initialSched inp existingTimetable pos) (subjects inp) in
  foldl (schedulePracticals rand inp shuffledDays) st1 (subjects inp).

Definition generateEntries (rand : nat → nat) (inp : Inputs)
    (existingTimetable : list Entry.t) : list Entry.t :=
  timetableEntries (runScheduler rand inp existingTimetable).

(** ** Reading entries back as slot intervals *)

(** The eleven hour marks that bound the ten slots. *)
Definition timeBoundaries : list string := timeSlots ++ ["18:00"].

Definition boundaryIndex (time : string) : option nat :=
  fst <$> list_find (λ t, t = substring 0 5 time) timeBoundaries.

(** The half-open slot interval [[start, end)] of an entry. *)
Definition slotInterval (e : Entry.t) : option (nat * nat) :=
  match boundaryIndex (Entry.start_time e), boundaryIndex (Entry.end_time e) with
  | Some s, Some t => Some (s, t)
  | _, _ => None
  end.

(** Two half-open intervals share a slot. *)
Definition overlap (a b : nat * nat) : Prop :=
  ∃ k, a.1 ≤ k < a.2 ∧ b.1 ≤ k < b.2.

(** Two entries lie on the same day and their intervals share a slot. *)
Definition clash (e1 e2 : Entry.t) : Prop :=
  Entry.day_of_week e1 = Entry.day_of_week e2 ∧
  ∃ a b, slotInterval e1 = Some a ∧ slotInterval e2 = Some b ∧ overlap a b.

(** Hours of an entry, and the hours the entries give to a faculty member. *)
Definition entryHours (e : Entry.t) : nat :=
  match slotInterval e with
  | Some (s, t) => t - s
  | None => 0
  end.

Definition hoursAssigned (facultyId : string) (entries : list Entry.t) : nat :=
  sum_list_with entryHours
    (List.filter (λ e, bool_decide (Entry.faculty_id e = facultyId)) entries).

(** ** The store around the scheduler *)

Inductive Result (A : Type) :=
  | Ok (data : A)
  | Err (error : string).
Arguments Ok {A} data.
Arguments Err {A} error.

(** The relational store as one run sees it: the rows of [timetable] and the
    outcome of each request of the run. *)
Record Store := mkStore {
  timetable : list Entry.t;
  deleteFails : bool;
  selectSection : string → Result SectionRow.t;
  selectSubjects : string → Result (list Subject.t);
  selectFacultySubjects : Result (list FacultySubject.t);
  selectExistingError : option string;
  selectClassrooms : SubjectType → Result (list Classroom.t);
  insertError : option string }.

Definition withTimetable (db : Store) (rows : list Entry.t) : Store :=
  {| timetable := rows;
     deleteFails := deleteFails db;
     selectSection := selectSection db;
     selectSubjects := selectSubjects db;
     selectFacultySubjects := selectFacultySubjects db;
     selectExistingError := selectExistingError db;
     selectClassrooms := selectClassrooms db;
     insertError := insertError db |}.

Definition otherSections (sectionId : string) (rows : list Entry.t) : list Entry.t :=
  List.filter (λ e, negb (bool_decide (Entry.section_id e = sectionId))) rows.

(** [supabase.from('timetable').delete().eq('section_id', sectionId)]; the
    source does not look at the outcome. *)
Definition deleteSection (db : Store) (sectionId : string) : Store :=
  if deleteFails db then db
  else withTimetable db (otherSections sectionId (timetable db)).

(** [.select(...).neq('section_id', sectionId)] on [timetable]. *)
Definition selectExisting (db : Store) (sectionId : string) : Result (list Entry.t) :=
  match selectExistingError db with
  | Some error => Err error
  | None => Ok (otherSections sectionId (timetable db))
  end.

Definition errorOf {A} (r : Result A) : option string :=
  match r with
  | Ok _ => None
  | Err error => Some error
  end.

Definition dataOr {A} (r : Result A) (d : A) : A :=
  match r with
  | Ok data => data
  | Err _ => d
  end.

(** [generateTimetableMutation.mutationFn]: the entries returned or the error
    thrown, and the store the run leaves behind. *)
Definition mutationFn (rand : nat → nat) (db : Store) (sectionId : string)
  : Result (list Entry.t) * Store :=
  let db1 := deleteSection db sectionId in
  match selectSection db1 sectionId with
  | Err sectionError => (Err sectionError, db1)
  | Ok section =>
  match selectSubjects db1 (SectionRow.year_level section) with
  | Err subjectsError => (Err subjectsError, db1)
  | Ok subjects =>
  match selectFacultySubjects db1 with
  | Err fsError => (Err fsError, db1)
  | Ok facultySubjects =>
  match selectExisting db1 sectionId with
  | Err existingError => (Err existingError, db1)
  | Ok existingTimetable =>
  let lectureRooms := selectClassrooms db1 lecture in
  let labRooms := selectClassrooms db1 lab in
  let tutorialRooms := selectClassrooms db1 tutorial in
  match errorOf lectureRooms, errorOf labRooms, errorOf tutorialRooms with
  | Some roomsError, _, _
  | None, Some roomsError, _
  | None, None, Some roomsError => (Err roomsError, db1)
  | None, None, None =>
      let inp := {| sectionId := sectionId;
                    section := section;
                    subjects := subjects;
                    facultySubjects := facultySubjects;
                    lectureClassrooms := dataOr lectureRooms [];
                    labClassrooms := dataOr labRooms [];
                    tutorialClassrooms := dataOr tutorialRooms [] |} in
      let timetableEntries := generateEntries rand inp existingTimetable in
      if bool_decide (0 < length timetableEntries) then
        match insertError db1 with
        | Some error => (Err error, db1)
        | None => (Ok timetableEntries, withTimetable db1 (timetable db1 ++ timetableEntries))
        end
      else (Ok timetableEntries, db1)
  end end end end end.

(** A catalog read of the run fails. *)
Definition catalogReadFails (db : Store) (sectionId : string) : Prop :=
  match selectSection db sectionId with
  | Err _ => True
  | Ok section =>
      errorOf (selectSubjects db (SectionRow.year_level section)) ≠ None
      ∨ errorOf (selectFacultySubjects db) ≠ None
      ∨ selectExistingError db ≠ None
      ∨ ∃ kind, errorOf (selectClassrooms db kind) ≠ None
  end.

(** The error the run throws for its reads, in the order of the [throw]s:
    [sectionError], [subjectsError], [fsError], [existingError], then
    [lectureRoomsError || labRoomsError || tutorialRoomsError]. *)
Definition readError (db : Store) (sectionId : string) : option string :=
  match selectSection db sectionId with
  | Err sectionError => Some sectionError
  | Ok section =>
  match selectSubjects db (SectionRow.year_level section) with
  | Err subjectsError => Some subjectsError
  | Ok _ =>
  match selectFacultySubjects db with
  | Err fsError => Some fsError
  | Ok _ =>
  match selectExistingError db with
  | Some existingError => Some existingError
  | None =>
  match errorOf (selectClassrooms db lecture) with
  | Some lectureRoomsError => Some lectureRoomsError
  | None =>
  match errorOf (selectClassrooms db lab) with
  | Some labRoomsError => Some labRoomsError
  | None => errorOf (selectClassrooms db tutorial)
  end end end end end end.

(** ** Sample data *)

Definition sampleSubject : Subject.t :=
  {| Subject.id := "MATH"; Subject.year_level := "FY"; Subject.weekly_hours := 7;
     Subject.has_lab := true; Subject.has_tutorial := true |}.

Definition sampleInputs : Inputs :=
  {| sectionId := "S2";
     section := {| SectionRow.id := "S2"; SectionRow.name := "A";
                   SectionRow.year_level := "FY" |};
     subjects := [sampleSubject];
     facultySubjects :=
       [ {| FacultySubject.faculty_id := "F1"; FacultySubject.subject_id := "MATH";
            FacultySubject.subject_types := Some ["lecture"; "lab"] |};
         {| FacultySubject.faculty_id := "F2"; FacultySubject.subject_id := "MATH";
            FacultySubject.subject_types := Some ["tutorial"] |} ];
     lectureClassrooms := [ {| Classroom.id := "R1"; Classroom.room_type := lecture |};
                            {| Classroom.id := "R2"; Classroom.room_type := lecture |} ];
     labClassrooms := [ {| Classroom.id := "L1"; Classroom.room_type := lab |} ];
     tutorialClassrooms := [ {| Classroom.id := "T1"; Classroom.room_type := tutorial |} ] |}.

(** Two sequences of draws: every order left as listed, and the same with
    17:00 moved to the front of the first search for a slot. *)
Definition plainDraws : nat → nat := λ _, 0.
Definition lateDraws : nat → nat := λ n, if n =? 5 then 8 else 0.

(** A store with one lecture subject, one teacher and one lecture room for
    every section of the year, and no entry yet. *)
Definition campus : Store :=
  {| timetable := [];
     deleteFails := false;
     selectSection := λ id, Ok {| SectionRow.id := id; SectionRow.name := id;
                                  SectionRow.year_level := "FY" |};
     selectSubjects := λ _, Ok [ {| Subject.id := "MATH"; Subject.year_level := "FY";
                                    Subject.weekly_hours := 1; Subject.has_lab := false;
                                    Subject.has_tutorial := false |} ];
     selectFacultySubjects :=
       Ok [ {| FacultySubject.faculty_id := "F1"; FacultySubject.subject_id := "MATH";
               FacultySubject.subject_types := Some ["lecture"] |} ];
     selectExistingError := None;
     selectClassrooms := λ kind,
       match kind with
       | lecture => Ok [ {| Classroom.id := "R1"; Classroom.room_type := lecture |} ]
       | _ => Ok []
       end;
     insertError := None |}.

(** The lecture that [lateDraws] puts first: Monday, 17:00 to 18:00. *)
Definition lateLecture (sectionId : string) : Entry.t :=
  {| Entry.section_id := sectionId; Entry.subject_id := "MATH";
     Entry.faculty_id := "F1"; Entry.classroom_id := "R1";
     Entry.day_of_week := Monday; Entry.start_time := "17:00";
     Entry.end_time := "18:00"; Entry.subject_type := lecture;
     Entry.batch_number := None |}.

(** Entries of section S2 for the subject of [sampleInputs]. *)
Definition sampleEntry (kind : SubjectType) (facultyId classroomId : string) (day : Day)
    (start_time end_time : string) (batch : option nat) : Entry.t :=
  {| Entry.section_id := "S2"; Entry.subject_id := "MATH";
     Entry.faculty_id := facultyId; Entry.classroom_id := classroomId;
     Entry.day_of_week := day; Entry.start_time := start_time;
     Entry.end_time := end_time; Entry.subject_type := kind;
     Entry.batch_number := batch |}.

(** Two teachers of the same subject, listed in either order. *)
Definition teacherA : FacultySubject.t :=
  {| FacultySubject.faculty_id := "F1"; FacultySubject.subject_id := "MATH";
     FacultySubject.subject_types := Some ["lecture"] |}.
Definition teacherB : FacultySubject.t :=
  {| FacultySubject.faculty_id := "F2"; FacultySubject.subject_id := "MATH";
     FacultySubject.subject_types := Some ["lecture"] |}.

Definition pairedInputs (listing : list FacultySubject.t) : Inputs :=
  {| sectionId := sectionId sampleInputs;
     section := section sampleInputs;
     subjects := subjects sampleInputs;
     facultySubjects := listing;
     lectureClassrooms := lectureClassrooms sampleInputs;
     labClassrooms := labClassrooms sampleInputs;
     tutorialClassrooms := tutorialClassrooms sampleInputs |}.

(** The state at the end of a run on [sampleInputs]. *)
Definition sampleFinal : Sched := runScheduler plainDraws sampleInputs [].

(** An entry of another section that starts on the half hour. *)
Definition halfHourEntry : Entry.t :=
  {| Entry.section_id := "S1"; Entry.subject_id := "MATH";
     Entry.faculty_id := "F1"; Entry.classroom_id := "R1";
     Entry.day_of_week := Monday; Entry.start_time := "08:30:00";
     Entry.end_time := "10:00:00"; Entry.subject_type := lecture;
     Entry.batch_number := None |}.

(** [campus] with an entry of section S2 in place and the section lookup
    out of order. *)
Definition offlineCampus : Store :=
  {| timetable := [lateLecture "S2"];
     deleteFails := false;
     selectSection := λ _, Err "offline";
     selectSubjects := selectSubjects campus;
     selectFacultySubjects := selectFacultySubjects campus;
     selectExistingError := None;
     selectClassrooms := selectClassrooms campus;
     insertError := None |}.

(** ** Predicates of the invariant *)

Definition occupied (g : Grid) (day : Day) (k : nat) : Prop :=
  ∃ e, schedule g day !! k = Some (Some e).

Definition fullRows (g : Grid) : Prop :=
  ∀ day, length (schedule g day) = length timeSlots.

Definition pairwise {A} (R : A → A → Prop) (l : list A) : Prop :=
  ∀ i j x y, i ≠ j → l !! i = Some x → l !! j = Some y → R x y.

Definition batchTagged (e : Entry.t) : Prop :=
  match Entry.subject_type e with
  | lecture => Entry.batch_number e = None
  | _ => ∃ n, Entry.batch_number e = Some n ∧ 1 ≤ n ≤ 3
  end.

(** The entry sits at slot [i] of its day, clear of the break, on cells the
    section's grid holds as taken. *)
Definition placedAt (g : Grid) (e : Entry.t) (i : nat) : Prop :=
  let d := sessionDuration (Entry.subject_type e) in
  i + d ≤ length timeSlots
  ∧ Entry.start_time e = startLabel i
  ∧ Entry.end_time e = endLabel (i + d)
  ∧ (∀ k, i ≤ k < i + d → k ≠ BREAK_START)
  ∧ (∀ k, i ≤ k < i + d → occupied g (Entry.day_of_week e) k).

Definition sameLecture (e1 e2 : Entry.t) : Prop :=
  Entry.subject_type e1 = lecture ∧ Entry.subject_type e2 = lecture
  ∧ Entry.subject_id e1 = Entry.subject_id e2
  ∧ Entry.day_of_week e1 = Entry.day_of_week e2.

Record Invariant (st : Sched) : Prop := {
  inv_rows : fullRows (grid st);
  inv_placed : ∀ e, e ∈ timetableEntries st → ∃ i, placedAt (grid st) e i;
  inv_tagged : ∀ e, e ∈ timetableEntries st → batchTagged e;
  inv_apart : pairwise (λ e1 e2, ¬ clash e1 e2) (timetableEntries st);
  inv_lectured : ∀ e, e ∈ timetableEntries st → Entry.subject_type e = lecture →
                 Entry.subject_id e ∈ dailySubjectLectures st (Entry.day_of_week e);
  inv_lectures : pairwise (λ e1 e2, ¬ sameLecture e1 e2) (timetableEntries st);
  inv_usage : ∀ facultyId, usageOf (facultyUsageCount st) facultyId
                           = hoursAssigned facultyId (timetableEntries st) }.

(** ** Predicates on the busy grids *)

Definition busyRows (g : Grid) : Prop :=
  ∀ day, length (facultySchedule g day) = length timeSlots
         ∧ length (classroomSchedule g day) = length timeSlots.

(** Teacher and room are both marked at cell [k] of the day. *)
Definition busyAt (g : Grid) (day : Day) (facultyId classroomId : string) (k : nat) : Prop :=
  holds facultyId (facultySchedule g day !! k) = true
  ∧ holds classroomId (classroomSchedule g day !! k) = true.

(** The slots on which the seeding loop marks an existing entry, if any. *)
Definition seededSlots (e : Entry.t) : option (nat * nat) :=
  match getTimeIndex (substring 0 5 (Entry.start_time e)),
        getTimeIndex (substring 0 5 (Entry.end_time e)) with
  | Some s, Some t => Some (s, t)
  | _, _ => None
  end.

Definition blocked (g : Grid) (e : Entry.t) : Prop :=
  ∀ s t k, seededSlots e = Some (s, t) → s ≤ k < t →
           busyAt g (Entry.day_of_week e) (Entry.faculty_id e) (Entry.classroom_id e) k.

Definition sharesResource (e1 e2 : Entry.t) : Prop :=
  Entry.faculty_id e1 = Entry.faculty_id e2
  ∨ Entry.classroom_id e1 = Entry.classroom_id e2.

Record Guarded (existing : list Entry.t) (st : Sched) : Prop := {
  grd_rows : busyRows (grid st);
  grd_blocked : ∀ e, e ∈ existing → blocked (grid st) e;
  grd_clear : ∀ new old, new ∈ timetableEntries st → old ∈ existing →
              seededSlots old ≠ None → sharesResource new old → ¬ clash new old }.

(** ** Vocabulary of the further properties *)

(** From [st] to [st'] the entry list only grew, by at most [n] entries that
    all satisfy [Q]. *)
Definition adds (Q : Entry.t → Prop) (n : nat) (st st' : Sched) : Prop :=
  ∃ added, timetableEntries st' = timetableEntries st ++ added
           ∧ Forall Q added ∧ length added ≤ n.

(** The entry is one the run builds for this subject, kind, teacher and
    batch, in a room of the list loaded for the kind. *)
Definition builtFor (inp : Inputs) (kind : SubjectType) (subject : Subject.t)
    (facultyId : string) (batch : option Batch.t) (e : Entry.t) : Prop :=
  ∃ room day i, room ∈ roomsOf inp kind
                ∧ e = newEntry inp kind subject facultyId room day i batch.

(** Where an entry of a run comes from: a subject of the year, a capability
    row that qualifies its teacher for the kind, a room of the kind. *)
Definition traceable (inp : Inputs) (e : Entry.t) : Prop :=
  ∃ subject faculty batch,
    subject ∈ subjects inp
    ∧ faculty ∈ qualifiedFaculty inp subject (Entry.subject_type e)
    ∧ builtFor inp (Entry.subject_type e) subject
               (FacultySubject.faculty_id faculty) batch e
    ∧ (Entry.subject_type e = lab → Subject.has_lab subject = true)
    ∧ (Entry.subject_type e = tutorial → Subject.has_tutorial subject = true).

Definition countIf (q : Entry.t → bool) (entries : list Entry.t) : nat :=
  length (List.filter q entries).

Definition isLectureOf (subjectId : string) (e : Entry.t) : bool :=
  bool_decide (Entry.subject_type e = lecture ∧ Entry.subject_id e = subjectId).

Definition isPracticalOf (kind : SubjectType) (subjectId : string) (n : nat)
    (e : Entry.t) : bool :=
  bool_decide (Entry.subject_type e = kind ∧ Entry.subject_id e = subjectId
               ∧ Entry.batch_number e = Some n).

(** The rows of one section. *)
Definition sectionRows (sectionId : string) (rows : list Entry.t) : list Entry.t :=
  List.filter (λ e, bool_decide (Entry.section_id e = sectionId)) rows.

(** ** The timetable grid of the page *)

(** The strings of [daysOfWeek], which name the columns of the grid. *)
Definition dayName (day : Day) : string :=
  match day with
  | Monday => "Monday"
  | Tuesday => "Tuesday"
  | Wednesday => "Wednesday"
  | Thursday => "Thursday"
  | Friday => "Friday"
  end.

(** A row of [timetable] as the query of the page returns it.  Its
    [day_of_week] is whatever string the store holds: the enum of
    [database_schema.sql] has Saturday and Sunday besides the five days of
    [daysOfWeek]. *)
Module Row.
Record t := mk {
  section_id : string;
  subject_id : string;
  faculty_id : string;
  classroom_id : string;
  day_of_week : string;
  start_time : string;
  end_time : string;
  subject_type : SubjectType;
  batch_number : option nat }.
End Row.

(** [getTimetableCell]; [timetable] is [None] while the query has no data. *)
Definition getTimetableCell (timetable : option (list Row.t)) (day time : string)
  : list Row.t :=
  match timetable with
  | None => []
  | Some rows =>
      List.filter
        (λ entry,
           let entryTime := substring 0 5 (Row.start_time entry) in
           bool_decide (Row.day_of_week entry = day) && bool_decide (entryTime = time))
        rows
  end.

(** [getActiveTimeSlots]. *)
Definition getActiveTimeSlots (timetable : option (list Row.t)) : list string :=
  match timetable with
  | None => timeSlots
  | Some rows =>
      if bool_decide (length rows = 0) then timeSlots
      else
        let activeTimes : gset string :=
          list_to_set ((λ entry, substring 0 5 (Row.start_time entry)) <$> rows) in
        List.filter (λ slot, bool_decide (slot ∈ activeTimes)) timeSlots
  end.

(** The rows that the store hands back for entries it was given: the same
    day, and a start time that begins with the same [HH:MM]. *)
Definition sameCell (row : Row.t) (e : Entry.t) : Prop :=
  Row.day_of_week row = dayName (Entry.day_of_week e)
  ∧ substring 0 5 (Row.start_time row) = Entry.start_time e.

(** ** Batch sizes of the sections page *)

Module BatchInfo.
Record t := mk {
  totalBatches : Z;
  batchSize : Z;
  batches : list (string * Z) }.
End BatchInfo.

(** The values of the column [student_count INTEGER] that the page passes
    to [getBatchInfo]; the schema with the check constraint keeps them
    positive, the first migration does not. *)
Definition studentCounts (n : Z) : Prop := (0 ≤ n ≤ 2147483647)%Z.

(** [getBatchInfo] of [pages/Sections.tsx], for [studentCounts].  The source
    computes [Math.ceil(studentCount / 3)] on binary64 numbers; a count of
    the column is below [2^31], so the quotient is an integer or lies a
    third or more away from every integer, the rounding of the division
    moves it by less than [2^-22], and the result is the integer ceiling
    written here.  The sums and differences that follow are exact on such
    integers.  For larger numbers the definition says nothing about the
    page. *)
Definition getBatchInfo (studentCount : Z) : BatchInfo.t :=
  let batchSize := (- ((- studentCount) / 3))%Z in
  {| BatchInfo.totalBatches := 3;
     BatchInfo.batchSize := batchSize;
     BatchInfo.batches :=
       List.filter (λ batch, bool_decide (0 < batch.2)%Z)
         [ ("Batch A", Z.min batchSize studentCount);
           ("Batch B", Z.min batchSize (Z.max 0 (studentCount - batchSize)));
           ("Batch C", Z.max 0 (studentCount - 2 * batchSize)) ]%Z |}.

(** [campus] with an insert that is refused. *)
Definition readOnlyCampus : Store :=
  {| timetable := [lateLecture "S2"];
     deleteFails := false;
     selectSection := selectSection campus;
     selectSubjects := selectSubjects campus;
     selectFacultySubjects := selectFacultySubjects campus;
     selectExistingError := None;
     selectClassrooms := selectClassrooms campus;
     insertError := Some "denied" |}.

(** What the store returns for [lateLecture]: times with seconds. *)
Definition storedLateLecture (sectionId : string) : Row.t :=
  {| Row.section_id := sectionId; Row.subject_id := "MATH";
     Row.faculty_id := "F1"; Row.classroom_id := "R1";
     Row.day_of_week := "Monday"; Row.start_time := "17:00:00";
     Row.end_time := "18:00:00"; Row.subject_type := lecture;
     Row.batch_number := None |}.

(** A row of the store on a day that is no column of the grid. *)
Definition saturdayRow : Row.t :=
  {| Row.section_id := "S2"; Row.subject_id := "MATH";
     Row.faculty_id := "F1"; Row.classroom_id := "R1";
     Row.day_of_week := "Saturday"; Row.start_time := "08:00:00";
     Row.end_time := "09:00:00"; Row.subject_type := lecture;
     Row.batch_number := None |}.

(** The catalog of [campus] as section S2 reads it. *)
Definition smallInputs : Inputs :=
  {| sectionId := "S2";
     section := {| SectionRow.id := "S2"; SectionRow.name := "S2";
                   SectionRow.year_level := "FY" |};
     subjects := [ {| Subject.id := "MATH"; Subject.year_level := "FY";
                      Subject.weekly_hours := 1; Subject.has_lab := false;
                      Subject.has_tutorial := false |} ];
     facultySubjects := [teacherA];
     lectureClassrooms := [ {| Classroom.id := "R1"; Classroom.room_type := lecture |} ];
     labClassrooms := [];
     tutorialClassrooms := [] |}.

(** ** Vocabulary of the coverage property *)

(** Some lecture room has a start on [day] that passes the slot tests for
    the teacher. *)
Definition lectureFits (inp : Inputs) (facultyId : string) (g : Grid) (day : Day) : Prop :=
  ∃ room i, room ∈ lectureClassrooms inp
            ∧ slotFits g day 1 facultyId (Classroom.id room) i = true.

(** The candidate days are distinct, each still open for the subject and
    with a fitting room and start; every other day has its lecture. *)
Definition openWeek (inp : Inputs) (subject : Subject.t) (facultyId : string)
    (st : Sched) (days : list Day) : Prop :=
  NoDup days
  ∧ (∀ day, day ∈ days →
            lectureFits inp facultyId (grid st) day
            ∧ Subject.id subject ∉ dailySubjectLectures st day)
  ∧ (∀ day, day ∉ days → Subject.id subject ∈ dailySubjectLectures st day).

(** ** The half-hour revision of the page

    The later text of [pages/Timetable.tsx] schedules on twenty half-hour
    labels and keeps its busy sets in objects keyed by the string
    [`${day}-${time}`]. *)

Module HalfHour.

Definition timeSlots : list string :=
  ["08:00"; "08:30"; "09:00"; "09:30"; "10:00"; "10:30"; "11:00"; "11:30";
   "12:00"; "12:30"; "13:00"; "13:30"; "14:00"; "14:30"; "15:00"; "15:30";
   "16:00"; "16:30"; "17:00"; "17:30"].

(** [timeSlots.indexOf(time)], [-1] when the label is absent. *)
Definition indexOf (time : string) : Z :=
  match list_find (λ t, t = time) timeSlots with
  | Some (i, _) => Z.of_nat i
  | None => -1
  end.

(** [timeSlots[k]] as the template literal prints it. *)
Definition slotText (k : Z) : string :=
  if bool_decide (0 ≤ k)%Z then default "undefined" (timeSlots !! Z.to_nat k)
  else "undefined".

Definition getSlotKey (day time : string) : string := day +:+ "-" +:+ time.

(** [if (!busy[key]) busy[key] = new Set(); busy[key].add(id)] on a
    [Record<string, Set<string>>]. *)
Definition addTo (busy : gmap string (gset string)) (key id : string) : gmap string (gset string) :=
  <[key := default ∅ (busy !! key) ∪ {[id]}]> busy.

(** [busy[key]?.has(id)]. *)
Definition has (busy : gmap string (gset string)) (key id : string) : bool :=
  match busy !! key with
  | Some s => bool_decide (id ∈ s)
  | None => false
  end.

(** One round of the marking loops. *)
Definition markStep (id day : string) (timeIndex : Z) (busy : gmap string (gset string))
    (i : nat) : gmap string (gset string) :=
  if bool_decide (timeIndex + Z.of_nat i < Z.of_nat (length timeSlots))%Z
  then addTo busy (getSlotKey day (slotText (timeIndex + Z.of_nat i))) id
  else busy.

Definition markFacultyBusy (facultySchedule : gmap string (gset string))
    (facultyId day startTime : string) (duration : nat) : gmap string (gset string) :=
  let timeIndex := indexOf startTime in
  foldl (markStep facultyId day timeIndex) facultySchedule (range 0 (duration * 2)).

Definition markClassroomOccupied (classroomSchedule : gmap string (gset string))
    (classroomId day startTime : string) (duration : nat) : gmap string (gset string) :=
  let timeIndex := indexOf startTime in
  foldl (markStep classroomId day timeIndex) classroomSchedule (range 0 (duration * 2)).

(** One round of the checking loops: [false] stands for [return false]. *)
Definition freeStep (busy : gmap string (gset string)) (id day : string) (timeIndex : Z)
    (i : nat) : bool :=
  bool_decide (timeIndex + Z.of_nat i < Z.of_nat (length timeSlots))%Z
  && negb (has busy (getSlotKey day (slotText (timeIndex + Z.of_nat i))) id).

Definition isFacultyAvailable (facultySchedule : gmap string (gset string))
    (facultyId day startTime : string) (duration : nat) : bool :=
  let timeIndex := indexOf startTime in
  forallb (freeStep facultySchedule facultyId day timeIndex) (range 0 (duration * 2)).

Definition isClassroomAvailable (classroomSchedule : gmap string (gset string))
    (classroomId day startTime : string) (duration : nat) : bool :=
  let timeIndex := indexOf startTime in
  forallb (freeStep classroomSchedule classroomId day timeIndex) (range 0 (duration * 2)).

(** The lecture counts of step 1: [Math.max(2, Math.min(weekly_hours, 6))],
    [Math.floor(totalLectures / 5) || 1], [totalLectures % 5], and the
    number of tries on the day with index [dayIndex]. *)
Definition totalLectures (weekly_hours : Z) : Z := Z.max 2 (Z.min weekly_hours 6).

Definition lecturesPerDay (weekly_hours : Z) : Z :=
  let perDay := (totalLectures weekly_hours / 5)%Z in
  if bool_decide (perDay = 0)%Z then 1%Z else perDay.

Definition extraLectures (weekly_hours : Z) : Z := Z.rem (totalLectures weekly_hours) 5.

Definition lecturesToSchedule (weekly_hours : Z) (dayIndex : nat) : Z :=
  (lecturesPerDay weekly_hours
   + if bool_decide (Z.of_nat dayIndex < extraLectures weekly_hours)%Z then 1 else 0)%Z.

(** Tries of one subject over [for (dayIndex = 0; dayIndex < 5; dayIndex++)]. *)
Definition lectureTries (weekly_hours : Z) : Z :=
  foldr Z.add 0%Z (lecturesToSchedule weekly_hours <$> range 0 5).

End HalfHour.

(** * Properties *)

Arguments shuffle : simpl never.
Arguments getRandomStartTimes : simpl never.
Arguments findBestTimeSlot : simpl never.
Arguments timeSlots : simpl never.

(** ** Ranges, orders and labels *)

Lemma elem_of_range lo hi i : i ∈ range lo hi ↔ lo ≤ i < hi.
Proof. unfold range. rewrite elem_of_seq. lia. Qed.

Lemma forallb_range (f : nat → bool) lo hi :
  forallb f (range lo hi) = true ↔ ∀ i, lo ≤ i < hi → f i = true.
Proof.
  rewrite forallb_forall. split; intros H i Hi; apply H.
  - apply list_elem_of_In, elem_of_range, Hi.
  - apply elem_of_range, list_elem_of_In, Hi.
Qed.

Lemma pickOrder_perm {A} rand pos (l : list A) :
  pickOrder rand pos (length l) l ≡ₚ l.
Proof.
  remember (length l) as n eqn:Hn. revert pos l Hn.
  induction n as [|n IH]; intros pos l Hn.
  - destruct l; [done | discriminate].
  - simpl. rewrite <- Hn.
    destruct (lookup_lt_is_Some_2 l (rand pos mod S n)) as [x Hx].
    { rewrite <- Hn. apply Nat.mod_upper_bound. lia. }
    rewrite Hx. etransitivity; [|symmetry; apply (delete_Permutation l _ x Hx)].
    constructor. apply IH. rewrite length_delete by eauto. lia.
Qed.

Lemma shuffle_perm {A} rand pos (l : list A) : (shuffle rand pos l).1 ≡ₚ l.
Proof. apply pickOrder_perm. Qed.

Lemma startLabel_boundary i :
  i < 10 → boundaryIndex (startLabel i) = Some i.
Proof. intros Hi. do 10 (destruct i as [|i]; [reflexivity|]). lia. Qed.

Lemma endLabel_boundary i :
  i ≤ 10 → boundaryIndex (endLabel i) = Some i.
Proof. intros Hi. do 11 (destruct i as [|i]; [reflexivity|]). lia. Qed.

Lemma startLabel_lookup i :
  i < 10 → timeBoundaries !! i = Some (startLabel i).
Proof. intros Hi. do 10 (destruct i as [|i]; [reflexivity|]). lia. Qed.

Lemma endLabel_lookup i :
  i ≤ 10 → timeBoundaries !! i = Some (endLabel i).
Proof. intros Hi. do 11 (destruct i as [|i]; [reflexivity|]). lia. Qed.

Lemma not_overlap_apart (a b : nat * nat) :
  a.1 < a.2 → b.1 < b.2 → ¬ overlap a b → a.2 ≤ b.1 ∨ b.2 ≤ a.1.
Proof.
  intros Ha Hb Hab. destruct (decide (a.2 ≤ b.1)); [by left|].
  destruct (decide (b.2 ≤ a.1)); [by right|].
  exfalso. apply Hab. exists (Nat.max a.1 b.1). lia.
Qed.

Lemma sessionDuration_pos kind : 0 < sessionDuration kind.
Proof. destruct kind; simpl; lia. Qed.

Lemma newEntry_interval inp kind subject fid room day i batch :
  i + sessionDuration kind ≤ 10 →
  slotInterval (newEntry inp kind subject fid room day i batch)
  = Some (i, i + sessionDuration kind).
Proof.
  intros Hi. pose proof (sessionDuration_pos kind).
  unfold slotInterval, newEntry; cbn [Entry.start_time Entry.end_time].
  rewrite startLabel_boundary, endLabel_boundary by lia. done.
Qed.

(** ** The section's own grid *)

Lemma markCell_schedule day fid cid entry g i d :
  schedule (markCell day fid cid entry g i) d
  = if decide (day = d) then <[i := Some entry]> (schedule g day) else schedule g d.
Proof.
  unfold markCell; cbn [schedule]. destruct (decide (day = d)) as [->|Hne].
  - apply fn_lookup_insert.
  - by apply fn_lookup_insert_ne.
Qed.

Lemma markCell_fullRows day fid cid entry g i :
  fullRows g → fullRows (markCell day fid cid entry g i).
Proof.
  intros Hg d. rewrite markCell_schedule. destruct (decide (day = d)).
  - rewrite length_insert. apply Hg.
  - apply Hg.
Qed.

Lemma markCell_occupied_mono day fid cid entry g i d k :
  occupied g d k → occupied (markCell day fid cid entry g i) d k.
Proof.
  intros [e He]. unfold occupied. rewrite markCell_schedule.
  destruct (decide (day = d)) as [->|]; [|eauto].
  destruct (decide (i = k)) as [->|Hne].
  - exists entry. apply list_lookup_insert_eq. by eapply lookup_lt_Some.
  - exists e. by rewrite list_lookup_insert_ne.
Qed.

Lemma markCell_occupied_here day fid cid entry g i :
  fullRows g → i < length timeSlots →
  occupied (markCell day fid cid entry g i) day i.
Proof.
  intros Hg Hi. exists entry. rewrite markCell_schedule, decide_True by done.
  apply list_lookup_insert_eq. by rewrite Hg.
Qed.

Lemma markCells_fullRows day fid cid entry cells g :
  fullRows g → fullRows (foldl (markCell day fid cid entry) g cells).
Proof.
  revert g. induction cells as [|i cells IH]; intros g Hg; [done|].
  simpl. by apply IH, markCell_fullRows.
Qed.

Lemma markCells_occupied_mono day fid cid entry cells g d k :
  occupied g d k → occupied (foldl (markCell day fid cid entry) g cells) d k.
Proof.
  revert g. induction cells as [|i cells IH]; intros g Hg; [done|].
  simpl. by apply IH, markCell_occupied_mono.
Qed.

Lemma markCells_occupied_new day fid cid entry cells g k :
  fullRows g → k ∈ cells → (∀ i, i ∈ cells → i < length timeSlots) →
  occupied (foldl (markCell day fid cid entry) g cells) day k.
Proof.
  revert g. induction cells as [|i cells IH]; intros g Hg Hk Hlt.
  - by apply elem_of_nil in Hk.
  - simpl. apply elem_of_cons in Hk as [->|Hk].
    + apply markCells_occupied_mono, markCell_occupied_here; [done|].
      apply Hlt. by left.
    + apply IH; [by apply markCell_fullRows | done |].
      intros j Hj. apply Hlt. by right.
Qed.

Lemma markSlotOccupied_fullRows g day i d fid cid entry :
  fullRows g → fullRows (markSlotOccupied g day i d fid cid entry).
Proof. apply markCells_fullRows. Qed.

Lemma markSlotOccupied_mono g day i d fid cid entry day' k :
  occupied g day' k → occupied (markSlotOccupied g day i d fid cid entry) day' k.
Proof. apply markCells_occupied_mono. Qed.

Lemma markSlotOccupied_new g day i d fid cid entry k :
  fullRows g → i ≤ k < i + d → i + d ≤ length timeSlots →
  occupied (markSlotOccupied g day i d fid cid entry) day k.
Proof.
  intros Hg Hk Hd. apply markCells_occupied_new; [done| |].
  - apply elem_of_range. lia.
  - intros j Hj%elem_of_range. lia.
Qed.

Lemma seedCell_schedule entry g i : schedule (seedCell entry g i) = schedule g.
Proof. done. Qed.

Lemma seedEntry_schedule g entry : schedule (seedEntry g entry) = schedule g.
Proof.
  unfold seedEntry.
  destruct (getTimeIndex _) as [s|]; [|done].
  destruct (getTimeIndex _) as [t|]; [|done].
  generalize (range s ((s + (t - s)) `min` length timeSlots)) as cells.
  intros cells. revert g. induction cells as [|i cells IH]; intros g; [done|].
  simpl. by rewrite IH.
Qed.

Lemma seedGrid_schedule existing day :
  schedule (seedGrid existing) day = replicate (length timeSlots) None.
Proof.
  unfold seedGrid.
  assert (∀ g, schedule (foldl seedEntry g existing) = schedule g) as ->; [|done].
  induction existing as [|e existing IH]; intros g; [done|].
  simpl. by rewrite IH, seedEntry_schedule.
Qed.

(** What a successful slot test says about the section's grid. *)
Lemma slotFits_spec g day d fid cid i :
  slotFits g day d fid cid i = true →
  i + d ≤ length timeSlots
  ∧ (∀ k, i ≤ k < i + d → k ≠ BREAK_START)
  ∧ (∀ k, i ≤ k < i + d → schedule g day !! k = Some None).
Proof.
  unfold slotFits. rewrite !andb_true_iff.
  intros [[[[_ Hspan] Hslot] _] _].
  unfold isSlotAvailable in Hslot. apply andb_true_iff in Hslot as [Hfree Hend].
  apply bool_decide_eq_true in Hend. split; [done|]. split.
  - intros k Hk ->. apply negb_true_iff in Hspan.
    apply not_true_iff_false in Hspan. apply Hspan.
    apply existsb_exists. exists BREAK_START. split.
    + apply list_elem_of_In, elem_of_range. lia.
    + by apply bool_decide_eq_true.
  - intros k Hk. rewrite forallb_range in Hfree.
    specialize (Hfree k). unfold cellFree in Hfree.
    destruct (schedule g day !! k) as [[e|]|]; try done; discriminate Hfree; lia.
Qed.

Lemma findBestTimeSlot_fits g day d fid room times slot :
  findBestTimeSlot g day d fid room times = Some slot →
  slotFits g day d fid (Classroom.id room) slot = true.
Proof.
  unfold findBestTimeSlot.
  destruct (find _ times) as [s|] eqn:Hfirst.
  - intros [= <-]. by apply find_some in Hfirst as [_ ?].
  - intros Hsecond. by apply find_some in Hsecond as [_ ?].
Qed.

Lemma roomSearch_fits rand g day d fid rooms roomIndex tries pos room slot next pos' :
  roomSearch rand g day d fid rooms roomIndex tries pos = (Some (room, slot, next), pos') →
  slotFits g day d fid (Classroom.id room) slot = true.
Proof.
  revert pos. induction tries as [|i tries IH]; intros pos; cbn [roomSearch]; [done|].
  destruct (rooms !! _) as [r|]; [|done].
  destruct (getRandomStartTimes rand pos) as [times p].
  destruct (findBestTimeSlot g day d fid r times) as [s|] eqn:Hslot.
  - intros [= <- <- _ _]. by eapply findBestTimeSlot_fits.
  - apply IH.
Qed.

(** ** The invariant of a run *)

Lemma pairwise_snoc {A} (R : A → A → Prop) l x :
  Symmetric R → pairwise R l → (∀ y, y ∈ l → R y x) → pairwise R (l ++ [x]).
Proof.
  intros Hsym Hl Hx i j a b Hij Ha Hb.
  apply lookup_snoc_Some in Ha as [[_ Ha]|[-> <-]];
    apply lookup_snoc_Some in Hb as [[_ Hb]|[-> <-]].
  - by eapply Hl.
  - apply Hx. by eapply list_elem_of_lookup_2.
  - symmetry. apply Hx. by eapply list_elem_of_lookup_2.
  - done.
Qed.

Lemma placedAt_interval g e i :
  placedAt g e i →
  slotInterval e = Some (i, i + sessionDuration (Entry.subject_type e)).
Proof.
  intros (Hend & Hs & Ht & _). unfold slotInterval. rewrite Hs, Ht.
  pose proof (sessionDuration_pos (Entry.subject_type e)).
  change (length timeSlots) with 10 in Hend.
  rewrite startLabel_boundary, endLabel_boundary by lia. done.
Qed.

#[local] Instance clash_free_sym : Symmetric (λ e1 e2, ¬ clash e1 e2).
Proof.
  intros e1 e2 H (Hday & a & b & Ha & Hb & k & Hk1 & Hk2). apply H.
  split; [done|]. exists b, a. split; [done|]. split; [done|]. by exists k.
Qed.

#[local] Instance not_sameLecture_sym : Symmetric (λ e1 e2, ¬ sameLecture e1 e2).
Proof. intros e1 e2 H (? & ? & ? & ?). apply H. by repeat split. Qed.

Lemma Invariant_withRpos st pos : Invariant st → Invariant (withRpos st pos).
Proof. intros []. by split. Qed.

Lemma usageOf_insert (usage : gmap string nat) f g v :
  usageOf (<[f := v]> usage) g = if decide (f = g) then v else usageOf usage g.
Proof.
  unfold usageOf. destruct (decide (f = g)) as [->|Hne].
  - by rewrite lookup_insert_eq.
  - by rewrite lookup_insert_ne.
Qed.

(** A session committed after a successful slot test keeps the invariant. *)
Lemma Invariant_placeSession inp st kind subject fid room day i next batch pos :
  Invariant st →
  slotFits (grid st) day (sessionDuration kind) fid (Classroom.id room) i = true →
  (kind = lecture → batch = None ∧ Subject.id subject ∉ dailySubjectLectures st day) →
  (kind ≠ lecture → ∃ b, batch = Some b ∧ 1 ≤ Batch.number b ≤ 3) →
  Invariant (placeSession inp st kind subject fid room day i next batch pos).
Proof.
  intros [Hrows Hplaced Htagged Hapart Hlectured Hlectures Husage] Hfits Hlec Hprac.
  apply slotFits_spec in Hfits as (Hend & Hbreak & Hfree).
  set (entry := newEntry inp kind subject fid room day i batch).
  assert (placedAt (markSlotOccupied (grid st) day i (sessionDuration kind) fid
                                     (Classroom.id room) entry) entry i) as Hnew.
  { repeat split; try done. intros k Hk. by apply markSlotOccupied_new. }
  split; cbn [grid timetableEntries dailySubjectLectures facultyUsageCount placeSession];
    fold entry.
  - by apply markSlotOccupied_fullRows.
  - intros e [He| ->%list_elem_of_singleton]%elem_of_app; [|eauto].
    destruct (Hplaced e He) as (j & ? & ? & ? & ? & Hocc).
    exists j. repeat split; try done.
    intros k Hk. by apply markSlotOccupied_mono, Hocc.
  - intros e [He| ->%list_elem_of_singleton]%elem_of_app; [by apply Htagged|].
    unfold batchTagged, entry; cbn [newEntry Entry.subject_type Entry.batch_number].
    destruct kind.
    + by destruct Hlec as [-> _].
    + destruct Hprac as (b & -> & Hb); [done|]. by exists (Batch.number b).
    + destruct Hprac as (b & -> & Hb); [done|]. by exists (Batch.number b).
  - apply pairwise_snoc; [apply _ | done |].
    intros y Hy (Hday & a & b & Ha & Hb & k & Hk1 & Hk2).
    destruct (Hplaced y Hy) as (j & Hj). pose proof Hj as (_ & _ & _ & _ & Hocc).
    rewrite (placedAt_interval _ _ _ Hj) in Ha.
    rewrite (placedAt_interval _ _ _ Hnew) in Hb.
    injection Ha as <-. injection Hb as <-. cbn [fst snd] in Hk1, Hk2.
    change (Entry.subject_type entry) with kind in *.
    change (Entry.day_of_week entry) with day in Hday.
    destruct (Hocc k Hk1) as [e He].
    rewrite Hday, Hfree in He by done. discriminate.
  - intros e [He| ->%list_elem_of_singleton]%elem_of_app Hkind.
    + destruct kind; [|by apply Hlectured..].
      destruct (decide (day = Entry.day_of_week e)) as [->|Hne].
      * rewrite fn_lookup_insert. apply elem_of_union_l. by apply Hlectured.
      * rewrite fn_lookup_insert_ne by done. by apply Hlectured.
    + change (Entry.subject_type entry) with kind in Hkind. subst kind.
      change (Entry.day_of_week entry) with day.
      rewrite fn_lookup_insert. apply elem_of_union_r.
      by apply elem_of_singleton.
  - apply pairwise_snoc; [apply _ | done |].
    intros y Hy (Hy1 & Hkind & Hsubj & Hday).
    change (Entry.subject_type entry) with kind in Hkind.
    change (Entry.subject_id entry) with (Subject.id subject) in Hsubj.
    change (Entry.day_of_week entry) with day in Hday.
    destruct (Hlec Hkind) as [_ Hfresh]. apply Hfresh.
    rewrite <- Hsubj, <- Hday. by apply Hlectured.
  - intros f. rewrite usageOf_insert. unfold hoursAssigned.
    rewrite List.filter_app, sum_list_with_app. cbn [List.filter].
    change (Entry.faculty_id entry) with fid.
    specialize (Husage f). unfold hoursAssigned in Husage.
    destruct (decide (fid = f)) as [->|Hne].
    + rewrite bool_decide_eq_true_2 by done.
      assert (entryHours entry = sessionDuration kind) as Hhours.
      { unfold entryHours. rewrite (placedAt_interval _ _ _ Hnew).
        change (Entry.subject_type entry) with kind. lia. }
      cbn [sum_list_with]. lia.
    + rewrite bool_decide_eq_false_2 by done. cbn [sum_list_with]. lia.
Qed.

Lemma foldl_preserves {A B} (P : A → Prop) (f : A → B → A) (l : list B) (a : A) :
  (∀ s x, x ∈ l → P s → P (f s x)) → P a → P (foldl f a l).
Proof.
  revert a. induction l as [|x l IH]; intros a Hf Ha; [done|].
  simpl. apply IH.
  - intros s y Hy. apply Hf. by right.
  - apply Hf; [by left | done].
Qed.

Lemma findRoom_fits rand inp st kind day fid room i next pos :
  findRoom rand inp st kind day fid = (Some (room, i, next), pos) →
  slotFits (grid st) day (sessionDuration kind) fid (Classroom.id room) i = true.
Proof. apply roomSearch_fits. Qed.

Lemma batches_numbers inp b : b ∈ batches inp → 1 ≤ Batch.number b ≤ 3.
Proof.
  unfold batches. intros (i & -> & Hi%elem_of_range)%list_elem_of_fmap.
  simpl. lia.
Qed.

(** Every change of the scheduler state is a move of the random cursor or a
    commit after a successful slot test; what those two keep, the run keeps. *)
Section RunInduction.
Variable rand : nat → nat.
Variable inp : Inputs.
Variable P : Sched → Prop.
Hypothesis P_withRpos : ∀ st pos, P st → P (withRpos st pos).
Hypothesis P_placeSession :
  ∀ st kind subject fid room day i next batch pos,
    P st →
    slotFits (grid st) day (sessionDuration kind) fid (Classroom.id room) i = true →
    (kind = lecture → batch = None ∧ Subject.id subject ∉ dailySubjectLectures st day) →
    (kind ≠ lecture → ∃ b, batch = Some b ∧ 1 ≤ Batch.number b ≤ 3) →
    P (placeSession inp st kind subject fid room day i next batch pos).

Lemma lectureRound_preserves shuffledDays subject fid st hours days st' hours' days' :
  lectureRound rand inp shuffledDays subject fid st hours days = (st', hours', days') →
  P st → P st'.
Proof.
  unfold lectureRound. intros Hround Hst.
  destruct (days !! _) as [day|]; [|by simplify_eq].
  case_bool_decide as Hseen; [by simplify_eq|].
  destruct (findRoom rand inp st lecture day fid) as [[[[room i] next]|] pos] eqn:Hroom.
  - simplify_eq. apply P_placeSession; [done | | done | done].
    by eapply findRoom_fits.
  - simplify_eq. by apply P_withRpos.
Qed.

Lemma lectureLoop_preserves fuel shuffledDays subject fid st hours days :
  P st → P (lectureLoop fuel rand inp shuffledDays subject fid st hours days).
Proof.
  revert st hours days. induction fuel as [|fuel IH]; intros st hours days Hst; [done|].
  cbn [lectureLoop]. destruct (lectureGuard subject hours days); [|done].
  destruct (lectureRound rand inp shuffledDays subject fid st hours days)
    as [[st' hours'] days'] eqn:Hround.
  apply IH. by eapply lectureRound_preserves.
Qed.

Lemma scheduleLectures_preserves shuffledDays st subject :
  P st → P (scheduleLectures rand inp shuffledDays st subject).
Proof.
  intros Hst. unfold scheduleLectures.
  destruct (selectLeastUsed _ _); [|done]. by apply lectureLoop_preserves.
Qed.

Lemma scheduleBatch_preserves kind subject fid batch days st :
  kind ≠ lecture → 1 ≤ Batch.number batch ≤ 3 → P st →
  P (scheduleBatch rand inp kind subject fid batch days st).
Proof.
  intros Hkind Hbatch. revert st.
  induction days as [|day days IH]; intros st Hst; [done|].
  cbn [scheduleBatch].
  destruct (findRoom rand inp st kind day fid) as [[[[room i] next]|] pos] eqn:Hroom.
  - apply P_placeSession; [done | | done | eauto].
    by eapply findRoom_fits.
  - by apply IH, P_withRpos.
Qed.

Lemma scheduleBatches_preserves shuffledDays kind subject st :
  kind ≠ lecture → P st → P (scheduleBatches rand inp shuffledDays kind subject st).
Proof.
  intros Hkind Hst. unfold scheduleBatches.
  destruct (selectLeastUsed _ _) as [faculty|]; [|done].
  pose proof (shuffle_perm rand (rpos st) (batches inp)) as Hperm.
  destruct (shuffle rand (rpos st) (batches inp)) as [shuffledBatches pos].
  apply foldl_preserves; [|by apply P_withRpos].
  intros s b Hb Hs. apply scheduleBatch_preserves; [done| |done].
  apply (batches_numbers inp). by rewrite <- Hperm.
Qed.

Lemma schedulePracticals_preserves shuffledDays st subject :
  P st → P (schedulePracticals rand inp shuffledDays st subject).
Proof.
  intros Hst. unfold schedulePracticals.
  assert (P (if Subject.has_lab subject
             then scheduleBatches rand inp shuffledDays lab subject st else st)).
  { destruct (Subject.has_lab subject); [|done]. by apply scheduleBatches_preserves. }
  destruct (Subject.has_tutorial subject); [|done]. by apply scheduleBatches_preserves.
Qed.

Lemma runScheduler_preserves existing :
  (∀ pos, P (initialSched inp existing pos)) → P (runScheduler rand inp existing).
Proof.
  intros Hinit. unfold runScheduler.
  destruct (shuffle rand 0 daysOfWeek) as [shuffledDays pos].
  apply foldl_preserves; [intros; by apply schedulePracticals_preserves|].
  apply foldl_preserves; [intros; by apply scheduleLectures_preserves|].
  apply Hinit.
Qed.
End RunInduction.

Lemma Invariant_initialSched inp existing pos :
  Invariant (initialSched inp existing pos).
Proof.
  split; cbn [initialSched grid timetableEntries dailySubjectLectures facultyUsageCount].
  - intros day. rewrite seedGrid_schedule. apply length_replicate.
  - intros e He. by apply elem_of_nil in He.
  - intros e He. by apply elem_of_nil in He.
  - intros i j x y _ Hx. by rewrite lookup_nil in Hx.
  - intros e He. by apply elem_of_nil in He.
  - intros i j x y _ Hx. by rewrite lookup_nil in Hx.
  - done.
Qed.

Lemma Invariant_runScheduler rand inp existing :
  Invariant (runScheduler rand inp existing).
Proof.
  apply runScheduler_preserves.
  - apply Invariant_withRpos.
  - apply Invariant_placeSession.
  - apply Invariant_initialSched.
Qed.

(** ** The lecture loop ends by its own test *)

Lemma filter_length_lt {A} (f g : A → bool) (l : list A) (x : A) :
  (∀ y, g y = true → f y = true) → x ∈ l → f x = true → g x = false →
  length (List.filter g l) < length (List.filter f l).
Proof.
  intros Hgf Hx Hfx Hgx.
  assert (∀ l', length (List.filter g l') ≤ length (List.filter f l')) as Hle.
  { induction l' as [|y l' IH]; [done|]. simpl.
    destruct (g y) eqn:Hg; [rewrite (Hgf y Hg)|destruct (f y)]; simpl; lia. }
  induction l as [|y l IH]; [by apply elem_of_nil in Hx|].
  apply elem_of_cons in Hx as [<-|Hx]; simpl.
  - rewrite Hfx, Hgx. simpl. specialize (Hle l). lia.
  - specialize (IH Hx).
    destruct (g y) eqn:Hg; [rewrite (Hgf y Hg)|destruct (f y)]; simpl; lia.
Qed.

Lemma elem_of_daysOfWeek day : day ∈ daysOfWeek.
Proof. destruct day; unfold daysOfWeek; set_solver. Qed.

Lemma openDays_placeSession inp st subject fid room day i next batch pos :
  Subject.id subject ∉ dailySubjectLectures st day →
  openDays (placeSession inp st lecture subject fid room day i next batch pos) subject
  < openDays st subject.
Proof.
  intros Hfresh. unfold openDays. cbn [placeSession dailySubjectLectures].
  apply (filter_length_lt _ _ _ day).
  - intros d Hd. apply negb_true_iff, bool_decide_eq_false in Hd.
    apply negb_true_iff, bool_decide_eq_false. intros Hin. apply Hd.
    destruct (decide (day = d)) as [->|Hne].
    + rewrite fn_lookup_insert. by apply elem_of_union_l.
    + by rewrite fn_lookup_insert_ne.
  - apply elem_of_daysOfWeek.
  - by apply negb_true_iff, bool_decide_eq_false.
  - apply negb_false_iff, bool_decide_eq_true. rewrite fn_lookup_insert.
    by apply elem_of_union_r, elem_of_singleton.
Qed.

Lemma filter_length_le {A} (f : A → bool) (l : list A) :
  length (List.filter f l) ≤ length l.
Proof. induction l as [|x l IH]; simpl; [done|]. destruct (f x); simpl; lia. Qed.

Lemma lectureRound_measure rand inp shuffledDays subject fid st hours days st' hours' days' :
  lectureGuard subject hours days = true →
  lectureRound rand inp shuffledDays subject fid st hours days = (st', hours', days') →
  lectureMeasure shuffledDays st' subject days' < lectureMeasure shuffledDays st subject days.
Proof.
  unfold lectureGuard, lectureRound, lectureMeasure.
  intros [_ Hdays%bool_decide_eq_true]%andb_true_iff Hround.
  assert (hours mod length days < length days) as Hidx
    by (apply Nat.mod_upper_bound; lia).
  destruct (lookup_lt_is_Some_2 days _ Hidx) as [day Hday]. rewrite Hday in Hround.
  assert (length (delete (hours mod length days) days) = length days - 1) as Hdel.
  { rewrite length_delete by eauto. lia. }
  case_bool_decide as Hseen; [simplify_eq; lia|].
  destruct (findRoom rand inp st lecture day fid) as [[[[room i] next]|] pos] eqn:Hroom.
  - simplify_eq.
    pose proof (openDays_placeSession inp st subject fid room day i next None pos Hseen).
    rewrite length_app, Hdel.
    match goal with
    | |- context [length (if ?c then ?l else [])] =>
        assert (length (if c then l else []) ≤
                if bool_decide (length days - 1 = 0) then length shuffledDays else 0) as Hfill
    end.
    { case_bool_decide; simpl; [|lia].
      destruct (bool_decide _); [apply filter_length_le | simpl; lia]. }
    case_bool_decide; nia.
  - simplify_eq. change (openDays (withRpos st pos) subject) with (openDays st subject). lia.
Qed.

(** Any two amounts of fuel above the measure give the same state: the
    [while] loop has left through its test before the fuel is spent. *)
Lemma lectureLoop_fuel fuel1 fuel2 rand inp shuffledDays subject fid st hours days :
  lectureMeasure shuffledDays st subject days < fuel1 →
  lectureMeasure shuffledDays st subject days < fuel2 →
  lectureLoop fuel1 rand inp shuffledDays subject fid st hours days
  = lectureLoop fuel2 rand inp shuffledDays subject fid st hours days.
Proof.
  revert fuel2 st hours days.
  induction fuel1 as [|fuel1 IH]; intros fuel2 st hours days H1 H2; [lia|].
  destruct fuel2 as [|fuel2]; [lia|]. cbn [lectureLoop].
  destruct (lectureGuard subject hours days) eqn:Hguard; [|done].
  destruct (lectureRound rand inp shuffledDays subject fid st hours days)
    as [[st' hours'] days'] eqn:Hround.
  pose proof (lectureRound_measure _ _ _ _ _ _ _ _ _ _ _ Hguard Hround).
  apply IH; lia.
Qed.

(** The fuel handed to the loop by [scheduleLectures] is such an amount. *)
Lemma scheduleLectures_fuel rand inp shuffledDays st subject faculty extra :
  selectLeastUsed (facultyUsageCount st) (qualifiedFaculty inp subject lecture)
  = Some faculty →
  scheduleLectures rand inp shuffledDays st subject
  = lectureLoop (lectureFuel shuffledDays st subject + extra) rand inp shuffledDays subject
                (FacultySubject.faculty_id faculty) st 0 shuffledDays.
Proof.
  intros Hsel. unfold scheduleLectures. rewrite Hsel.
  apply lectureLoop_fuel; unfold lectureFuel; lia.
Qed.

(** ** Entries of a run *)

Lemma generated_placed rand inp existing e :
  e ∈ generateEntries rand inp existing →
  ∃ i, placedAt (grid (runScheduler rand inp existing)) e i.
Proof. apply inv_placed, Invariant_runScheduler. Qed.

(** C4: every entry of a run covers a non-empty slot interval [[s, t)] that
    holds no break slot (index 4, the 12:00 slot); a lecture or tutorial
    never starts there and a lab neither starts there nor runs over it. *)
Theorem break_exclusion rand inp existing e :
  e ∈ generateEntries rand inp existing →
  timeSlots !! BREAK_START = Some "12:00"
  ∧ ∃ s t, slotInterval e = Some (s, t) ∧ s < t
           ∧ ∀ k, s ≤ k < t → k ≠ BREAK_START.
Proof.
  intros [i Hi]%generated_placed. split; [done|].
  exists i, (i + sessionDuration (Entry.subject_type e)).
  pose proof (sessionDuration_pos (Entry.subject_type e)).
  split; [by eapply placedAt_interval|]. split; [lia|].
  by destruct Hi as (_ & _ & _ & Hbreak & _).
Qed.

Lemma break_exclusion_witness :
  lateLecture "S2" ∈ generateEntries lateDraws sampleInputs []
  ∧ ∃ s t, slotInterval (lateLecture "S2") = Some (s, t) ∧ s < t
           ∧ ∀ k, s ≤ k < t → k ≠ BREAK_START.
Proof.
  assert (lateLecture "S2" ∈ generateEntries lateDraws sampleInputs []) as Hin.
  { apply (list_elem_of_lookup_2 _ 0). vm_compute. reflexivity. }
  split; [exact Hin|].
  exact (proj2 (break_exclusion lateDraws sampleInputs [] _ Hin)).
Defined.

(** C5: a lab entry of a run ends two slots after it starts, a lecture or
    tutorial entry one slot after; the end may be the 18:00 mark, boundary
    10, which follows the last listed slot. *)
Theorem duration_law rand inp existing e :
  e ∈ generateEntries rand inp existing →
  ∃ s t, slotInterval e = Some (s, t)
         ∧ timeBoundaries !! s = Some (Entry.start_time e)
         ∧ timeBoundaries !! t = Some (Entry.end_time e)
         ∧ (Entry.subject_type e = lab → t = s + 2)
         ∧ (Entry.subject_type e = lecture ∨ Entry.subject_type e = tutorial → t = s + 1).
Proof.
  intros [i Hi]%generated_placed.
  exists i, (i + sessionDuration (Entry.subject_type e)).
  split; [by eapply placedAt_interval|].
  destruct Hi as (Hend & -> & -> & _). change (length timeSlots) with 10 in Hend.
  pose proof (sessionDuration_pos (Entry.subject_type e)).
  split; [|split; [|split]].
  - apply startLabel_lookup. lia.
  - by apply endLabel_lookup.
  - by intros ->.
  - by intros [-> | ->].
Qed.

Lemma duration_law_witness :
  lateLecture "S2" ∈ generateEntries lateDraws sampleInputs []
  ∧ ∃ s t, slotInterval (lateLecture "S2") = Some (s, t)
           ∧ timeBoundaries !! s = Some "17:00"
           ∧ timeBoundaries !! t = Some "18:00"
           ∧ (lecture = lab → t = s + 2)
           ∧ (lecture = lecture ∨ lecture = tutorial → t = s + 1).
Proof.
  assert (lateLecture "S2" ∈ generateEntries lateDraws sampleInputs []) as Hin.
  { apply (list_elem_of_lookup_2 _ 0). vm_compute. reflexivity. }
  split; [exact Hin|].
  exact (duration_law lateDraws sampleInputs [] _ Hin).
Defined.

(** C7: in the entries of a run a lecture carries no batch number, and a
    lab or tutorial carries batch number 1, 2 or 3. *)
Theorem batch_tagging rand inp existing e :
  e ∈ generateEntries rand inp existing →
  (Entry.subject_type e = lecture → Entry.batch_number e = None)
  ∧ (Entry.subject_type e = lab ∨ Entry.subject_type e = tutorial →
     ∃ n, Entry.batch_number e = Some n ∧ n ∈ [1; 2; 3]).
Proof.
  intros He. pose proof (inv_tagged _ (Invariant_runScheduler rand inp existing) e He) as Htag.
  unfold batchTagged in Htag. split.
  - intros Hkind. by rewrite Hkind in Htag.
  - intros Hkind.
    assert (∃ n, Entry.batch_number e = Some n ∧ 1 ≤ n ≤ 3) as (n & Hn & Hrange).
    { destruct Hkind as [Hkind|Hkind]; by rewrite Hkind in Htag. }
    exists n. split; [done|].
    destruct n as [|[|[|[|n]]]]; [lia| | | |lia]; repeat constructor.
Qed.

Lemma batch_tagging_witness :
  lateLecture "S2" ∈ generateEntries lateDraws sampleInputs []
  ∧ (lecture = lecture → Entry.batch_number (lateLecture "S2") = None)
  ∧ (lecture = lab ∨ lecture = tutorial →
     ∃ n, Entry.batch_number (lateLecture "S2") = Some n ∧ n ∈ [1; 2; 3]).
Proof.
  assert (lateLecture "S2" ∈ generateEntries lateDraws sampleInputs []) as Hin.
  { apply (list_elem_of_lookup_2 _ 0). vm_compute. reflexivity. }
  split; [exact Hin|].
  exact (batch_tagging lateDraws sampleInputs [] _ Hin).
Defined.

(** C9: two entries of one run never share a slot of a day, whatever their
    batches, rooms and teachers: each commit needs the cells of the
    section's own grid free and leaves them taken. *)
Theorem no_overlap_within_run rand inp existing i j e1 e2 :
  i ≠ j →
  generateEntries rand inp existing !! i = Some e1 →
  generateEntries rand inp existing !! j = Some e2 →
  ∃ a b, slotInterval e1 = Some a ∧ slotInterval e2 = Some b
         ∧ a.1 < a.2 ∧ b.1 < b.2
         ∧ (Entry.day_of_week e1 = Entry.day_of_week e2 →
            ¬ overlap a b ∧ (a.2 ≤ b.1 ∨ b.2 ≤ a.1)).
Proof.
  intros Hij H1 H2.
  pose proof (Invariant_runScheduler rand inp existing) as Hinv.
  destruct (inv_placed _ Hinv e1) as [s1 Hs1]; [by eapply list_elem_of_lookup_2|].
  destruct (inv_placed _ Hinv e2) as [s2 Hs2]; [by eapply list_elem_of_lookup_2|].
  pose proof (sessionDuration_pos (Entry.subject_type e1)).
  pose proof (sessionDuration_pos (Entry.subject_type e2)).
  eexists _, _. split; [by eapply placedAt_interval|].
  split; [by eapply placedAt_interval|]. cbn [fst snd].
  split; [lia|]. split; [lia|].
  intros Hday.
  assert (¬ overlap (s1, s1 + sessionDuration (Entry.subject_type e1))
                    (s2, s2 + sessionDuration (Entry.subject_type e2))) as Hapart.
  { intros Hover. apply (inv_apart _ Hinv i j e1 e2 Hij H1 H2).
    split; [done|]. eexists _, _.
    split; [by eapply placedAt_interval|]. split; [by eapply placedAt_interval|]. done. }
  split; [done|].
  apply (not_overlap_apart (s1, s1 + sessionDuration (Entry.subject_type e1))
                           (s2, s2 + sessionDuration (Entry.subject_type e2)));
    [cbn [fst snd]; lia..|done].
Qed.

Lemma no_overlap_within_run_witness :
  let e1 := sampleEntry lab "F1" "L1" Monday "09:00" "11:00" (Some 1) in
  let e2 := sampleEntry lab "F1" "L1" Monday "13:00" "15:00" (Some 2) in
  generateEntries plainDraws sampleInputs [] !! 5 = Some e1
  ∧ generateEntries plainDraws sampleInputs [] !! 6 = Some e2
  ∧ ∃ a b, slotInterval e1 = Some a ∧ slotInterval e2 = Some b
           ∧ a.1 < a.2 ∧ b.1 < b.2
           ∧ (Entry.day_of_week e1 = Entry.day_of_week e2 →
              ¬ overlap a b ∧ (a.2 ≤ b.1 ∨ b.2 ≤ a.1)).
Proof.
  intros e1 e2.
  assert (generateEntries plainDraws sampleInputs [] !! 5 = Some e1) as H1
    by (vm_compute; reflexivity).
  assert (generateEntries plainDraws sampleInputs [] !! 6 = Some e2) as H2
    by (vm_compute; reflexivity).
  split; [exact H1|]. split; [exact H2|].
  apply (no_overlap_within_run plainDraws sampleInputs [] 5 6 e1 e2); [lia | exact H1 | exact H2].
Defined.

(** C6: among the entries of one run no two lectures of a subject fall on the
    same day, also when the candidate days were refilled on the way. *)
Theorem one_lecture_per_day rand inp existing i j e1 e2 :
  i ≠ j →
  generateEntries rand inp existing !! i = Some e1 →
  generateEntries rand inp existing !! j = Some e2 →
  Entry.subject_type e1 = lecture →
  Entry.subject_type e2 = lecture →
  Entry.subject_id e1 = Entry.subject_id e2 →
  Entry.day_of_week e1 ≠ Entry.day_of_week e2.
Proof.
  intros Hij H1 H2 Hk1 Hk2 Hsubj Hday.
  apply (inv_lectures _ (Invariant_runScheduler rand inp existing) i j e1 e2 Hij H1 H2).
  by repeat split.
Qed.

Lemma one_lecture_per_day_witness :
  let e1 := sampleEntry lecture "F1" "R1" Monday "08:00" "09:00" None in
  let e2 := sampleEntry lecture "F1" "R2" Wednesday "08:00" "09:00" None in
  generateEntries plainDraws sampleInputs [] !! 0 = Some e1
  ∧ generateEntries plainDraws sampleInputs [] !! 1 = Some e2
  ∧ Entry.day_of_week e1 ≠ Entry.day_of_week e2.
Proof.
  intros e1 e2.
  assert (generateEntries plainDraws sampleInputs [] !! 0 = Some e1) as H1
    by (vm_compute; reflexivity).
  assert (generateEntries plainDraws sampleInputs [] !! 1 = Some e2) as H2
    by (vm_compute; reflexivity).
  split; [exact H1|]. split; [exact H2|].
  apply (one_lecture_per_day plainDraws sampleInputs [] 0 1 e1 e2);
    [lia | exact H1 | exact H2 | reflexivity | reflexivity | reflexivity].
Defined.

(** ** Seeding *)

Lemma getTimeIndex_None time : time ∉ timeSlots → getTimeIndex time = None.
Proof.
  intros Hout. unfold getTimeIndex.
  assert (list_find (λ t, t = time) timeSlots = None) as ->; [|done].
  apply list_find_None, Forall_forall. intros t Ht Heq. subst t.
  by apply Hout, list_elem_of_In.
Qed.

Lemma seedEntry_unaligned g entry :
  substring 0 5 (Entry.start_time entry) ∉ timeSlots
  ∨ substring 0 5 (Entry.end_time entry) ∉ timeSlots →
  seedEntry g entry = g.
Proof.
  unfold seedEntry. intros [Hs|Ht].
  - by rewrite (getTimeIndex_None _ Hs).
  - rewrite (getTimeIndex_None _ Ht). by destruct (getTimeIndex _).
Qed.

(** C10: an entry of another section whose start or end, cut to [HH:MM], is
    none of the ten labels 08:00 to 17:00 leaves the grid as it was when
    it is seeded, and the run produces what it produces without that entry
    among the existing ones. *)
Theorem unaligned_entry_is_skipped entry :
  substring 0 5 (Entry.start_time entry) ∉ timeSlots
  ∨ substring 0 5 (Entry.end_time entry) ∉ timeSlots →
  (∀ g, seedEntry g entry = g)
  ∧ ∀ rand inp before after,
      generateEntries rand inp (before ++ entry :: after)
      = generateEntries rand inp (before ++ after).
Proof.
  intros Hout. split; [intros g; by apply seedEntry_unaligned|].
  intros rand inp before after.
  assert (seedGrid (before ++ entry :: after) = seedGrid (before ++ after)) as Hseed.
  { unfold seedGrid. rewrite !foldl_app. cbn [foldl].
    by rewrite seedEntry_unaligned. }
  unfold generateEntries, runScheduler, initialSched. by rewrite Hseed.
Qed.

Lemma unaligned_entry_is_skipped_witness :
  (substring 0 5 (Entry.start_time halfHourEntry) ∉ timeSlots
   ∨ substring 0 5 (Entry.end_time halfHourEntry) ∉ timeSlots)
  ∧ (∀ g, seedEntry g halfHourEntry = g)
  ∧ ∀ rand inp before after,
      generateEntries rand inp (before ++ halfHourEntry :: after)
      = generateEntries rand inp (before ++ after).
Proof.
  assert (substring 0 5 (Entry.start_time halfHourEntry) ∉ timeSlots
          ∨ substring 0 5 (Entry.end_time halfHourEntry) ∉ timeSlots) as Hout.
  { left. intros Hin. apply (bool_decide_pack _) in Hin. vm_compute in Hin. exact Hin. }
  split; [exact Hout|]. exact (unaligned_entry_is_skipped halfHourEntry Hout).
Defined.

(** ** Choice of the teacher *)

Lemma leastUsed_fold usage first rest :
  let load c := usageOf usage (FacultySubject.faculty_id c) in
  let chosen := foldl (leastUsedStep usage) first rest in
  (∀ c, c ∈ first :: rest → load chosen ≤ load c)
  ∧ ∃ before after, first :: rest = before ++ chosen :: after
                    ∧ ∀ c, c ∈ before → load chosen < load c.
Proof.
  intros load. induction rest as [|x rest IH] using rev_ind; intros chosen.
  - split.
    + intros c ->%list_elem_of_singleton. done.
    + exists [], []. split; [done|]. intros c Hc. by apply elem_of_nil in Hc.
  - subst chosen. rewrite foldl_app. cbn [foldl].
    destruct IH as (Hmin & before & after & Hsplit & Hbefore).
    set (best := foldl (leastUsedStep usage) first rest) in *.
    unfold leastUsedStep. fold (load x) (load best). case_bool_decide as Hlt.
    + split.
      * intros c Hc. rewrite app_comm_cons in Hc.
        apply elem_of_app in Hc as [Hc| ->%list_elem_of_singleton]; [|done].
        specialize (Hmin c Hc). lia.
      * exists (first :: rest), []. split; [by rewrite app_comm_cons|].
        intros c Hc. specialize (Hmin c Hc). lia.
    + split.
      * intros c Hc. rewrite app_comm_cons in Hc.
        apply elem_of_app in Hc as [Hc| ->%list_elem_of_singleton]; [by apply Hmin|lia].
      * exists before, (after ++ [x]). split; [|done].
        by rewrite app_comm_cons, Hsplit, <- app_assoc.
Qed.

Lemma selectLeastUsed_spec usage qualified chosen :
  selectLeastUsed usage qualified = Some chosen →
  let load c := usageOf usage (FacultySubject.faculty_id c) in
  (∀ c, c ∈ qualified → load chosen ≤ load c)
  ∧ ∃ before after, qualified = before ++ chosen :: after
                    ∧ ∀ c, c ∈ before → load chosen < load c.
Proof.
  destruct qualified as [|first rest]; [done|]. intros [= <-].
  apply leastUsed_fold.
Qed.

(** C8, as the code has it: the teacher chosen for a subject and a session
    kind is a capability row of that subject listing the kind, none of the
    qualified rows has fewer hours in the entries of the run so far, and
    among the rows with as few hours it is the one listed first. *)
Theorem least_loaded_first_listed inp st subject kind chosen :
  Invariant st →
  selectLeastUsed (facultyUsageCount st) (qualifiedFaculty inp subject kind) = Some chosen →
  let load c := hoursAssigned (FacultySubject.faculty_id c) (timetableEntries st) in
  chosen ∈ facultySubjects inp
  ∧ FacultySubject.subject_id chosen = Subject.id subject
  ∧ (∃ types, FacultySubject.subject_types chosen = Some types ∧ typeName kind ∈ types)
  ∧ (∀ c, c ∈ qualifiedFaculty inp subject kind → load chosen ≤ load c)
  ∧ ∃ before after, qualifiedFaculty inp subject kind = before ++ chosen :: after
                    ∧ ∀ c, c ∈ before → load chosen < load c.
Proof.
  intros Hinv Hsel load.
  destruct (selectLeastUsed_spec _ _ _ Hsel) as (Hmin & before & after & Hsplit & Hbefore).
  assert (chosen ∈ qualifiedFaculty inp subject kind) as Hin.
  { rewrite Hsplit. apply elem_of_app. right. by left. }
  apply list_elem_of_In, filter_In in Hin as [Hin Hq].
  unfold isQualified in Hq. apply andb_true_iff in Hq as [Hsubj Htypes].
  apply bool_decide_eq_true in Hsubj.
  split; [by apply list_elem_of_In|]. split; [done|]. split.
  { destruct (FacultySubject.subject_types chosen) as [types|]; [|done].
    exists types. split; [done|]. by apply bool_decide_eq_true in Htypes. }
  unfold load. split.
  - intros c Hc. rewrite <- !(inv_usage _ Hinv). by apply Hmin.
  - exists before, after. split; [done|].
    intros c Hc. rewrite <- !(inv_usage _ Hinv). by apply Hbefore.
Qed.

Lemma least_loaded_first_listed_witness :
  selectLeastUsed (facultyUsageCount sampleFinal)
                  (qualifiedFaculty (pairedInputs [teacherA; teacherB]) sampleSubject lecture)
  = Some teacherB
  ∧ (∀ c, c ∈ qualifiedFaculty (pairedInputs [teacherA; teacherB]) sampleSubject lecture →
          hoursAssigned (FacultySubject.faculty_id teacherB) (timetableEntries sampleFinal)
          ≤ hoursAssigned (FacultySubject.faculty_id c) (timetableEntries sampleFinal))
  ∧ ∃ before after,
      qualifiedFaculty (pairedInputs [teacherA; teacherB]) sampleSubject lecture
      = before ++ teacherB :: after
      ∧ ∀ c, c ∈ before →
             hoursAssigned (FacultySubject.faculty_id teacherB) (timetableEntries sampleFinal)
             < hoursAssigned (FacultySubject.faculty_id c) (timetableEntries sampleFinal).
Proof.
  assert (selectLeastUsed (facultyUsageCount sampleFinal)
            (qualifiedFaculty (pairedInputs [teacherA; teacherB]) sampleSubject lecture)
          = Some teacherB) as Hsel by (vm_compute; reflexivity).
  split; [exact Hsel|].
  exact (proj2 (proj2 (proj2
    (least_loaded_first_listed (pairedInputs [teacherA; teacherB]) sampleFinal
       sampleSubject lecture teacherB
       (Invariant_runScheduler plainDraws sampleInputs []) Hsel)))).
Defined.

(** C8, as stated, fails: no order on faculty ids settles the ties, the
    choice among equally loaded teachers follows the order of the rows. *)
Lemma tie_break_not_by_id :
  ¬ ∃ before : string → string → Prop,
      (∀ a b, before a b → ¬ before b a)
      ∧ ∀ usage qualified chosen c,
          selectLeastUsed usage qualified = Some chosen →
          c ∈ qualified →
          usageOf usage (FacultySubject.faculty_id c)
          = usageOf usage (FacultySubject.faculty_id chosen) →
          FacultySubject.faculty_id c ≠ FacultySubject.faculty_id chosen →
          before (FacultySubject.faculty_id chosen) (FacultySubject.faculty_id c).
Proof.
  intros (before & Hasym & Hties).
  assert (before "F1" "F2") as H12.
  { apply (Hties ∅ [teacherA; teacherB] teacherA teacherB); [done| |done|done].
    right. by left. }
  assert (before "F2" "F1") as H21.
  { apply (Hties ∅ [teacherB; teacherA] teacherB teacherA); [done| |done|done].
    right. by left. }
  by apply (Hasym _ _ H12).
Qed.

(** ** The run against the store *)

Lemma deleteSection_reads db sectionId :
  selectSection (deleteSection db sectionId) = selectSection db
  ∧ selectSubjects (deleteSection db sectionId) = selectSubjects db
  ∧ selectFacultySubjects (deleteSection db sectionId) = selectFacultySubjects db
  ∧ selectExistingError (deleteSection db sectionId) = selectExistingError db
  ∧ selectClassrooms (deleteSection db sectionId) = selectClassrooms db.
Proof. unfold deleteSection. by destruct (deleteFails db). Qed.

(** C2, as the code has it: the run deletes the entries of the target
    section first and reads the catalog afterwards; when a read fails the run
    ends with the error of the first read that failed, in the order of the
    [throw]s, and inserts nothing: the store is left as the deletion made
    it, so where the deletion took effect the old entries of the target
    section are gone. *)
Theorem read_failure_after_delete rand db sectionId :
  catalogReadFails db sectionId →
  ∃ error,
    readError db sectionId = Some error
    ∧ mutationFn rand db sectionId = (Err error, deleteSection db sectionId)
    ∧ timetable (deleteSection db sectionId)
      = if deleteFails db then timetable db
        else otherSections sectionId (timetable db).
Proof.
  intros Hfail.
  assert (timetable (deleteSection db sectionId)
          = if deleteFails db then timetable db
            else otherSections sectionId (timetable db)) as Hrows.
  { unfold deleteSection. by destruct (deleteFails db). }
  destruct (deleteSection_reads db sectionId) as (Hsec & Hsub & Hfs & Hex & Hrooms).
  unfold mutationFn, selectExisting, catalogReadFails, readError in *.
  rewrite Hsec, Hsub, Hfs, Hex, Hrooms.
  destruct (selectSection db sectionId) as [section|e]; [|eauto].
  destruct (selectSubjects db _) as [subjects|e]; [|eauto].
  destruct (selectFacultySubjects db) as [fs|e]; [|eauto].
  destruct (selectExistingError db) as [e|]; [eauto|].
  destruct (selectClassrooms db lecture) as [r1|e] eqn:H1; [|cbn [errorOf]; eauto].
  destruct (selectClassrooms db lab) as [r2|e] eqn:H2; [|cbn [errorOf]; eauto].
  destruct (selectClassrooms db tutorial) as [r3|e] eqn:H3; [|cbn [errorOf]; eauto].
  exfalso. destruct Hfail as [?|[?|[?|[kind Hkind]]]]; try done.
  destruct kind; by rewrite ?H1, ?H2, ?H3 in Hkind.
Qed.

Lemma read_failure_after_delete_witness :
  catalogReadFails offlineCampus "S2"
  ∧ readError offlineCampus "S2" = Some "offline"
  ∧ ∃ error,
      readError offlineCampus "S2" = Some error
      ∧ mutationFn plainDraws offlineCampus "S2"
        = (Err error, deleteSection offlineCampus "S2")
      ∧ timetable (deleteSection offlineCampus "S2")
        = if deleteFails offlineCampus then timetable offlineCampus
          else otherSections "S2" (timetable offlineCampus).
Proof.
  assert (catalogReadFails offlineCampus "S2") as Hfail by exact I.
  split; [exact Hfail|]. split; [reflexivity|].
  exact (read_failure_after_delete plainDraws offlineCampus "S2" Hfail).
Defined.

(** C2, as stated, fails: with the section lookup out of order the run ends
    in an error and the entry section S2 had is gone. *)
Lemma read_failure_loses_schedule :
  catalogReadFails offlineCampus "S2"
  ∧ timetable offlineCampus = [lateLecture "S2"]
  ∧ (mutationFn plainDraws offlineCampus "S2").1 = Err "offline"
  ∧ timetable (mutationFn plainDraws offlineCampus "S2").2 = [].
Proof. split; [exact I|]. split; [done|]. split; vm_compute; reflexivity. Qed.

(** C1, which the code breaks: two runs in a row, for sections S1 and S2 of
    [campus], leave the same teacher in the same room on Monday from 17:00 to
    18:00 for both sections.  The entry of S1 ends at 18:00, which is no slot
    label, so the second run does not seed it. *)
Theorem double_booking_after_two_runs :
  let db1 := (mutationFn lateDraws campus "S1").2 in
  let db2 := (mutationFn lateDraws db1 "S2").2 in
  timetable db1 = [lateLecture "S1"]
  ∧ timetable db2 = [lateLecture "S1"; lateLecture "S2"]
  ∧ seedGrid [lateLecture "S1"] = emptyGrid
  ∧ Entry.faculty_id (lateLecture "S1") = Entry.faculty_id (lateLecture "S2")
  ∧ Entry.classroom_id (lateLecture "S1") = Entry.classroom_id (lateLecture "S2")
  ∧ clash (lateLecture "S1") (lateLecture "S2").
Proof.
  intros db1 db2.
  split; [vm_compute; reflexivity|]. split; [vm_compute; reflexivity|].
  split; [reflexivity|]. split; [reflexivity|]. split; [reflexivity|].
  split; [reflexivity|]. exists (9, 10), (9, 10).
  split; [reflexivity|]. split; [reflexivity|]. exists 9. simpl. lia.
Qed.

(** ** Dependence on the random source *)

Section SameDraws.
Variables rand1 rand2 : nat → nat.
Hypothesis same_draws : ∀ n, rand1 n = rand2 n.

Lemma pickOrder_same {A} pos n (l : list A) :
  pickOrder rand1 pos n l = pickOrder rand2 pos n l.
Proof using same_draws.
  revert pos l. induction n as [|n IH]; intros pos l; [done|].
  cbn [pickOrder]. rewrite same_draws.
  destruct (l !! _); [|done]. by rewrite IH.
Qed.

Lemma shuffle_same {A} pos (l : list A) : shuffle rand1 pos l = shuffle rand2 pos l.
Proof using same_draws. unfold shuffle. by rewrite pickOrder_same. Qed.

Lemma roomSearch_same g day d fid rooms roomIndex tries pos :
  roomSearch rand1 g day d fid rooms roomIndex tries pos
  = roomSearch rand2 g day d fid rooms roomIndex tries pos.
Proof using same_draws.
  revert pos. induction tries as [|i tries IH]; intros pos; [done|].
  cbn [roomSearch]. destruct (rooms !! _) as [room|]; [|done].
  unfold getRandomStartTimes. rewrite shuffle_same.
  destruct (shuffle rand2 pos _) as [times pos'].
  destruct (findBestTimeSlot g day d fid room times); [done|]. apply IH.
Qed.

Lemma findRoom_same inp st kind day fid :
  findRoom rand1 inp st kind day fid = findRoom rand2 inp st kind day fid.
Proof using same_draws. apply roomSearch_same. Qed.

Lemma lectureLoop_same fuel inp shuffledDays subject fid st hours days :
  lectureLoop fuel rand1 inp shuffledDays subject fid st hours days
  = lectureLoop fuel rand2 inp shuffledDays subject fid st hours days.
Proof using same_draws.
  revert st hours days. induction fuel as [|fuel IH]; intros st hours days; [done|].
  cbn [lectureLoop]. destruct (lectureGuard subject hours days); [|done].
  assert (lectureRound rand1 inp shuffledDays subject fid st hours days
          = lectureRound rand2 inp shuffledDays subject fid st hours days) as ->.
  { unfold lectureRound. destruct (days !! _) as [day|]; [|done].
    destruct (bool_decide _); [done|]. by rewrite findRoom_same. }
  destruct (lectureRound rand2 inp shuffledDays subject fid st hours days) as [[st' h'] d'].
  apply IH.
Qed.

Lemma scheduleBatch_same inp kind subject fid batch days st :
  scheduleBatch rand1 inp kind subject fid batch days st
  = scheduleBatch rand2 inp kind subject fid batch days st.
Proof using same_draws.
  revert st. induction days as [|day days IH]; intros st; [done|].
  cbn [scheduleBatch]. rewrite findRoom_same.
  destruct (findRoom rand2 inp st kind day fid) as [[[[room i] next]|] pos]; [done|].
  apply IH.
Qed.

Lemma foldl_same {A B} (f g : A → B → A) (l : list B) (a : A) :
  (∀ s x, f s x = g s x) → foldl f a l = foldl g a l.
Proof.
  intros Hfg. revert a. induction l as [|x l IH]; intros a; [done|].
  simpl. by rewrite Hfg, IH.
Qed.

Lemma scheduleBatches_same inp shuffledDays kind subject st :
  scheduleBatches rand1 inp shuffledDays kind subject st
  = scheduleBatches rand2 inp shuffledDays kind subject st.
Proof using same_draws.
  unfold scheduleBatches. destruct (selectLeastUsed _ _) as [faculty|]; [|done].
  rewrite shuffle_same. destruct (shuffle rand2 (rpos st) (batches inp)) as [bs pos].
  apply foldl_same. intros s b. apply scheduleBatch_same.
Qed.

Lemma runScheduler_same inp existing :
  runScheduler rand1 inp existing = runScheduler rand2 inp existing.
Proof using same_draws.
  unfold runScheduler. rewrite shuffle_same.
  destruct (shuffle rand2 0 daysOfWeek) as [shuffledDays pos].
  rewrite (foldl_same (scheduleLectures rand1 inp shuffledDays)
                      (scheduleLectures rand2 inp shuffledDays)).
  - apply foldl_same. intros s subject. unfold schedulePracticals.
    rewrite !scheduleBatches_same. done.
  - intros s subject. unfold scheduleLectures.
    destruct (selectLeastUsed _ _); [|done]. apply lectureLoop_same.
Qed.
End SameDraws.

(** C3, as the code has it: a run takes no seed; its entries are fixed by the
    catalog, the entries of the other sections and the draws of the ambient
    random source, so two runs on the same data that see the same draws give
    the same entries. *)
Theorem same_draws_same_entries rand1 rand2 inp existing :
  (∀ n, rand1 n = rand2 n) →
  generateEntries rand1 inp existing = generateEntries rand2 inp existing.
Proof. intros Hsame. unfold generateEntries. by rewrite (runScheduler_same rand1 rand2). Qed.

Lemma same_draws_same_entries_witness :
  (∀ n, lateDraws n = (if n =? 5 then 8 else n - n))
  ∧ generateEntries lateDraws sampleInputs []
    = generateEntries (λ n, if n =? 5 then 8 else n - n) sampleInputs [].
Proof.
  assert (∀ n, lateDraws n = (if n =? 5 then 8 else n - n)) as Hsame.
  { intros n. unfold lateDraws. destruct (n =? 5); [reflexivity|]. lia. }
  split; [exact Hsame|].
  exact (same_draws_same_entries lateDraws _ sampleInputs [] Hsame).
Defined.

(** C3, as stated, fails: the same catalog with no other entry gives two
    different entry sets under two sequences of draws; the Monday lecture
    from 17:00 to 18:00 is in one and not in the other. *)
Lemma draws_change_entries :
  lateLecture "S2" ∈ generateEntries lateDraws sampleInputs []
  ∧ lateLecture "S2" ∉ generateEntries plainDraws sampleInputs [].
Proof.
  split.
  - apply (list_elem_of_lookup_2 _ 0). vm_compute. reflexivity.
  - intros Hin. apply (bool_decide_pack _) in Hin. vm_compute in Hin. exact Hin.
Qed.

(** ** Existing entries that are seeded *)

Lemma length_addBusy id i row : length (addBusy id i row) = length row.
Proof. apply length_insert. Qed.

Lemma holds_addBusy_mono id id' i row k :
  holds id (row !! k) = true → holds id (addBusy id' i row !! k) = true.
Proof.
  unfold addBusy. intros Hk. destruct (row !! k) as [s|] eqn:Hrow; [|done].
  destruct (decide (i = k)) as [->|Hne].
  - rewrite list_lookup_insert_eq by (by eapply lookup_lt_Some).
    rewrite Hrow. simpl in *. apply bool_decide_eq_true in Hk.
    apply bool_decide_eq_true. by apply elem_of_union_l.
  - by rewrite list_lookup_insert_ne, Hrow.
Qed.

Lemma holds_addBusy_here id i row :
  i < length row → holds id (addBusy id i row !! i) = true.
Proof.
  intros Hi. unfold addBusy. rewrite list_lookup_insert_eq by done. simpl.
  apply bool_decide_eq_true, elem_of_union_r. by apply elem_of_singleton.
Qed.

(** Both writers of the busy grids, [markCell] and [seedCell], add a teacher
    and a room to one cell of one day. *)
Section BusyWriter.
Variable write : Grid → nat → Grid.
Variables (day : Day) (facultyId classroomId : string).
Hypothesis write_faculty : ∀ g i,
  facultySchedule (write g i) = <[day := addBusy facultyId i (facultySchedule g day)]>
                                (facultySchedule g).
Hypothesis write_classroom : ∀ g i,
  classroomSchedule (write g i) = <[day := addBusy classroomId i (classroomSchedule g day)]>
                                  (classroomSchedule g).

Lemma write_busyRows g i : busyRows g → busyRows (write g i).
Proof using write_faculty write_classroom.
  intros Hg d. rewrite write_faculty, write_classroom.
  destruct (decide (day = d)) as [->|Hne].
  - rewrite !fn_lookup_insert, !length_addBusy. apply Hg.
  - rewrite !fn_lookup_insert_ne by done. apply Hg.
Qed.

Lemma write_busyAt_mono g i d f c k : busyAt g d f c k → busyAt (write g i) d f c k.
Proof using write_faculty write_classroom.
  intros [Hf Hc]. unfold busyAt. rewrite write_faculty, write_classroom.
  destruct (decide (day = d)) as [->|Hne].
  - rewrite !fn_lookup_insert. split; by apply holds_addBusy_mono.
  - by rewrite !fn_lookup_insert_ne.
Qed.

Lemma write_busyAt_here g i :
  busyRows g → i < length timeSlots → busyAt (write g i) day facultyId classroomId i.
Proof using write_faculty write_classroom.
  intros Hg Hi. unfold busyAt. rewrite write_faculty, write_classroom, !fn_lookup_insert.
  destruct (Hg day) as [Hf Hc]. split; apply holds_addBusy_here; lia.
Qed.

Lemma writes_busyRows cells g : busyRows g → busyRows (foldl write g cells).
Proof using write_faculty write_classroom.
  revert g. induction cells as [|i cells IH]; intros g Hg; [done|].
  simpl. by apply IH, write_busyRows.
Qed.

Lemma writes_busyAt_mono cells g d f c k :
  busyAt g d f c k → busyAt (foldl write g cells) d f c k.
Proof using write_faculty write_classroom.
  revert g. induction cells as [|i cells IH]; intros g Hg; [done|].
  simpl. by apply IH, write_busyAt_mono.
Qed.

Lemma writes_busyAt_new cells g k :
  busyRows g → k ∈ cells → (∀ i, i ∈ cells → i < length timeSlots) →
  busyAt (foldl write g cells) day facultyId classroomId k.
Proof using write_faculty write_classroom.
  revert g. induction cells as [|i cells IH]; intros g Hg Hk Hlt.
  - by apply elem_of_nil in Hk.
  - simpl. apply elem_of_cons in Hk as [->|Hk].
    + apply writes_busyAt_mono, write_busyAt_here; [done|]. apply Hlt. by left.
    + apply IH; [by apply write_busyRows | done |].
      intros j Hj. apply Hlt. by right.
Qed.
End BusyWriter.

Lemma getTimeIndex_lt time i : getTimeIndex time = Some i → i < length timeSlots.
Proof.
  unfold getTimeIndex. destruct (list_find _ timeSlots) as [[j t]|] eqn:Hfind; [|done].
  intros [= <-]. apply list_find_Some in Hfind as (Hj & _). by eapply lookup_lt_Some.
Qed.

Lemma getTimeIndex_boundary time i :
  getTimeIndex (substring 0 5 time) = Some i → boundaryIndex time = Some i.
Proof.
  unfold getTimeIndex, boundaryIndex, timeBoundaries.
  destruct (list_find _ timeSlots) as [[j t]|] eqn:Hfind; [|done].
  intros [= <-]. by rewrite (list_find_app_l _ _ _ _ _ Hfind).
Qed.

Lemma seededSlots_interval e s t :
  seededSlots e = Some (s, t) → slotInterval e = Some (s, t).
Proof.
  unfold seededSlots, slotInterval.
  destruct (getTimeIndex (substring 0 5 (Entry.start_time e))) as [s'|] eqn:Hs; [|done].
  destruct (getTimeIndex (substring 0 5 (Entry.end_time e))) as [t'|] eqn:Ht; [|done].
  intros [= <- <-].
  by rewrite (getTimeIndex_boundary _ _ Hs), (getTimeIndex_boundary _ _ Ht).
Qed.

Lemma seedEntry_busyRows g e : busyRows g → busyRows (seedEntry g e).
Proof.
  intros Hg. unfold seedEntry.
  destruct (getTimeIndex _) as [s|]; [|done]. destruct (getTimeIndex _) as [t|]; [|done].
  by apply (writes_busyRows (seedCell e) (Entry.day_of_week e)
              (Entry.faculty_id e) (Entry.classroom_id e)).
Qed.

Lemma seedEntry_busyAt_mono g e d f c k :
  busyAt g d f c k → busyAt (seedEntry g e) d f c k.
Proof.
  intros Hg. unfold seedEntry.
  destruct (getTimeIndex _) as [s|]; [|done]. destruct (getTimeIndex _) as [t|]; [|done].
  by apply (writes_busyAt_mono (seedCell e) (Entry.day_of_week e)
              (Entry.faculty_id e) (Entry.classroom_id e)).
Qed.

Lemma seedEntry_blocked g e : busyRows g → blocked (seedEntry g e) e.
Proof.
  intros Hg s t k Hslots Hk. unfold seededSlots in Hslots. unfold seedEntry.
  destruct (getTimeIndex (substring 0 5 (Entry.start_time e))) as [s'|]; [|done].
  destruct (getTimeIndex (substring 0 5 (Entry.end_time e))) as [t'|] eqn:Ht; [|done].
  injection Hslots as -> ->. apply getTimeIndex_lt in Ht.
  apply (writes_busyAt_new (seedCell e) (Entry.day_of_week e)
           (Entry.faculty_id e) (Entry.classroom_id e)); [done..| |].
  - apply elem_of_range. lia.
  - intros i Hi%elem_of_range. lia.
Qed.

Lemma seedGrid_guarded existing :
  busyRows (seedGrid existing) ∧ ∀ e, e ∈ existing → blocked (seedGrid existing) e.
Proof.
  unfold seedGrid. induction existing as [|x existing [Hrows Hblocked]] using rev_ind.
  - split; [|by intros e He%elem_of_nil].
    intros day. split; apply length_replicate.
  - rewrite foldl_app. cbn [foldl]. split; [by apply seedEntry_busyRows|].
    intros e [He| ->%list_elem_of_singleton]%elem_of_app.
    + intros s t k Hslots Hk. by eapply seedEntry_busyAt_mono, Hblocked.
    + by apply seedEntry_blocked.
Qed.

Lemma slotFits_free g day d fid cid i k :
  slotFits g day d fid cid i = true → i ≤ k < i + d →
  holds fid (facultySchedule g day !! k) = false
  ∧ holds cid (classroomSchedule g day !! k) = false.
Proof.
  intros Hfits Hk. pose proof (slotFits_spec _ _ _ _ _ _ Hfits) as (Hend & _).
  unfold slotFits in Hfits. rewrite !andb_true_iff in Hfits.
  destruct Hfits as [[_ Hf] Hc].
  unfold isFacultyAvailable in Hf. unfold isClassroomAvailable in Hc.
  rewrite forallb_range in Hf, Hc.
  split; apply negb_true_iff; [apply Hf | apply Hc]; lia.
Qed.

Lemma Guarded_withRpos existing st pos : Guarded existing st → Guarded existing (withRpos st pos).
Proof. intros []. by split. Qed.

Lemma Guarded_placeSession existing inp st kind subject fid room day i next batch pos :
  Guarded existing st →
  slotFits (grid st) day (sessionDuration kind) fid (Classroom.id room) i = true →
  Guarded existing (placeSession inp st kind subject fid room day i next batch pos).
Proof.
  intros [Hrows Hblocked Hclear] Hfits.
  set (entry := newEntry inp kind subject fid room day i batch).
  split; cbn [grid timetableEntries placeSession]; fold entry.
  - by apply (writes_busyRows (markCell day fid (Classroom.id room) entry)
                day fid (Classroom.id room)).
  - intros e He s t k Hslots Hk.
    apply (writes_busyAt_mono (markCell day fid (Classroom.id room) entry)
             day fid (Classroom.id room)); [done..|].
    by eapply Hblocked.
  - intros new old [Hnew| ->%list_elem_of_singleton]%elem_of_app Hold Hseeded Hshare;
      [by apply Hclear|].
    intros (Hday & a & b & Ha & Hb & k & Hk1 & Hk2).
    pose proof (slotFits_spec _ _ _ _ _ _ Hfits) as (Hend & _).
    unfold entry in Ha. rewrite newEntry_interval in Ha by done. injection Ha as <-.
    destruct (seededSlots old) as [[s t]|] eqn:Hslots; [|done].
    rewrite (seededSlots_interval _ _ _ Hslots) in Hb. injection Hb as <-.
    cbn [fst snd] in Hk1, Hk2. change (Entry.day_of_week entry) with day in Hday.
    destruct (Hblocked old Hold s t k Hslots Hk2) as [Hf Hc].
    destruct (slotFits_free _ _ _ _ _ _ k Hfits Hk1) as [Hf' Hc'].
    rewrite <- Hday in Hf, Hc.
    destruct Hshare as [Hsame|Hsame]; cbn [entry newEntry Entry.faculty_id Entry.classroom_id]
      in Hsame; rewrite <- Hsame in *; congruence.
Qed.

Lemma Guarded_runScheduler rand inp existing :
  Guarded existing (runScheduler rand inp existing).
Proof.
  apply runScheduler_preserves.
  - apply Guarded_withRpos.
  - intros. by apply Guarded_placeSession.
  - intros pos. destruct (seedGrid_guarded existing) as [Hrows Hblocked].
    split; [done | done |]. intros new old Hnew. by apply elem_of_nil in Hnew.
Qed.

(** X21: what the seeding does achieve: an entry of a run never clashes, on
    its teacher or on its room, with an existing entry whose start and end
    are both slot labels. *)
Lemma seeded_entries_respected rand inp existing new old :
  new ∈ generateEntries rand inp existing → old ∈ existing →
  seededSlots old ≠ None → sharesResource new old → ¬ clash new old.
Proof. apply grd_clear, Guarded_runScheduler. Qed.

(** ** What a run appends *)

Lemma adds_refl Q n st : adds Q n st st.
Proof. exists []. rewrite app_nil_r. repeat split; [done|simpl; lia]. Qed.

Lemma adds_withRpos Q n st pos : adds Q n st (withRpos st pos).
Proof.
  exists []. cbn [withRpos timetableEntries]. rewrite app_nil_r.
  repeat split; [done|simpl; lia].
Qed.

Lemma adds_trans Q n m st1 st2 st3 :
  adds Q n st1 st2 → adds Q m st2 st3 → adds Q (n + m) st1 st3.
Proof.
  intros (a & Ha & HQa & Hna) (b & Hb & HQb & Hnb). exists (a ++ b).
  rewrite Hb, Ha, app_assoc. split; [done|]. split; [by apply Forall_app|].
  rewrite length_app. lia.
Qed.

Lemma adds_weaken (Q Q' : Entry.t → Prop) n m st st' :
  (∀ e, Q e → Q' e) → n ≤ m → adds Q n st st' → adds Q' m st st'.
Proof.
  intros HQ Hnm (a & Ha & HQa & Hna). exists a. split; [done|].
  split; [by eapply Forall_impl|lia].
Qed.

Lemma adds_placeSession inp st kind subject fid room day i next batch pos :
  room ∈ roomsOf inp kind →
  adds (builtFor inp kind subject fid batch) 1 st
       (placeSession inp st kind subject fid room day i next batch pos).
Proof.
  intros Hroom. exists [newEntry inp kind subject fid room day i batch].
  split; [done|]. split; [|done]. constructor; [|done]. by exists room, day, i.
Qed.

Lemma roomSearch_room rand g day d fid rooms roomIndex tries pos room slot next pos' :
  roomSearch rand g day d fid rooms roomIndex tries pos = (Some (room, slot, next), pos') →
  room ∈ rooms ∧ next < length rooms.
Proof.
  revert pos. induction tries as [|i tries IH]; intros pos; cbn [roomSearch]; [done|].
  destruct (rooms !! _) as [r|] eqn:Hr; [|done].
  destruct (getRandomStartTimes rand pos) as [times p].
  destruct (findBestTimeSlot g day d fid r times) as [s|]; [|apply IH].
  intros [= <- <- <- <-]. split; [by eapply list_elem_of_lookup_2|].
  apply Nat.mod_upper_bound. apply lookup_lt_Some in Hr. lia.
Qed.

Lemma findRoom_room rand inp st kind day fid room i next pos :
  findRoom rand inp st kind day fid = (Some (room, i, next), pos) →
  room ∈ roomsOf inp kind.
Proof. intros H. by apply roomSearch_room in H as [? _]. Qed.

(** A round of the lecture loop appends one lecture and counts it, or
    appends nothing and counts nothing. *)
Lemma lectureRound_adds rand inp shuffledDays subject fid st hours days st' hours' days' :
  lectureRound rand inp shuffledDays subject fid st hours days = (st', hours', days') →
  (timetableEntries st' = timetableEntries st ∧ hours' = hours)
  ∨ (∃ e, timetableEntries st' = timetableEntries st ++ [e]
          ∧ builtFor inp lecture subject fid None e ∧ hours' = S hours).
Proof.
  unfold lectureRound. intros Hround.
  destruct (days !! _) as [day|]; [|left; by simplify_eq].
  case_bool_decide as Hseen; [left; by simplify_eq|].
  destruct (findRoom rand inp st lecture day fid) as [[[[room i] next]|] pos] eqn:Hroom.
  - simplify_eq. right. eexists. split; [done|]. split; [|done].
    exists room, day, i. split; [by eapply findRoom_room|done].
  - simplify_eq. by left.
Qed.

Lemma lectureLoop_adds fuel rand inp shuffledDays subject fid st hours days :
  adds (builtFor inp lecture subject fid None)
       (Z.to_nat (Subject.weekly_hours subject - Z.of_nat hours))
       st (lectureLoop fuel rand inp shuffledDays subject fid st hours days).
Proof.
  revert st hours days. induction fuel as [|fuel IH]; intros st hours days;
    [apply adds_refl|].
  cbn [lectureLoop]. destruct (lectureGuard subject hours days) eqn:Hguard;
    [|apply adds_refl].
  apply andb_true_iff in Hguard as [Hlt%bool_decide_eq_true _].
  destruct (lectureRound rand inp shuffledDays subject fid st hours days)
    as [[st' hours'] days'] eqn:Hround.
  specialize (IH st' hours' days').
  destruct (lectureRound_adds _ _ _ _ _ _ _ _ _ _ _ Hround)
    as [[Hsame ->]|(e & Hone & He & ->)].
  - destruct IH as (a & Ha & HQ & Hn). exists a. by rewrite Ha, Hsame.
  - eapply adds_weaken; [done| |eapply adds_trans; [|exact IH]].
    2:{ exists [e]. split; [done|]. split; [by constructor|]. simpl. reflexivity. }
    lia.
Qed.

Lemma selectLeastUsed_elem usage qualified chosen :
  selectLeastUsed usage qualified = Some chosen → chosen ∈ qualified.
Proof.
  intros Hsel. destruct (selectLeastUsed_spec _ _ _ Hsel) as (_ & b & a & -> & _).
  apply elem_of_app. right. by left.
Qed.

Lemma scheduleLectures_adds rand inp shuffledDays st subject :
  adds (λ e, ∃ faculty, faculty ∈ qualifiedFaculty inp subject lecture
                        ∧ builtFor inp lecture subject
                                   (FacultySubject.faculty_id faculty) None e)
       (Z.to_nat (Subject.weekly_hours subject))
       st (scheduleLectures rand inp shuffledDays st subject).
Proof.
  unfold scheduleLectures.
  destruct (selectLeastUsed _ _) as [faculty|] eqn:Hsel; [|apply adds_refl].
  apply selectLeastUsed_elem in Hsel.
  eapply adds_weaken; [| |apply lectureLoop_adds]; [by eauto|lia].
Qed.

Lemma scheduleBatch_adds rand inp kind subject fid batch days st :
  adds (builtFor inp kind subject fid (Some batch)) 1
       st (scheduleBatch rand inp kind subject fid batch days st).
Proof.
  revert st. induction days as [|day days IH]; intros st; [apply adds_refl|].
  cbn [scheduleBatch].
  destruct (findRoom rand inp st kind day fid) as [[[[room i] next]|] pos] eqn:Hroom.
  - apply adds_placeSession. by eapply findRoom_room.
  - destruct (IH (withRpos st pos)) as (a & Ha & HQ & Hn). by exists a.
Qed.

Lemma builtFor_fields inp kind subject fid batch e :
  builtFor inp kind subject fid batch e →
  Entry.section_id e = sectionId inp
  ∧ Entry.subject_id e = Subject.id subject
  ∧ Entry.faculty_id e = fid
  ∧ Entry.subject_type e = kind
  ∧ Entry.batch_number e = Batch.number <$> batch
  ∧ ∃ room, room ∈ roomsOf inp kind ∧ Entry.classroom_id e = Classroom.id room.
Proof. intros (room & day & i & Hroom & ->). repeat split; eauto. Qed.

Lemma builtFor_traceable inp kind subject faculty batch e :
  subject ∈ subjects inp →
  faculty ∈ qualifiedFaculty inp subject kind →
  (kind = lab → Subject.has_lab subject = true) →
  (kind = tutorial → Subject.has_tutorial subject = true) →
  builtFor inp kind subject (FacultySubject.faculty_id faculty) batch e →
  traceable inp e.
Proof.
  intros Hsubject Hfaculty Hlab Htut Hbuilt.
  destruct (builtFor_fields _ _ _ _ _ _ Hbuilt) as (_ & _ & _ & Hkind & _).
  exists subject, faculty, batch. by rewrite Hkind.
Qed.

Lemma batches_NoDup inp : NoDup (Batch.number <$> batches inp).
Proof.
  apply (bool_decide_unpack _). reflexivity.
Qed.

(** Additions over the batches of a subject: what they are, and that a batch
    number is served at most once. *)
Lemma scheduleBatches_adds rand inp shuffledDays kind subject st :
  adds (λ e, ∃ faculty batch,
               faculty ∈ qualifiedFaculty inp subject kind ∧ batch ∈ batches inp
               ∧ builtFor inp kind subject (FacultySubject.faculty_id faculty)
                          (Some batch) e)
       (length (batches inp))
       st (scheduleBatches rand inp shuffledDays kind subject st).
Proof.
  unfold scheduleBatches.
  destruct (selectLeastUsed _ _) as [faculty|] eqn:Hsel; [|apply adds_refl].
  apply selectLeastUsed_elem in Hsel.
  pose proof (shuffle_perm rand (rpos st) (batches inp)) as Hperm.
  destruct (shuffle rand (rpos st) (batches inp)) as [shuffledBatches pos].
  cbn [fst] in Hperm. rewrite <- (Permutation_length Hperm).
  assert (∀ b, b ∈ shuffledBatches → b ∈ batches inp) as Hsub
    by (intros b Hb; by rewrite <- Hperm).
  clear Hperm. set (Q := λ e, ∃ f b, _).
  assert (∀ s, adds Q (length shuffledBatches) s
                 (foldl (λ st' batch,
                    scheduleBatch rand inp kind subject (FacultySubject.faculty_id faculty)
                                  batch shuffledDays st') s shuffledBatches)) as Hfold.
  { induction shuffledBatches as [|b bs IH]; intros s; [apply adds_refl|].
    cbn [foldl length]. change (S (length bs)) with (1 + length bs).
    eapply adds_trans; [|apply IH; intros b' Hb'; apply Hsub; by right].
    eapply adds_weaken; [|reflexivity|apply scheduleBatch_adds].
    intros e He. exists faculty, b. split; [done|]. split; [|done].
    apply Hsub. by left. }
  destruct (Hfold (withRpos st pos)) as (a & Ha & HQ & Hn). by exists a.
Qed.

Lemma countIf_app q l a : countIf q (l ++ a) = countIf q l + countIf q a.
Proof. unfold countIf. by rewrite List.filter_app, length_app. Qed.

Lemma countIf_none q l : Forall (λ e, q e = false) l → countIf q l = 0.
Proof.
  unfold countIf. induction 1 as [|e l He _ IH]; [done|]. simpl. by rewrite He.
Qed.

Lemma adds_count_le Q n q st st' :
  adds Q n st st' →
  countIf q (timetableEntries st') ≤ countIf q (timetableEntries st) + n.
Proof.
  intros (a & -> & _ & Hn). rewrite countIf_app.
  pose proof (filter_length_le q a). unfold countIf. lia.
Qed.

Lemma adds_count_same Q n q st st' :
  adds Q n st st' → (∀ e, Q e → q e = false) →
  countIf q (timetableEntries st') = countIf q (timetableEntries st).
Proof.
  intros (a & -> & HQ & _) Hq. rewrite countIf_app, (countIf_none q a); [lia|].
  by eapply Forall_impl.
Qed.

Lemma NoDup_fmap_eq {A B} (f : A → B) (l : list A) x y :
  NoDup (f <$> l) → x ∈ l → y ∈ l → f x = f y → x = y.
Proof.
  induction l as [|a l IH]; intros Hnd Hx Hy Hxy; [by apply elem_of_nil in Hx|].
  rewrite fmap_cons in Hnd. apply list.NoDup_cons in Hnd as [Ha Hnd].
  apply elem_of_cons in Hx as [->|Hx]; apply elem_of_cons in Hy as [->|Hy]; [done| | |eauto].
  - exfalso. apply Ha. rewrite Hxy. by apply list_elem_of_fmap_2.
  - exfalso. apply Ha. rewrite <- Hxy. by apply list_elem_of_fmap_2.
Qed.

(** A count that only the step of one key can raise is raised at most once
    over a list without repeated keys. *)
Lemma foldl_count_once {B K} (f : Sched → B → Sched) (key : B → K) (k : K)
    (q : Entry.t → bool) (bound : nat) (l : list B) (st : Sched) :
  (∀ x y : K, Decision (x = y)) →
  NoDup (key <$> l) →
  (∀ s b, key b ≠ k →
          countIf q (timetableEntries (f s b)) = countIf q (timetableEntries s)) →
  (∀ s b, b ∈ l → key b = k →
          countIf q (timetableEntries (f s b)) ≤ countIf q (timetableEntries s) + bound) →
  countIf q (timetableEntries (foldl f st l)) ≤ countIf q (timetableEntries st) + bound.
Proof.
  intros Hdec Hnd Hother.
  assert (∀ l' s, (∀ b, b ∈ l' → key b ≠ k) →
            countIf q (timetableEntries (foldl f s l')) = countIf q (timetableEntries s))
    as Hskip.
  { induction l' as [|b l' IH]; intros s Hl'; [done|]. cbn [foldl].
    rewrite IH by (intros b' Hb'; apply Hl'; by right).
    apply Hother, Hl'. by left. }
  revert st. induction l as [|b l IH]; intros st Hkey; [simpl; lia|].
  rewrite fmap_cons in Hnd. apply list.NoDup_cons in Hnd as [Hb Hnd]. cbn [foldl].
  destruct (Hdec (key b) k) as [Heq|Hne].
  - rewrite Hskip.
    + apply Hkey; [by left|done].
    + intros b' Hb' Hk. apply Hb. rewrite Heq, <- Hk. by apply list_elem_of_fmap_2.
  - etransitivity; [apply IH; [done|]|].
    + intros s b' Hb'. apply Hkey. by right.
    + by rewrite Hother.
Qed.

Lemma foldl_adds {B} Q (f : Sched → B → Sched) (l : list B) (st : Sched) :
  (∀ s x, x ∈ l → ∃ n, adds Q n s (f s x)) → ∃ n, adds Q n st (foldl f st l).
Proof.
  revert st. induction l as [|x l IH]; intros st Hf; [exists 0; apply adds_refl|].
  cbn [foldl]. destruct (Hf st x) as [n Hn]; [by left|].
  destruct (IH (f st x)) as [m Hm]; [intros s y Hy; apply Hf; by right|].
  exists (n + m). by eapply adds_trans.
Qed.

Lemma schedulePracticals_traceable rand inp shuffledDays st subject :
  subject ∈ subjects inp →
  ∃ n, adds (traceable inp) n st (schedulePracticals rand inp shuffledDays st subject).
Proof.
  intros Hsubject. unfold schedulePracticals.
  assert (∀ kind s, (kind = lab → Subject.has_lab subject = true) →
            (kind = tutorial → Subject.has_tutorial subject = true) →
            adds (traceable inp) (length (batches inp)) s
                 (scheduleBatches rand inp shuffledDays kind subject s)) as Hkind.
  { intros kind s Hlab Htut. eapply adds_weaken; [|reflexivity|apply scheduleBatches_adds].
    intros e (faculty & batch & Hf & _ & Hbuilt). by eapply builtFor_traceable. }
  exists (length (batches inp) + length (batches inp)).
  apply adds_trans with (if Subject.has_lab subject
                         then scheduleBatches rand inp shuffledDays lab subject st else st).
  - destruct (Subject.has_lab subject) eqn:Hlab; [|apply adds_refl].
    by apply Hkind.
  - destruct (Subject.has_tutorial subject) eqn:Htut; [|apply adds_refl].
    by apply Hkind.
Qed.

Lemma runScheduler_traceable rand inp existing :
  Forall (traceable inp) (generateEntries rand inp existing).
Proof.
  unfold generateEntries, runScheduler.
  destruct (shuffle rand 0 daysOfWeek) as [shuffledDays pos].
  set (st0 := initialSched inp existing pos).
  destruct (foldl_adds (traceable inp) (scheduleLectures rand inp shuffledDays)
              (subjects inp) st0) as (n & a & Ha & HQa & _).
  { intros s subject Hsubject. eexists.
    eapply adds_weaken; [|reflexivity|apply scheduleLectures_adds].
    intros e (faculty & Hf & Hbuilt). by eapply builtFor_traceable. }
  destruct (foldl_adds (traceable inp) (schedulePracticals rand inp shuffledDays)
              (subjects inp) (foldl (scheduleLectures rand inp shuffledDays) st0 (subjects inp)))
    as (m & b & Hb & HQb & _).
  { intros s subject Hsubject. by apply schedulePracticals_traceable. }
  rewrite Hb, Ha. cbn. by apply Forall_app.
Qed.

Lemma isQualified_row inp subject kind faculty :
  faculty ∈ qualifiedFaculty inp subject kind →
  faculty ∈ facultySubjects inp
  ∧ FacultySubject.subject_id faculty = Subject.id subject
  ∧ ∃ types, FacultySubject.subject_types faculty = Some types ∧ typeName kind ∈ types.
Proof.
  intros [Hin Hq]%list_elem_of_In%filter_In. split; [by apply list_elem_of_In|].
  unfold isQualified in Hq. apply andb_true_iff in Hq as [Hsubj Htypes].
  split; [by apply bool_decide_eq_true in Hsubj|].
  destruct (FacultySubject.subject_types faculty) as [types|]; [|done].
  exists types. split; [done|]. by apply bool_decide_eq_true in Htypes.
Qed.

(** ** Counting the entries of a subject *)

Lemma scheduleLectures_lectures rand inp shuffledDays st subject s :
  (Subject.id subject ≠ s →
   countIf (isLectureOf s) (timetableEntries (scheduleLectures rand inp shuffledDays st subject))
   = countIf (isLectureOf s) (timetableEntries st))
  ∧ countIf (isLectureOf s)
            (timetableEntries (scheduleLectures rand inp shuffledDays st subject))
    ≤ countIf (isLectureOf s) (timetableEntries st)
      + Z.to_nat (Subject.weekly_hours subject).
Proof.
  pose proof (scheduleLectures_adds rand inp shuffledDays st subject) as Hadds.
  split; [|by eapply adds_count_le].
  intros Hne. eapply adds_count_same; [exact Hadds|].
  intros e (faculty & _ & Hbuilt).
  destruct (builtFor_fields _ _ _ _ _ _ Hbuilt) as (_ & Hsubj & _).
  apply bool_decide_eq_false. intros [_ Hs]. congruence.
Qed.

Lemma scheduleLectures_practicals rand inp shuffledDays st subject kind s n :
  countIf (isPracticalOf kind s n)
          (timetableEntries (scheduleLectures rand inp shuffledDays st subject))
  = countIf (isPracticalOf kind s n) (timetableEntries st).
Proof.
  eapply adds_count_same; [apply scheduleLectures_adds|].
  intros e (faculty & _ & Hbuilt).
  destruct (builtFor_fields _ _ _ _ _ _ Hbuilt) as (_ & _ & _ & _ & Hbatch & _).
  apply bool_decide_eq_false. intros (_ & _ & Hn). by rewrite Hbatch in Hn.
Qed.

Lemma scheduleBatches_lectures rand inp shuffledDays kind subject st s :
  kind ≠ lecture →
  countIf (isLectureOf s)
          (timetableEntries (scheduleBatches rand inp shuffledDays kind subject st))
  = countIf (isLectureOf s) (timetableEntries st).
Proof.
  intros Hkind. eapply adds_count_same; [apply scheduleBatches_adds|].
  intros e (faculty & batch & _ & _ & Hbuilt).
  destruct (builtFor_fields _ _ _ _ _ _ Hbuilt) as (_ & _ & _ & Htype & _).
  apply bool_decide_eq_false. intros [Hlec _]. congruence.
Qed.

Lemma schedulePracticals_lectures rand inp shuffledDays st subject s :
  countIf (isLectureOf s)
          (timetableEntries (schedulePracticals rand inp shuffledDays st subject))
  = countIf (isLectureOf s) (timetableEntries st).
Proof.
  unfold schedulePracticals.
  destruct (Subject.has_tutorial subject); destruct (Subject.has_lab subject);
    by rewrite ?scheduleBatches_lectures.
Qed.

Lemma scheduleBatches_practicals rand inp shuffledDays kind' subject st kind s n :
  (kind' ≠ kind ∨ Subject.id subject ≠ s →
   countIf (isPracticalOf kind s n)
           (timetableEntries (scheduleBatches rand inp shuffledDays kind' subject st))
   = countIf (isPracticalOf kind s n) (timetableEntries st))
  ∧ countIf (isPracticalOf kind s n)
            (timetableEntries (scheduleBatches rand inp shuffledDays kind' subject st))
    ≤ countIf (isPracticalOf kind s n) (timetableEntries st) + 1.
Proof.
  split.
  - intros Hne. eapply adds_count_same; [apply scheduleBatches_adds|].
    intros e (faculty & batch & _ & _ & Hbuilt).
    destruct (builtFor_fields _ _ _ _ _ _ Hbuilt) as (_ & Hsubj & _ & Htype & _).
    apply bool_decide_eq_false. intros (Hk & Hs & _). destruct Hne; congruence.
  - unfold scheduleBatches.
    destruct (selectLeastUsed _ _) as [faculty|]; [|lia].
    pose proof (shuffle_perm rand (rpos st) (batches inp)) as Hperm.
    destruct (shuffle rand (rpos st) (batches inp)) as [shuffledBatches pos].
    cbn [fst] in Hperm.
    change (timetableEntries st) with (timetableEntries (withRpos st pos)).
    apply (foldl_count_once _ Batch.number n); [apply _| | |].
    + rewrite Hperm. apply batches_NoDup.
    + intros s' b Hb. eapply adds_count_same; [apply scheduleBatch_adds|].
      intros e Hbuilt.
      destruct (builtFor_fields _ _ _ _ _ _ Hbuilt) as (_ & _ & _ & _ & Hbatch & _).
      apply bool_decide_eq_false. intros (_ & _ & Hn). rewrite Hbatch in Hn.
      injection Hn as Hn. done.
    + intros s' b _ _. eapply adds_count_le, scheduleBatch_adds.
Qed.

Lemma schedulePracticals_practicals rand inp shuffledDays st subject kind s n :
  (Subject.id subject ≠ s →
   countIf (isPracticalOf kind s n)
           (timetableEntries (schedulePracticals rand inp shuffledDays st subject))
   = countIf (isPracticalOf kind s n) (timetableEntries st))
  ∧ countIf (isPracticalOf kind s n)
            (timetableEntries (schedulePracticals rand inp shuffledDays st subject))
    ≤ countIf (isPracticalOf kind s n) (timetableEntries st) + 1.
Proof.
  unfold schedulePracticals.
  set (st1 := if Subject.has_lab subject
              then scheduleBatches rand inp shuffledDays lab subject st else st).
  assert ((Subject.id subject ≠ s ∨ kind ≠ lab →
           countIf (isPracticalOf kind s n) (timetableEntries st1)
           = countIf (isPracticalOf kind s n) (timetableEntries st))
          ∧ countIf (isPracticalOf kind s n) (timetableEntries st1)
            ≤ countIf (isPracticalOf kind s n) (timetableEntries st) + 1) as [Hlab1 Hlab2].
  { subst st1. destruct (Subject.has_lab subject); [|split; [done|lia]].
    destruct (scheduleBatches_practicals rand inp shuffledDays lab subject st kind s n)
      as [Hsame Hle].
    split; [|done]. intros [?|?]; apply Hsame; [by right|by left]. }
  assert ((Subject.id subject ≠ s ∨ kind ≠ tutorial →
           countIf (isPracticalOf kind s n)
             (timetableEntries (if Subject.has_tutorial subject
                then scheduleBatches rand inp shuffledDays tutorial subject st1 else st1))
           = countIf (isPracticalOf kind s n) (timetableEntries st1))
          ∧ countIf (isPracticalOf kind s n)
              (timetableEntries (if Subject.has_tutorial subject
                 then scheduleBatches rand inp shuffledDays tutorial subject st1 else st1))
            ≤ countIf (isPracticalOf kind s n) (timetableEntries st1) + 1) as [Htut1 Htut2].
  { destruct (Subject.has_tutorial subject); [|split; [done|lia]].
    destruct (scheduleBatches_practicals rand inp shuffledDays tutorial subject st1 kind s n)
      as [Hsame Hle].
    split; [|done]. intros [?|?]; apply Hsame; [by right|by left]. }
  split.
  - intros Hne. rewrite Htut1, Hlab1; auto.
  - destruct (decide (kind = lab)) as [->|Hk].
    + rewrite Htut1 by (by right). done.
    + rewrite Hlab1 in Htut2 by (by right). done.
Qed.

Lemma foldl_count_same {B} (f : Sched → B → Sched) (q : Entry.t → bool) (l : list B) st :
  (∀ s b, countIf q (timetableEntries (f s b)) = countIf q (timetableEntries s)) →
  countIf q (timetableEntries (foldl f st l)) = countIf q (timetableEntries st).
Proof.
  intros Hf. revert st. induction l as [|b l IH]; intros st; [done|].
  cbn [foldl]. by rewrite IH, Hf.
Qed.

(** * Further properties of the generator *)

(** X1: a subject whose id is not repeated among the subjects of the year
    gets at most [weekly_hours] lecture entries in a run, and none when
    [weekly_hours] is not positive. *)
Theorem lectures_within_weekly_hours rand inp existing subject :
  NoDup (Subject.id <$> subjects inp) →
  subject ∈ subjects inp →
  (Z.of_nat (countIf (isLectureOf (Subject.id subject)) (generateEntries rand inp existing))
   ≤ Z.max 0 (Subject.weekly_hours subject))%Z.
Proof.
  intros Hnd Hsubject. unfold generateEntries, runScheduler.
  destruct (shuffle rand 0 daysOfWeek) as [shuffledDays pos].
  rewrite foldl_count_same by (intros; apply schedulePracticals_lectures).
  pose proof (foldl_count_once (scheduleLectures rand inp shuffledDays) Subject.id
                (Subject.id subject) (isLectureOf (Subject.id subject))
                (Z.to_nat (Subject.weekly_hours subject)) (subjects inp)
                (initialSched inp existing pos) _ Hnd) as Hcount.
  cbn [initialSched timetableEntries] in Hcount. unfold countIf at 2 in Hcount.
  cbn [List.filter length] in Hcount.
  enough (countIf (isLectureOf (Subject.id subject))
            (timetableEntries (foldl (scheduleLectures rand inp shuffledDays)
                                     (initialSched inp existing pos) (subjects inp)))
          ≤ Z.to_nat (Subject.weekly_hours subject)) by lia.
  apply Hcount.
  - intros s b Hne. by apply scheduleLectures_lectures.
  - intros s b Hb Hid.
    assert (b = subject) as -> by (by eapply (NoDup_fmap_eq Subject.id)).
    apply scheduleLectures_lectures.
Qed.

Lemma lectures_within_weekly_hours_witness :
  NoDup (Subject.id <$> subjects sampleInputs)
  ∧ sampleSubject ∈ subjects sampleInputs
  ∧ (Z.of_nat (countIf (isLectureOf "MATH") (generateEntries plainDraws sampleInputs []))
     ≤ Z.max 0 7)%Z.
Proof.
  assert (NoDup (Subject.id <$> subjects sampleInputs)) as Hnd
    by (apply (bool_decide_unpack _); reflexivity).
  assert (sampleSubject ∈ subjects sampleInputs) as Hin by (by left).
  split; [exact Hnd|]. split; [exact Hin|].
  exact (lectures_within_weekly_hours plainDraws sampleInputs [] sampleSubject Hnd Hin).
Defined.

(** X2: when no subject id is repeated, a run gives a batch of the section
    at most one lab and at most one tutorial per subject. *)
Theorem one_session_per_batch rand inp existing kind s n :
  NoDup (Subject.id <$> subjects inp) →
  countIf (isPracticalOf kind s n) (generateEntries rand inp existing) ≤ 1.
Proof.
  intros Hnd. unfold generateEntries, runScheduler.
  destruct (shuffle rand 0 daysOfWeek) as [shuffledDays pos].
  set (st1 := foldl (scheduleLectures rand inp shuffledDays)
                    (initialSched inp existing pos) (subjects inp)).
  assert (countIf (isPracticalOf kind s n) (timetableEntries st1) = 0) as Hzero.
  { subst st1. rewrite foldl_count_same; [done|].
    intros; apply scheduleLectures_practicals. }
  pose proof (foldl_count_once (schedulePracticals rand inp shuffledDays) Subject.id
                s (isPracticalOf kind s n) 1 (subjects inp) st1 _ Hnd) as Hcount.
  rewrite Hzero in Hcount. apply Hcount.
  - intros st b Hne. by apply schedulePracticals_practicals.
  - intros st b _ _. apply schedulePracticals_practicals.
Qed.

Lemma one_session_per_batch_witness :
  NoDup (Subject.id <$> subjects sampleInputs)
  ∧ countIf (isPracticalOf lab "MATH" 2) (generateEntries plainDraws sampleInputs []) ≤ 1.
Proof.
  assert (NoDup (Subject.id <$> subjects sampleInputs)) as Hnd
    by (apply (bool_decide_unpack _); reflexivity).
  split; [exact Hnd|].
  exact (one_session_per_batch plainDraws sampleInputs [] lab "MATH" 2 Hnd).
Defined.

(** X3: the teacher of every entry of a run has a capability row for the
    entry's subject that lists the entry's session type. *)
Theorem entry_teacher_qualified rand inp existing e :
  e ∈ generateEntries rand inp existing →
  ∃ faculty types,
    faculty ∈ facultySubjects inp
    ∧ FacultySubject.faculty_id faculty = Entry.faculty_id e
    ∧ FacultySubject.subject_id faculty = Entry.subject_id e
    ∧ FacultySubject.subject_types faculty = Some types
    ∧ typeName (Entry.subject_type e) ∈ types.
Proof.
  intros He. pose proof (runScheduler_traceable rand inp existing) as Hall.
  rewrite Forall_forall in Hall.
  destruct (Hall e) as (subject & faculty & batch & _ & Hq & Hbuilt & _);
    [by apply list_elem_of_In|].
  destruct (isQualified_row _ _ _ _ Hq) as (Hrow & Hsubj & types & Htypes & Hkind).
  destruct (builtFor_fields _ _ _ _ _ _ Hbuilt) as (_ & Hs & Hf & _).
  exists faculty, types. by rewrite Hs, Hf.
Qed.

Lemma entry_teacher_qualified_witness :
  lateLecture "S2" ∈ generateEntries lateDraws sampleInputs []
  ∧ ∃ faculty types,
      faculty ∈ facultySubjects sampleInputs
      ∧ FacultySubject.faculty_id faculty = "F1"
      ∧ FacultySubject.subject_id faculty = "MATH"
      ∧ FacultySubject.subject_types faculty = Some types
      ∧ typeName lecture ∈ types.
Proof.
  assert (lateLecture "S2" ∈ generateEntries lateDraws sampleInputs []) as Hin.
  { apply (list_elem_of_lookup_2 _ 0). vm_compute. reflexivity. }
  split; [exact Hin|].
  exact (entry_teacher_qualified lateDraws sampleInputs [] _ Hin).
Defined.

(** X4: the room of every entry of a run is taken from the list of rooms
    loaded for the entry's session type. *)
Theorem entry_room_of_kind rand inp existing e :
  e ∈ generateEntries rand inp existing →
  ∃ room, room ∈ roomsOf inp (Entry.subject_type e)
          ∧ Entry.classroom_id e = Classroom.id room.
Proof.
  intros He. pose proof (runScheduler_traceable rand inp existing) as Hall.
  rewrite Forall_forall in Hall.
  destruct (Hall e) as (subject & faculty & batch & _ & _ & Hbuilt & _);
    [by apply list_elem_of_In|].
  by destruct (builtFor_fields _ _ _ _ _ _ Hbuilt) as (_ & _ & _ & _ & _ & Hroom).
Qed.

Lemma entry_room_of_kind_witness :
  lateLecture "S2" ∈ generateEntries lateDraws sampleInputs []
  ∧ ∃ room, room ∈ lectureClassrooms sampleInputs ∧ "R1" = Classroom.id room.
Proof.
  assert (lateLecture "S2" ∈ generateEntries lateDraws sampleInputs []) as Hin.
  { apply (list_elem_of_lookup_2 _ 0). vm_compute. reflexivity. }
  split; [exact Hin|].
  exact (entry_room_of_kind lateDraws sampleInputs [] _ Hin).
Defined.

(** X5: every entry of a run carries the id of the target section and the
    id of a subject of the year; a lab entry needs [has_lab] on that subject
    and a tutorial entry [has_tutorial]. *)
Theorem entry_subject_offered rand inp existing e :
  e ∈ generateEntries rand inp existing →
  Entry.section_id e = sectionId inp
  ∧ ∃ subject, subject ∈ subjects inp
               ∧ Entry.subject_id e = Subject.id subject
               ∧ (Entry.subject_type e = lab → Subject.has_lab subject = true)
               ∧ (Entry.subject_type e = tutorial → Subject.has_tutorial subject = true).
Proof.
  intros He. pose proof (runScheduler_traceable rand inp existing) as Hall.
  rewrite Forall_forall in Hall.
  destruct (Hall e) as (subject & faculty & batch & Hs & _ & Hbuilt & Hlab & Htut);
    [by apply list_elem_of_In|].
  destruct (builtFor_fields _ _ _ _ _ _ Hbuilt) as (Hsec & Hsubj & _).
  split; [done|]. by exists subject.
Qed.

Lemma entry_subject_offered_witness :
  lateLecture "S2" ∈ generateEntries lateDraws sampleInputs []
  ∧ Entry.section_id (lateLecture "S2") = sectionId sampleInputs
  ∧ ∃ subject, subject ∈ subjects sampleInputs
               ∧ "MATH" = Subject.id subject
               ∧ (lecture = lab → Subject.has_lab subject = true)
               ∧ (lecture = tutorial → Subject.has_tutorial subject = true).
Proof.
  assert (lateLecture "S2" ∈ generateEntries lateDraws sampleInputs []) as Hin.
  { apply (list_elem_of_lookup_2 _ 0). vm_compute. reflexivity. }
  split; [exact Hin|].
  exact (entry_subject_offered lateDraws sampleInputs [] _ Hin).
Defined.

(** ** The searches are exhaustive *)

Lemma slotFits_start g day d fid cid i :
  0 < d → slotFits g day d fid cid i = true → i ∈ [0; 1; 2; 3; 5; 6; 7; 8; 9].
Proof.
  intros Hd Hfits. apply slotFits_spec in Hfits as (Hend & Hbreak & _).
  change (length timeSlots) with 10 in Hend. specialize (Hbreak i).
  unfold BREAK_START in Hbreak.
  do 10 (destruct i as [|i]; [first [lia | apply (bool_decide_unpack _); reflexivity]|]).
  lia.
Qed.

Lemma findBestTimeSlot_none rand pos g day d fid room :
  0 < d →
  findBestTimeSlot g day d fid room (getRandomStartTimes rand pos).1 = None →
  ∀ i, slotFits g day d fid (Classroom.id room) i = false.
Proof.
  intros Hd Hnone i. unfold findBestTimeSlot in Hnone.
  destruct (find _ (getRandomStartTimes rand pos).1) as [s|] eqn:Hfirst; [done|].
  destruct (slotFits g day d fid (Classroom.id room) i) eqn:Hfits; [|done].
  pose proof (slotFits_start _ _ _ _ _ _ Hd Hfits) as Hi.
  unfold getRandomStartTimes in Hfirst. rewrite <- (shuffle_perm rand pos) in Hi.
  apply list_elem_of_In in Hi. pose proof (find_none _ _ Hfirst i Hi). congruence.
Qed.

Lemma rotation_covers r n j : j < n → ∃ i, i < n ∧ (r + i) mod n = j.
Proof.
  intros Hj. pose proof (Nat.div_mod_eq r n) as Hr.
  assert (r mod n < n) as Hlt by (apply Nat.mod_upper_bound; lia).
  destruct (decide (r mod n ≤ j)) as [Hle|Hgt].
  - exists (j - r mod n). split; [lia|]. symmetry.
    apply (Nat.mod_unique _ _ (r / n)); [done|lia].
  - exists (j + n - r mod n). split; [lia|]. symmetry.
    apply (Nat.mod_unique _ _ (S (r / n))); [done|lia].
Qed.

Lemma roomSearch_none rand g day d fid rooms roomIndex tries pos pos' :
  0 < d → 0 < length rooms →
  roomSearch rand g day d fid rooms roomIndex tries pos = (None, pos') →
  ∀ i room, i ∈ tries → rooms !! ((roomIndex + i) mod length rooms) = Some room →
            ∀ k, slotFits g day d fid (Classroom.id room) k = false.
Proof.
  intros Hd Hrooms. revert pos.
  induction tries as [|t tries IH]; intros pos Hnone i room Hi Hroom k.
  { by apply elem_of_nil in Hi. }
  cbn [roomSearch] in Hnone.
  destruct (lookup_lt_is_Some_2 rooms ((roomIndex + t) mod length rooms)) as [r Hr];
    [apply Nat.mod_upper_bound; lia|].
  rewrite Hr in Hnone.
  pose proof (findBestTimeSlot_none rand pos g day d fid r Hd) as Hslot.
  destruct (getRandomStartTimes rand pos) as [times p]. cbn [fst] in Hslot.
  destruct (findBestTimeSlot g day d fid r times) as [s|]; [done|].
  apply elem_of_cons in Hi as [->|Hi].
  - rewrite Hr in Hroom. injection Hroom as <-. by apply Hslot.
  - by eapply IH.
Qed.

(** X6: with the start times in any random order, [findBestTimeSlot] finds a
    start that passes every test of the search (and is one of the nine
    listed starts) whenever one exists; it returns [null] only when no start
    index at all passes. *)
Theorem slot_search_exhaustive rand pos g day d fid room :
  0 < d →
  match findBestTimeSlot g day d fid room (getRandomStartTimes rand pos).1 with
  | Some s => slotFits g day d fid (Classroom.id room) s = true
              ∧ s ∈ [0; 1; 2; 3; 5; 6; 7; 8; 9]
  | None => ∀ i, slotFits g day d fid (Classroom.id room) i = false
  end.
Proof.
  intros Hd.
  destruct (findBestTimeSlot _ _ _ _ _ _) as [s|] eqn:Hfind.
  - apply findBestTimeSlot_fits in Hfind. split; [done|]. by eapply slotFits_start.
  - by apply (findBestTimeSlot_none rand pos).
Qed.

Lemma slot_search_exhaustive_witness :
  0 < 2
  ∧ match findBestTimeSlot emptyGrid Monday 2 "F1"
            {| Classroom.id := "L1"; Classroom.room_type := lab |}
            (getRandomStartTimes lateDraws 5).1 with
    | Some s => slotFits emptyGrid Monday 2 "F1" "L1" s = true
                ∧ s ∈ [0; 1; 2; 3; 5; 6; 7; 8; 9]
    | None => ∀ i, slotFits emptyGrid Monday 2 "F1" "L1" i = false
    end.
Proof.
  split; [lia|].
  apply (slot_search_exhaustive lateDraws 5 emptyGrid Monday 2 "F1"
           {| Classroom.id := "L1"; Classroom.room_type := lab |}). lia.
Defined.

Lemma findRoom_none rand inp st kind day fid pos :
  findRoom rand inp st kind day fid = (None, pos) →
  ∀ room i, room ∈ roomsOf inp kind →
            slotFits (grid st) day (sessionDuration kind) fid (Classroom.id room) i = false.
Proof.
  unfold findRoom. intros Hnone room i Hroom.
  apply list_elem_of_lookup in Hroom as [j Hj].
  pose proof (lookup_lt_Some _ _ _ Hj) as Hlt.
  destruct (rotation_covers (roomIndexOf st kind) _ j Hlt) as (t & Ht & Hmod).
  assert (0 < length (roomsOf inp kind)) as Hrooms by lia.
  eapply (roomSearch_none _ _ _ _ _ _ _ _ _ _ (sessionDuration_pos kind)
            Hrooms Hnone t room); [apply elem_of_range; lia|by rewrite Hmod].
Qed.

(** X7: the room loop gives up on a day only when no room of the kind has
    any start that passes the tests of the slot search on that day. *)
Theorem room_search_exhaustive rand inp st kind day fid pos :
  findRoom rand inp st kind day fid = (None, pos) →
  ∀ room i, room ∈ roomsOf inp kind →
            slotFits (grid st) day (sessionDuration kind) fid (Classroom.id room) i = false.
Proof. apply findRoom_none. Qed.

Lemma room_search_exhaustive_witness :
  findRoom plainDraws sampleInputs sampleFinal tutorial Monday "F1" = (None, 128)
  ∧ ∀ room i, room ∈ tutorialClassrooms sampleInputs →
              slotFits (grid sampleFinal) Monday 1 "F1" (Classroom.id room) i = false.
Proof.
  assert (findRoom plainDraws sampleInputs sampleFinal tutorial Monday "F1"
          = (None, 128)) as Hnone by (vm_compute; reflexivity).
  split; [exact Hnone|].
  exact (room_search_exhaustive plainDraws sampleInputs sampleFinal tutorial Monday "F1"
           _ Hnone).
Defined.

(** ** What a run leaves in the store *)

Lemma mutationFn_store rand db target :
  let out := mutationFn rand db target in
  (∃ error, out = (Err error, deleteSection db target))
  ∨ ∃ inp existing,
      sectionId inp = target
      ∧ out.1 = Ok (generateEntries rand inp existing)
      ∧ timetable out.2
        = timetable (deleteSection db target) ++ generateEntries rand inp existing.
Proof.
  assert (insertError (deleteSection db target) = insertError db) as Hins.
  { unfold deleteSection. by destruct (deleteFails db). }
  cbv zeta. unfold mutationFn.
  destruct (selectSection _ _) as [section|e]; [|eauto].
  destruct (selectSubjects _ _) as [subjects|e]; [|eauto].
  destruct (selectFacultySubjects _) as [fs|e]; [|eauto].
  destruct (selectExisting _ _) as [existing|e]; [|eauto].
  destruct (selectClassrooms _ lecture) as [r1|e]; [|eauto].
  destruct (selectClassrooms _ lab) as [r2|e]; [|eauto].
  destruct (selectClassrooms _ tutorial) as [r3|e]; [|eauto].
  cbn [errorOf dataOr].
  set (inp := mkInputs target section subjects fs r1 r2 r3).
  case_bool_decide as Hlen.
  - rewrite Hins. destruct (insertError db) as [e|]; [eauto|].
    right. exists inp, existing. by repeat split.
  - right. exists inp, existing.
    assert (generateEntries rand inp existing = []) as Hnil.
    { destruct (generateEntries rand inp existing); [done|simpl in Hlen; lia]. }
    rewrite Hnil, app_nil_r. by repeat split.
Qed.

Lemma generated_section rand inp existing :
  Forall (λ e, Entry.section_id e = sectionId inp) (generateEntries rand inp existing).
Proof.
  pose proof (runScheduler_traceable rand inp existing) as Hall.
  rewrite Forall_forall in Hall. apply Forall_forall. intros e He.
  destruct (Hall e He) as (subject & faculty & batch & _ & _ & Hbuilt & _).
  by destruct (builtFor_fields _ _ _ _ _ _ Hbuilt) as (Hsec & _).
Qed.

Lemma otherSections_app sid l1 l2 :
  otherSections sid (l1 ++ l2) = otherSections sid l1 ++ otherSections sid l2.
Proof. apply List.filter_app. Qed.

Lemma otherSections_own sid l :
  Forall (λ e, Entry.section_id e = sid) l → otherSections sid l = [].
Proof.
  unfold otherSections. induction 1 as [|e l He _ IH]; [done|].
  simpl. by rewrite bool_decide_eq_true_2.
Qed.

Lemma otherSections_idemp sid l : otherSections sid (otherSections sid l) = otherSections sid l.
Proof.
  unfold otherSections. induction l as [|e l IH]; [done|]. simpl.
  destruct (negb _) eqn:He; [|done]. simpl. by rewrite He, IH.
Qed.

Lemma sectionRows_own sid l :
  Forall (λ e, Entry.section_id e = sid) l → sectionRows sid l = l.
Proof.
  unfold sectionRows. induction 1 as [|e l He _ IH]; [done|].
  simpl. by rewrite bool_decide_eq_true_2, IH.
Qed.

Lemma sectionRows_others sid l : sectionRows sid (otherSections sid l) = [].
Proof.
  unfold sectionRows, otherSections. induction l as [|e l IH]; [done|]. simpl.
  case_bool_decide as He; simpl; [done|]. by rewrite bool_decide_eq_false_2.
Qed.

Lemma deleteSection_others db sid :
  otherSections sid (timetable (deleteSection db sid)) = otherSections sid (timetable db).
Proof.
  unfold deleteSection. destruct (deleteFails db); [done|].
  apply otherSections_idemp.
Qed.

(** X8: whatever its outcome (entries stored, a failed read, a failed
    insert, a failed delete), a run leaves the timetable rows of every other
    section exactly as they were, in the same order. *)
Theorem other_sections_untouched rand db sectionId :
  otherSections sectionId (timetable (mutationFn rand db sectionId).2)
  = otherSections sectionId (timetable db).
Proof.
  destruct (mutationFn_store rand db sectionId)
    as [[e ->]|(inp & existing & Hsid & _ & ->)].
  - apply deleteSection_others.
  - rewrite otherSections_app, deleteSection_others.
    rewrite (otherSections_own _ (generateEntries rand inp existing))
      by (rewrite <- Hsid; apply generated_section).
    apply app_nil_r.
Qed.

(** X9: when a run succeeds, the rows of the target section in the store
    are the returned entries, preceded by the old rows of the section only
    if the unchecked delete had failed. *)
Theorem successful_run_replaces rand db sectionId entries db' :
  mutationFn rand db sectionId = (Ok entries, db') →
  sectionRows sectionId (timetable db')
  = (if deleteFails db then sectionRows sectionId (timetable db) else []) ++ entries.
Proof.
  intros Hrun.
  destruct (mutationFn_store rand db sectionId)
    as [[e He]|(inp & existing & Hsid & Hout & Hrows)]; [congruence|].
  rewrite Hrun in Hout, Hrows. cbn [fst snd] in Hout, Hrows. injection Hout as ->.
  rewrite Hrows. unfold sectionRows at 1. rewrite List.filter_app.
  fold (sectionRows sectionId (timetable (deleteSection db sectionId))).
  fold (sectionRows sectionId (generateEntries rand inp existing)).
  rewrite (sectionRows_own sectionId (generateEntries rand inp existing))
    by (rewrite <- Hsid; apply generated_section).
  f_equal. unfold deleteSection. destruct (deleteFails db); [done|].
  apply sectionRows_others.
Qed.

Lemma successful_run_replaces_witness :
  mutationFn lateDraws (mutationFn lateDraws campus "S1").2 "S1"
  = (Ok [lateLecture "S1"], (mutationFn lateDraws campus "S1").2)
  ∧ sectionRows "S1" (timetable (mutationFn lateDraws campus "S1").2)
    = (if deleteFails (mutationFn lateDraws campus "S1").2
       then sectionRows "S1" (timetable (mutationFn lateDraws campus "S1").2) else [])
      ++ [lateLecture "S1"].
Proof.
  assert (mutationFn lateDraws (mutationFn lateDraws campus "S1").2 "S1"
          = (Ok [lateLecture "S1"], (mutationFn lateDraws campus "S1").2)) as Hrun
    by (vm_compute; reflexivity).
  split; [exact Hrun|].
  exact (successful_run_replaces lateDraws _ "S1" _ _ Hrun).
Defined.

(** X10: when every read succeeds but the insert fails, nothing is stored:
    the store is left as the delete made it.  The run throws the error of
    the insert whenever the generator, run on what the reads returned,
    produced an entry; only when it produced none is no insert issued, and
    the run succeeds with an empty result. *)
Theorem failed_insert_stores_nothing rand db target error section subjects facultySubjects :
  selectSection db target = Ok section →
  selectSubjects db (SectionRow.year_level section) = Ok subjects →
  selectFacultySubjects db = Ok facultySubjects →
  selectExistingError db = None →
  (∀ kind, errorOf (selectClassrooms db kind) = None) →
  insertError db = Some error →
  let inp := mkInputs target section subjects facultySubjects
                      (dataOr (selectClassrooms db lecture) [])
                      (dataOr (selectClassrooms db lab) [])
                      (dataOr (selectClassrooms db tutorial) []) in
  let entries := generateEntries rand inp (otherSections target (timetable db)) in
  mutationFn rand db target
  = (if bool_decide (0 < length entries) then Err error else Ok [],
     deleteSection db target).
Proof.
  intros Hsection Hsubjects Hfs Hexisting Hrooms Hins inp entries.
  assert (insertError (deleteSection db target) = Some error) as Hins'.
  { unfold deleteSection. by destruct (deleteFails db). }
  assert (otherSections target (timetable (deleteSection db target))
          = otherSections target (timetable db)) as Hothers.
  { unfold deleteSection. destruct (deleteFails db); [done|].
    cbn [withTimetable timetable]. apply otherSections_idemp. }
  destruct (deleteSection_reads db target) as (Hsec & Hsub & Hfs' & Hex & Hrooms').
  unfold mutationFn, selectExisting.
  rewrite Hsec, Hsub, Hfs', Hex, Hrooms', Hsection, Hsubjects, Hfs, Hexisting, Hothers.
  pose proof (Hrooms lecture) as H1. pose proof (Hrooms lab) as H2.
  pose proof (Hrooms tutorial) as H3. subst entries inp.
  destruct (selectClassrooms db lecture) as [r1|e]; [|done].
  destruct (selectClassrooms db lab) as [r2|e]; [|done].
  destruct (selectClassrooms db tutorial) as [r3|e]; [|done].
  cbn [errorOf dataOr]. rewrite Hins'.
  case_bool_decide as Hlen; [done|].
  destruct (generateEntries _ _ _); [done|simpl in Hlen; lia].
Qed.

(** ** Exactly what the busy grids hold *)

Lemma holds_addBusy_inv id id' i row k :
  holds id (addBusy id' i row !! k) = true →
  holds id (row !! k) = true ∨ (k = i ∧ id = id').
Proof.
  unfold addBusy. intros Hk. destruct (decide (i = k)) as [->|Hne].
  - destruct (decide (k < length row)) as [Hlt|Hge].
    + rewrite list_lookup_insert_eq in Hk by done. simpl in Hk.
      apply bool_decide_eq_true, elem_of_union in Hk as [Hk|Hk%elem_of_singleton];
        [|by right].
      left. destruct (row !! k) as [s|]; simpl in *; [by apply bool_decide_eq_true|].
      by apply not_elem_of_empty in Hk.
    + rewrite list_insert_ge in Hk by lia. by left.
  - rewrite list_lookup_insert_ne in Hk by done. by left.
Qed.

Section BusyWriterInv.
Variable write : Grid → nat → Grid.
Variables (day : Day) (facultyId classroomId : string).
Hypothesis write_faculty : ∀ g i,
  facultySchedule (write g i) = <[day := addBusy facultyId i (facultySchedule g day)]>
                                (facultySchedule g).
Hypothesis write_classroom : ∀ g i,
  classroomSchedule (write g i) = <[day := addBusy classroomId i (classroomSchedule g day)]>
                                  (classroomSchedule g).

Lemma writes_faculty_inv cells g d f k :
  holds f (facultySchedule (foldl write g cells) d !! k) = true →
  holds f (facultySchedule g d !! k) = true ∨ (d = day ∧ f = facultyId ∧ k ∈ cells).
Proof using write_faculty.
  revert g. induction cells as [|i cells IH]; intros g Hk; [by left|].
  cbn [foldl] in Hk. apply IH in Hk as [Hk|(Hd & Hf & Hk)].
  - rewrite write_faculty in Hk. destruct (decide (day = d)) as [<-|Hne].
    + rewrite fn_lookup_insert in Hk. apply holds_addBusy_inv in Hk as [Hk|[Hi Hf]];
        [by left|]. right. split; [done|]. split; [done|]. rewrite Hi. by left.
    + rewrite fn_lookup_insert_ne in Hk by done. by left.
  - right. split; [done|]. split; [done|]. by right.
Qed.

Lemma writes_classroom_inv cells g d c k :
  holds c (classroomSchedule (foldl write g cells) d !! k) = true →
  holds c (classroomSchedule g d !! k) = true ∨ (d = day ∧ c = classroomId ∧ k ∈ cells).
Proof using write_classroom.
  revert g. induction cells as [|i cells IH]; intros g Hk; [by left|].
  cbn [foldl] in Hk. apply IH in Hk as [Hk|(Hd & Hc & Hk)].
  - rewrite write_classroom in Hk. destruct (decide (day = d)) as [<-|Hne].
    + rewrite fn_lookup_insert in Hk. apply holds_addBusy_inv in Hk as [Hk|[Hi Hc]];
        [by left|]. right. split; [done|]. split; [done|]. rewrite Hi. by left.
    + rewrite fn_lookup_insert_ne in Hk by done. by left.
  - right. split; [done|]. split; [done|]. by right.
Qed.
End BusyWriterInv.

(** An existing entry covers cell [k] of [day] in the seeding. *)
Lemma seedEntry_inv g e d k :
  (∀ f, holds f (facultySchedule (seedEntry g e) d !! k) = true →
        holds f (facultySchedule g d !! k) = true
        ∨ (f = Entry.faculty_id e ∧ d = Entry.day_of_week e
           ∧ ∃ s t, seededSlots e = Some (s, t) ∧ s ≤ k < t))
  ∧ (∀ c, holds c (classroomSchedule (seedEntry g e) d !! k) = true →
          holds c (classroomSchedule g d !! k) = true
          ∨ (c = Entry.classroom_id e ∧ d = Entry.day_of_week e
             ∧ ∃ s t, seededSlots e = Some (s, t) ∧ s ≤ k < t)).
Proof.
  unfold seedEntry, seededSlots.
  destruct (getTimeIndex (substring 0 5 (Entry.start_time e))) as [s|]; [|by split; left].
  destruct (getTimeIndex (substring 0 5 (Entry.end_time e))) as [t|]; [|by split; left].
  split.
  - intros f Hk.
    apply (writes_faculty_inv (seedCell e) (Entry.day_of_week e) (Entry.faculty_id e)
             (λ _ _, eq_refl)) in Hk as [Hk|(-> & -> & Hk%elem_of_range)]; [by left|].
    right. repeat split. exists s, t. split; [done|lia].
  - intros c Hk.
    apply (writes_classroom_inv (seedCell e) (Entry.day_of_week e) (Entry.classroom_id e)
             (λ _ _, eq_refl)) in Hk as [Hk|(-> & -> & Hk%elem_of_range)]; [by left|].
    right. repeat split. exists s, t. split; [done|lia].
Qed.

Lemma holds_replicate_empty id n k : holds id (replicate n (∅ : gset string) !! k) = false.
Proof.
  destruct (replicate n ∅ !! k) as [s|] eqn:Hk; [|done].
  apply lookup_replicate in Hk as [-> _]. by apply bool_decide_eq_false.
Qed.

Lemma seedGrid_inv existing d k :
  (∀ f, holds f (facultySchedule (seedGrid existing) d !! k) = true →
        ∃ e s t, e ∈ existing ∧ Entry.faculty_id e = f ∧ Entry.day_of_week e = d
                 ∧ seededSlots e = Some (s, t) ∧ s ≤ k < t)
  ∧ (∀ c, holds c (classroomSchedule (seedGrid existing) d !! k) = true →
          ∃ e s t, e ∈ existing ∧ Entry.classroom_id e = c ∧ Entry.day_of_week e = d
                   ∧ seededSlots e = Some (s, t) ∧ s ≤ k < t).
Proof.
  unfold seedGrid. induction existing as [|x existing [IHf IHc]] using rev_ind.
  - split; intros id Hk; cbn [foldl emptyGrid facultySchedule classroomSchedule] in Hk;
      by rewrite holds_replicate_empty in Hk.
  - rewrite foldl_app. cbn [foldl].
    destruct (seedEntry_inv (foldl seedEntry emptyGrid existing) x d k) as [Hf Hc].
    split.
    + intros f Hk. apply Hf in Hk as [Hk|(-> & -> & s & t & Hslots & Hst)].
      * destruct (IHf f Hk) as (e & s & t & He & Hrest). exists e, s, t.
        split; [|done]. apply elem_of_app. by left.
      * exists x, s, t. split; [apply elem_of_app; right; by left|].
        repeat (split; [done|]). exact Hst.
    + intros c Hk. apply Hc in Hk as [Hk|(-> & -> & s & t & Hslots & Hst)].
      * destruct (IHc c Hk) as (e & s & t & He & Hrest). exists e, s, t.
        split; [|done]. apply elem_of_app. by left.
      * exists x, s, t. split; [apply elem_of_app; right; by left|].
        repeat (split; [done|]). exact Hst.
Qed.

Lemma forallb_false_range (f : nat → bool) lo hi :
  forallb f (range lo hi) = false ↔ ∃ k, lo ≤ k < hi ∧ f k = false.
Proof.
  split.
  - unfold range.
    assert (∀ n lo', forallb f (seq lo' n) = false →
              ∃ k, lo' ≤ k < lo' + n ∧ f k = false) as Hseq.
    { induction n as [|n IH]; intros lo' Hall; [done|].
      simpl in Hall. apply andb_false_iff in Hall as [Hk|Hall].
      - exists lo'. split; [lia|done].
      - destruct (IH _ Hall) as (k & Hk & Hfk). exists k. split; [lia|done]. }
    intros Hall. destruct (Hseq _ _ Hall) as (k & Hk & Hfk). exists k. split; [lia|done].
  - intros (k & Hk & Hfk). apply not_true_iff_false. intros Hall.
    rewrite forallb_range in Hall. rewrite Hall in Hfk; done.
Qed.

Lemma seededSlots_lt e s t : seededSlots e = Some (s, t) → t < length timeSlots.
Proof.
  unfold seededSlots.
  destruct (getTimeIndex (substring 0 5 (Entry.start_time e))) as [s'|]; [|done].
  destruct (getTimeIndex (substring 0 5 (Entry.end_time e))) as [t'|] eqn:Ht; [|done].
  intros [= _ <-]. by eapply getTimeIndex_lt.
Qed.

(** X11: on the freshly seeded grid a teacher is refused for a window of
    slots exactly when an existing entry of that teacher on that day, with
    start and end among the slot labels, covers a slot of the window; the
    same holds for a room. *)
Theorem seeded_grid_refuses_exactly existing day i d :
  (∀ facultyId,
     isFacultyAvailable (seedGrid existing) facultyId day i d = false ↔
     ∃ e s t k, e ∈ existing ∧ Entry.faculty_id e = facultyId
                ∧ Entry.day_of_week e = day ∧ seededSlots e = Some (s, t)
                ∧ s ≤ k < t ∧ i ≤ k < i + d)
  ∧ (∀ classroomId,
       isClassroomAvailable (seedGrid existing) classroomId day i d = false ↔
       ∃ e s t k, e ∈ existing ∧ Entry.classroom_id e = classroomId
                  ∧ Entry.day_of_week e = day ∧ seededSlots e = Some (s, t)
                  ∧ s ≤ k < t ∧ i ≤ k < i + d).
Proof.
  destruct (seedGrid_guarded existing) as [_ Hblocked].
  split; intros id; unfold isFacultyAvailable, isClassroomAvailable;
    rewrite forallb_false_range; split.
  - intros (k & Hk & Hheld). apply negb_false_iff in Hheld.
    destruct (seedGrid_inv existing day k) as [Hf _].
    destruct (Hf id Hheld) as (e & s & t & He & Hid & Hday & Hslots & Hst).
    exists e, s, t, k. repeat (split; [done|]). lia.
  - intros (e & s & t & k & He & <- & <- & Hslots & Hst & Hk).
    pose proof (seededSlots_lt _ _ _ Hslots).
    exists k. split; [lia|]. apply negb_false_iff.
    by destruct (Hblocked e He s t k Hslots Hst) as [Hf _].
  - intros (k & Hk & Hheld). apply negb_false_iff in Hheld.
    destruct (seedGrid_inv existing day k) as [_ Hc].
    destruct (Hc id Hheld) as (e & s & t & He & Hid & Hday & Hslots & Hst).
    exists e, s, t, k. repeat (split; [done|]). lia.
  - intros (e & s & t & k & He & <- & <- & Hslots & Hst & Hk).
    pose proof (seededSlots_lt _ _ _ Hslots).
    exists k. split; [lia|]. apply negb_false_iff.
    by destruct (Hblocked e He s t k Hslots Hst) as [_ Hc].
Qed.

(** X12: after [markSlotOccupied] on a grid with full rows, any window that
    shares a slot with the marked one is refused on that day for the
    section, for the teacher and for the room. *)
Theorem marked_window_refused g day i d fid cid entry k i' d' :
  fullRows g → busyRows g →
  i + d ≤ length timeSlots →
  i ≤ k < i + d → i' ≤ k < i' + d' →
  isSlotAvailable (markSlotOccupied g day i d fid cid entry) day i' d' = false
  ∧ isFacultyAvailable (markSlotOccupied g day i d fid cid entry) fid day i' d' = false
  ∧ isClassroomAvailable (markSlotOccupied g day i d fid cid entry) cid day i' d' = false.
Proof.
  intros Hfull Hbusy Hend Hk Hk'.
  assert (busyAt (markSlotOccupied g day i d fid cid entry) day fid cid k) as [Hf Hc].
  { apply (writes_busyAt_new (markCell day fid cid entry) day fid cid); [done..| |].
    - apply elem_of_range. lia.
    - intros j Hj%elem_of_range. lia. }
  destruct (markSlotOccupied_new g day i d fid cid entry k Hfull Hk Hend) as [e He].
  split; [|split].
  - unfold isSlotAvailable. apply andb_false_iff. left.
    apply forallb_false_range. exists k. split; [lia|]. by rewrite He.
  - unfold isFacultyAvailable. apply forallb_false_range. exists k.
    split; [lia|]. by rewrite Hf.
  - unfold isClassroomAvailable. apply forallb_false_range. exists k.
    split; [lia|]. by rewrite Hc.
Qed.

Lemma marked_window_refused_witness :
  fullRows emptyGrid ∧ busyRows emptyGrid
  ∧ isSlotAvailable (markSlotOccupied emptyGrid Monday 5 2 "F1" "L1" (lateLecture "S2"))
                    Monday 6 1 = false
  ∧ isFacultyAvailable (markSlotOccupied emptyGrid Monday 5 2 "F1" "L1" (lateLecture "S2"))
                       "F1" Monday 6 1 = false
  ∧ isClassroomAvailable (markSlotOccupied emptyGrid Monday 5 2 "F1" "L1" (lateLecture "S2"))
                         "L1" Monday 6 1 = false.
Proof.
  assert (fullRows emptyGrid) as Hfull by (intros day; reflexivity).
  assert (busyRows emptyGrid) as Hbusy by (intros day; split; reflexivity).
  split; [exact Hfull|]. split; [exact Hbusy|].
  apply (marked_window_refused emptyGrid Monday 5 2 "F1" "L1" (lateLecture "S2") 6 6 1
           Hfull Hbusy); simpl; lia.
Defined.

Lemma markSlotOccupied_busy_inv g day i d fid cid entry day' k :
  (∀ f, holds f (facultySchedule (markSlotOccupied g day i d fid cid entry) day' !! k) = true →
        holds f (facultySchedule g day' !! k) = true ∨ (day' = day ∧ f = fid))
  ∧ (∀ c, holds c (classroomSchedule (markSlotOccupied g day i d fid cid entry) day' !! k)
          = true →
          holds c (classroomSchedule g day' !! k) = true ∨ (day' = day ∧ c = cid)).
Proof.
  split.
  - intros f Hk.
    apply (writes_faculty_inv (markCell day fid cid entry) day fid (λ _ _, eq_refl))
      in Hk as [Hk|(-> & -> & _)]; [by left|by right].
  - intros c Hk.
    apply (writes_classroom_inv (markCell day fid cid entry) day cid (λ _ _, eq_refl))
      in Hk as [Hk|(-> & -> & _)]; [by left|by right].
Qed.

Lemma markCells_holds_mono day fid cid entry cells g d id k :
  (holds id (facultySchedule g d !! k) = true →
   holds id (facultySchedule (foldl (markCell day fid cid entry) g cells) d !! k) = true)
  ∧ (holds id (classroomSchedule g d !! k) = true →
     holds id (classroomSchedule (foldl (markCell day fid cid entry) g cells) d !! k) = true).
Proof.
  revert g. induction cells as [|i cells IH]; intros g; [done|].
  cbn [foldl]. destruct (IH (markCell day fid cid entry g i)) as [IHf IHc].
  split; intros Hk; [apply IHf|apply IHc]; cbn [markCell facultySchedule classroomSchedule];
    (destruct (decide (day = d)) as [<-|Hne];
      [rewrite fn_lookup_insert; by apply holds_addBusy_mono
      |by rewrite fn_lookup_insert_ne]).
Qed.

Lemma forallb_same {A} (f g : A → bool) (l : list A) :
  (∀ x, f x = g x) → forallb f l = forallb g l.
Proof. intros Hfg. induction l as [|x l IH]; [done|]. simpl. by rewrite Hfg, IH. Qed.

(** X13: [markSlotOccupied] blocks nobody else: the answers of
    [isFacultyAvailable] for another teacher or another day, and of
    [isClassroomAvailable] for another room or another day, are what they
    were before. *)
Theorem marking_blocks_nobody_else g day i d fid cid entry day' i' d' :
  (∀ f, f ≠ fid ∨ day' ≠ day →
        isFacultyAvailable (markSlotOccupied g day i d fid cid entry) f day' i' d'
        = isFacultyAvailable g f day' i' d')
  ∧ (∀ c, c ≠ cid ∨ day' ≠ day →
          isClassroomAvailable (markSlotOccupied g day i d fid cid entry) c day' i' d'
          = isClassroomAvailable g c day' i' d').
Proof.
  split; intros id Hother; unfold isFacultyAvailable, isClassroomAvailable;
    apply forallb_same; intros k; f_equal;
    destruct (markSlotOccupied_busy_inv g day i d fid cid entry day' k) as [Hf Hc];
    destruct (markCells_holds_mono day fid cid entry
                (range i ((i + d) `min` length timeSlots)) g day' id k) as [Hmf Hmc].
  - destruct (holds id (facultySchedule g day' !! k)) eqn:Hold; [by apply Hmf|].
    apply not_true_iff_false. intros [Hk|[-> ->]]%Hf; [congruence|].
    by destruct Hother.
  - destruct (holds id (classroomSchedule g day' !! k)) eqn:Hold; [by apply Hmc|].
    apply not_true_iff_false. intros [Hk|[-> ->]]%Hc; [congruence|].
    by destruct Hother.
Qed.

Lemma marking_blocks_nobody_else_witness :
  "F2" ≠ "F1"
  ∧ isFacultyAvailable (markSlotOccupied emptyGrid Monday 5 2 "F1" "L1" (lateLecture "S2"))
                       "F2" Monday 5 2
    = isFacultyAvailable emptyGrid "F2" Monday 5 2.
Proof.
  assert ("F2" ≠ "F1") as Hne by discriminate.
  split; [exact Hne|].
  exact (proj1 (marking_blocks_nobody_else emptyGrid Monday 5 2 "F1" "L1"
                  (lateLecture "S2") Monday 5 2) "F2" (or_introl Hne)).
Defined.

Lemma failed_insert_stores_nothing_witness :
  selectSection readOnlyCampus "S2" = Ok (section smallInputs)
  ∧ selectSubjects readOnlyCampus "FY" = Ok (subjects smallInputs)
  ∧ selectFacultySubjects readOnlyCampus = Ok (facultySubjects smallInputs)
  ∧ selectExistingError readOnlyCampus = None
  ∧ (∀ kind, errorOf (selectClassrooms readOnlyCampus kind) = None)
  ∧ insertError readOnlyCampus = Some "denied"
  ∧ generateEntries lateDraws smallInputs [] = [lateLecture "S2"]
  ∧ mutationFn lateDraws readOnlyCampus "S2"
    = (Err "denied", deleteSection readOnlyCampus "S2").
Proof.
  assert (∀ kind, errorOf (selectClassrooms readOnlyCampus kind) = None) as Hrooms
    by (by intros []).
  assert (generateEntries lateDraws smallInputs [] = [lateLecture "S2"]) as Hgen
    by (vm_compute; reflexivity).
  repeat (split; [first [exact Hrooms | exact Hgen | reflexivity]|]).
  pose proof (failed_insert_stores_nothing lateDraws readOnlyCampus "S2" "denied"
                (section smallInputs) (subjects smallInputs) (facultySubjects smallInputs)
                eq_refl eq_refl eq_refl eq_refl Hrooms eq_refl) as Hrun.
  cbv zeta in Hrun.
  change (mkInputs "S2" (section smallInputs) (subjects smallInputs)
                   (facultySubjects smallInputs)
                   (dataOr (selectClassrooms readOnlyCampus lecture) [])
                   (dataOr (selectClassrooms readOnlyCampus lab) [])
                   (dataOr (selectClassrooms readOnlyCampus tutorial) []))
    with smallInputs in Hrun.
  change (otherSections "S2" (timetable readOnlyCampus)) with (@nil Entry.t) in Hrun.
  rewrite Hgen in Hrun. exact Hrun.
Defined.

(** ** Load counter and loop bound *)

(** X14: at the end of a run the usage counter of every teacher equals the
    hours of the entries the run gave that teacher (two for a lab, one for a
    lecture or a tutorial), read off the entries' own start and end times. *)
Theorem usage_counts_hours rand inp existing facultyId :
  usageOf (facultyUsageCount (runScheduler rand inp existing)) facultyId
  = hoursAssigned facultyId (generateEntries rand inp existing).
Proof. apply (inv_usage _ (Invariant_runScheduler rand inp existing)). Qed.

Lemma lectureMeasure_bound shuffledDays st subject days :
  length shuffledDays = 5 → length days ≤ 5 →
  lectureMeasure shuffledDays st subject days ≤ 35.
Proof.
  intros Hsd Hdays. unfold lectureMeasure, openDays.
  pose proof (filter_length_le
    (λ d, negb (bool_decide (Subject.id subject ∈ dailySubjectLectures st d))) daysOfWeek)
    as Hopen.
  change (length daysOfWeek) with 5 in Hopen. rewrite Hsd. nia.
Qed.

Lemma lectureWhile_total rand inp shuffledDays subject fid fuel st hours days :
  lectureMeasure shuffledDays st subject days < fuel →
  ∃ rounds hours' days',
    rounds ≤ lectureMeasure shuffledDays st subject days
    ∧ lectureWhile rand inp shuffledDays subject fid (st, hours, days) rounds
        (lectureLoop fuel rand inp shuffledDays subject fid st hours days, hours', days')
    ∧ lectureGuard subject hours' days' = false.
Proof.
  revert st hours days. induction fuel as [|fuel IH]; intros st hours days Hfuel; [lia|].
  cbn [lectureLoop]. destruct (lectureGuard subject hours days) eqn:Hguard.
  - destruct (lectureRound rand inp shuffledDays subject fid st hours days)
      as [[st' hours'] days'] eqn:Hround.
    pose proof (lectureRound_measure _ _ _ _ _ _ _ _ _ _ _ Hguard Hround) as Hless.
    destruct (IH st' hours' days' ltac:(lia)) as (rounds & h & d & Hrounds & Hrun & Hexit).
    exists (S rounds), h, d. split; [lia|]. split; [|done].
    apply lectureWhile_round; [done|]. by rewrite Hround.
  - exists 0, hours, days. split; [lia|]. split; [|done]. by apply lectureWhile_exit.
Qed.

(** X15: the [while] loop of a subject terminates, whatever the rooms, the
    grid, [weekly_hours] and the draws: started with no hour scheduled and
    all five days available, it leaves through its own test after at most
    35 rounds, in the state [scheduleLectures] returns; so unrolling it any
    number of times above 35 gives that state. *)
Theorem lecture_loop_ends rand inp shuffledDays st subject faculty :
  shuffledDays ≡ₚ daysOfWeek →
  selectLeastUsed (facultyUsageCount st) (qualifiedFaculty inp subject lecture)
  = Some faculty →
  (∃ rounds hours days,
     rounds ≤ 35
     ∧ lectureWhile rand inp shuffledDays subject (FacultySubject.faculty_id faculty)
         (st, 0, shuffledDays) rounds
         (scheduleLectures rand inp shuffledDays st subject, hours, days)
     ∧ lectureGuard subject hours days = false)
  ∧ ∀ fuel, 35 < fuel →
            lectureLoop fuel rand inp shuffledDays subject
                        (FacultySubject.faculty_id faculty) st 0 shuffledDays
            = scheduleLectures rand inp shuffledDays st subject.
Proof.
  intros Hperm Hsel.
  assert (length shuffledDays = 5) as Hlen by (by rewrite Hperm).
  pose proof (lectureMeasure_bound shuffledDays st subject shuffledDays Hlen ltac:(lia))
    as Hbound.
  unfold scheduleLectures. rewrite Hsel. split.
  - destruct (lectureWhile_total rand inp shuffledDays subject
                (FacultySubject.faculty_id faculty)
                (lectureFuel shuffledDays st subject) st 0 shuffledDays)
      as (rounds & hours & days & Hrounds & Hrun & Hexit);
      [unfold lectureFuel; lia|].
    exists rounds, hours, days. split; [lia|done].
  - intros fuel Hfuel. apply lectureLoop_fuel; unfold lectureFuel; lia.
Qed.

Lemma lecture_loop_ends_witness :
  daysOfWeek ≡ₚ daysOfWeek
  ∧ selectLeastUsed (facultyUsageCount (initialSched sampleInputs [] 5))
                    (qualifiedFaculty sampleInputs sampleSubject lecture)
    = Some (FacultySubject.mk "F1" "MATH" (Some ["lecture"; "lab"]))
  ∧ ∃ rounds hours days,
      rounds ≤ 35
      ∧ lectureWhile plainDraws sampleInputs daysOfWeek sampleSubject "F1"
          (initialSched sampleInputs [] 5, 0, daysOfWeek) rounds
          (scheduleLectures plainDraws sampleInputs daysOfWeek
                            (initialSched sampleInputs [] 5) sampleSubject, hours, days)
      ∧ lectureGuard sampleSubject hours days = false.
Proof.
  assert (selectLeastUsed (facultyUsageCount (initialSched sampleInputs [] 5))
                          (qualifiedFaculty sampleInputs sampleSubject lecture)
          = Some (FacultySubject.mk "F1" "MATH" (Some ["lecture"; "lab"]))) as Hsel
    by (vm_compute; reflexivity).
  split; [reflexivity|]. split; [exact Hsel|].
  exact (proj1 (lecture_loop_ends plainDraws sampleInputs daysOfWeek
                  (initialSched sampleInputs [] 5) sampleSubject _ (reflexivity _) Hsel)).
Defined.

(** ** The timetable grid *)

Lemma getTimetableCell_elem rows day time e :
  e ∈ getTimetableCell (Some rows) day time ↔
  e ∈ rows ∧ Row.day_of_week e = day ∧ substring 0 5 (Row.start_time e) = time.
Proof.
  unfold getTimetableCell. rewrite list_elem_of_In, filter_In, <- list_elem_of_In.
  rewrite andb_true_iff, !bool_decide_eq_true. done.
Qed.

Lemma getActiveTimeSlots_elem rows time :
  rows ≠ [] →
  time ∈ getActiveTimeSlots (Some rows) ↔
  time ∈ timeSlots ∧ ∃ e, e ∈ rows ∧ substring 0 5 (Row.start_time e) = time.
Proof.
  intros Hrows. unfold getActiveTimeSlots.
  rewrite bool_decide_eq_false_2 by (by destruct rows).
  rewrite list_elem_of_In, filter_In, <- list_elem_of_In, bool_decide_eq_true.
  rewrite elem_of_list_to_set, list_elem_of_fmap.
  split; intros [Hslot (e & H1 & H2)]; (split; [done|]); by exists e.
Qed.

Lemma filter_sublist {A} (f : A → bool) (l : list A) : List.filter f l `sublist_of` l.
Proof.
  induction l as [|x l IH]; [done|]. simpl.
  destruct (f x); [by apply sublist_skip|by apply sublist_cons].
Qed.

Lemma dayName_column day : dayName day ∈ dayName <$> daysOfWeek.
Proof. apply list_elem_of_fmap_2. destruct day; apply (bool_decide_unpack _); reflexivity. Qed.

(** X16: the grid, whose rows are the active slots and whose columns are the
    five days of [daysOfWeek], shows a row of the store exactly when the
    first five characters of its start time are a slot label and its day is
    one of the five; it is then in one cell only, the one of its day and
    that label.  A two-slot lab is shown at its start alone; a row that
    starts off the hour, or one stored for Saturday or Sunday, is shown
    nowhere. *)
Theorem grid_shows_aligned_entries rows e :
  ((∃ day time, day ∈ dayName <$> daysOfWeek
                ∧ time ∈ getActiveTimeSlots (Some rows)
                ∧ e ∈ getTimetableCell (Some rows) day time) ↔
   e ∈ rows
   ∧ substring 0 5 (Row.start_time e) ∈ timeSlots
   ∧ Row.day_of_week e ∈ dayName <$> daysOfWeek)
  ∧ (∀ day time, e ∈ getTimetableCell (Some rows) day time →
                 day = Row.day_of_week e
                 ∧ time = substring 0 5 (Row.start_time e)).
Proof.
  split.
  - split.
    + intros (day & time & Hday & Htime & (He & <- & <-)%getTimetableCell_elem).
      split; [done|]. split; [|done].
      apply getActiveTimeSlots_elem in Htime as [Htime _]; [done|].
      intros ->. by apply elem_of_nil in He.
    + intros (He & Hslot & Hday).
      exists (Row.day_of_week e), (substring 0 5 (Row.start_time e)).
      split; [done|]. split.
      * apply getActiveTimeSlots_elem; [intros ->; by apply elem_of_nil in He|].
        split; [done|]. by exists e.
      * by apply getTimetableCell_elem.
  - by intros day time (_ & <- & <-)%getTimetableCell_elem.
Qed.

(** X17: with no timetable or an empty one all ten slots are rows of the
    grid.  Otherwise the rows are slot labels in the order of the day, none
    repeated: exactly the labels at which some row of the store starts.
    Such a grid row has an entry in one of its five cells exactly when one
    of the rows of the store that start at it lies on one of the five days
    of [daysOfWeek]; a row stored for Saturday or Sunday gives its label a
    grid row without filling a cell. *)
Theorem grid_rows rows :
  getActiveTimeSlots None = timeSlots
  ∧ getActiveTimeSlots (Some []) = timeSlots
  ∧ getActiveTimeSlots (Some rows) `sublist_of` timeSlots
  ∧ (rows ≠ [] →
     ∀ time,
       (time ∈ getActiveTimeSlots (Some rows) ↔
        time ∈ timeSlots ∧ ∃ e, e ∈ rows ∧ substring 0 5 (Row.start_time e) = time)
       ∧ ((∃ day e, day ∈ dayName <$> daysOfWeek
                    ∧ e ∈ getTimetableCell (Some rows) day time) ↔
          ∃ e, e ∈ rows ∧ substring 0 5 (Row.start_time e) = time
               ∧ Row.day_of_week e ∈ dayName <$> daysOfWeek)).
Proof.
  split; [done|]. split; [done|]. split.
  - unfold getActiveTimeSlots. case_bool_decide; [done|]. apply filter_sublist.
  - intros Hrows time. split; [by apply getActiveTimeSlots_elem|]. split.
    + intros (day & e & Hday & (He & <- & Htime)%getTimetableCell_elem). by exists e.
    + intros (e & He & Htime & Hday). exists (Row.day_of_week e), e.
      split; [done|]. by apply getTimetableCell_elem.
Qed.

Lemma grid_rows_witness :
  [saturdayRow] ≠ []
  ∧ getActiveTimeSlots (Some [saturdayRow]) = ["08:00"]
  ∧ ∀ time,
      (time ∈ getActiveTimeSlots (Some [saturdayRow]) ↔
       time ∈ timeSlots
       ∧ ∃ e, e ∈ [saturdayRow] ∧ substring 0 5 (Row.start_time e) = time)
      ∧ ((∃ day e, day ∈ dayName <$> daysOfWeek
                   ∧ e ∈ getTimetableCell (Some [saturdayRow]) day time) ↔
         ∃ e, e ∈ [saturdayRow] ∧ substring 0 5 (Row.start_time e) = time
              ∧ Row.day_of_week e ∈ dayName <$> daysOfWeek).
Proof.
  assert ([saturdayRow] ≠ []) as Hrows by discriminate.
  split; [exact Hrows|]. split; [reflexivity|].
  exact (proj2 (proj2 (proj2 (grid_rows [saturdayRow]))) Hrows).
Defined.

Lemma startLabel_slot i : i < 10 → startLabel i ∈ timeSlots ∧ (startLabel i = "12:00" → i = 4).
Proof.
  intros Hi.
  do 10 (destruct i as [|i];
         [split; [apply (bool_decide_unpack _); reflexivity|try done; discriminate]|]).
  lia.
Qed.

(** X18: when the store hands back the entries of a run (same days, start
    times beginning with the same [HH:MM]), every one of them is on one of
    the five days of the grid, the grid shows it in the cell of its day and
    start, and there is no row for 12:00. *)
Theorem generated_schedule_is_shown rand inp existing rows :
  Forall2 sameCell rows (generateEntries rand inp existing) →
  (∀ row, row ∈ rows →
          Row.day_of_week row ∈ dayName <$> daysOfWeek
          ∧ substring 0 5 (Row.start_time row) ∈ getActiveTimeSlots (Some rows)
          ∧ row ∈ getTimetableCell (Some rows) (Row.day_of_week row)
                                   (substring 0 5 (Row.start_time row)))
  ∧ (rows ≠ [] → "12:00" ∉ getActiveTimeSlots (Some rows)).
Proof.
  intros Hrows.
  assert (∀ row, row ∈ rows →
            Row.day_of_week row ∈ dayName <$> daysOfWeek
            ∧ ∃ i, i < 10 ∧ i ≠ 4 ∧ substring 0 5 (Row.start_time row) = startLabel i)
    as Hstart.
  { intros row [j Hj]%list_elem_of_lookup.
    destruct (Forall2_lookup_l _ _ _ _ _ Hrows Hj) as (e & He & Hday & Hsame).
    apply list_elem_of_lookup_2 in He.
    destruct (generated_placed _ _ _ _ He) as (i & Hend & Hs & _ & Hbreak & _).
    pose proof (sessionDuration_pos (Entry.subject_type e)).
    change (length timeSlots) with 10 in Hend.
    split; [rewrite Hday; apply dayName_column|].
    exists i. split; [lia|]. split; [apply Hbreak; lia|congruence]. }
  split.
  - intros row Hrow. destruct (Hstart row Hrow) as (Hday & i & Hi & _ & Hlabel).
    split; [done|]. split; [|by apply getTimetableCell_elem].
    apply getActiveTimeSlots_elem; [intros ->; by apply elem_of_nil in Hrow|].
    split; [|by exists row]. rewrite Hlabel. by apply startLabel_slot.
  - intros Hne (_ & row & Hrow & Htime)%getActiveTimeSlots_elem; [|done].
    destruct (Hstart row Hrow) as (_ & i & Hi & Hbreak & Hlabel).
    apply Hbreak. apply startLabel_slot; [done|congruence].
Qed.

Lemma generated_schedule_is_shown_witness :
  Forall2 sameCell [storedLateLecture "S2"] (generateEntries lateDraws smallInputs [])
  ∧ (∀ row, row ∈ [storedLateLecture "S2"] →
            Row.day_of_week row ∈ dayName <$> daysOfWeek
            ∧ substring 0 5 (Row.start_time row)
              ∈ getActiveTimeSlots (Some [storedLateLecture "S2"])
            ∧ row ∈ getTimetableCell (Some [storedLateLecture "S2"]) (Row.day_of_week row)
                                     (substring 0 5 (Row.start_time row)))
  ∧ ([storedLateLecture "S2"] ≠ [] →
     "12:00" ∉ getActiveTimeSlots (Some [storedLateLecture "S2"])).
Proof.
  assert (Forall2 sameCell [storedLateLecture "S2"] (generateEntries lateDraws smallInputs []))
    as Hrows.
  { assert (generateEntries lateDraws smallInputs [] = [lateLecture "S2"]) as ->
      by (vm_compute; reflexivity).
    repeat constructor. }
  split; [exact Hrows|].
  exact (generated_schedule_is_shown lateDraws smallInputs [] _ Hrows).
Defined.

(** ** Batch sizes *)

(** X19: for a section whose [student_count] is a value [n >= 0] of the
    integer column, the listed batch sizes add up to [n]; every listed
    batch has between one student and [batchSize] students, the ceiling of
    [n / 3]; only sections of 3 or of at least 5 students get three batches
    listed, and a section of no students none. *)
Theorem batch_sizes_split (studentCount : Z) :
  studentCounts studentCount →
  let info := getBatchInfo studentCount in
  foldr (λ batch total, batch.2 + total)%Z 0%Z (BatchInfo.batches info) = studentCount
  ∧ Forall (λ batch, 0 < batch.2 ≤ BatchInfo.batchSize info)%Z (BatchInfo.batches info)
  ∧ (3 * BatchInfo.batchSize info - 3 < studentCount ≤ 3 * BatchInfo.batchSize info)%Z
  ∧ (length (BatchInfo.batches info) = 3 ↔ (studentCount = 3 ∨ 5 ≤ studentCount)%Z)
  ∧ (BatchInfo.batches info = [] ↔ studentCount = 0%Z).
Proof.
  intros [Hn _]. cbv zeta. unfold getBatchInfo.
  cbn [BatchInfo.batches BatchInfo.batchSize List.filter snd].
  set (b := (- (- studentCount / 3))%Z).
  assert (3 * b - 3 < studentCount ≤ 3 * b)%Z as Hb.
  { subst b. pose proof (Z.div_mod (- studentCount) 3 ltac:(lia)).
    pose proof (Z.mod_pos_bound (- studentCount) 3 ltac:(lia)). lia. }
  clearbody b.
  repeat case_bool_decide; cbn [foldr snd length];
    (split; [lia|]); (split; [repeat constructor; cbn [snd]; lia|]);
    (split; [exact Hb|]);
    (split; split; intros; first [done | lia | exfalso; lia]).
Qed.

Lemma batch_sizes_split_witness :
  studentCounts 4
  ∧ BatchInfo.batches (getBatchInfo 4) = [("Batch A", 2%Z); ("Batch B", 2%Z)]
  ∧ foldr (λ batch total, batch.2 + total)%Z 0%Z (BatchInfo.batches (getBatchInfo 4)) = 4%Z.
Proof.
  assert (studentCounts 4) as Hn by (unfold studentCounts; lia).
  split; [exact Hn|]. split; [reflexivity|].
  exact (proj1 (batch_sizes_split 4 Hn)).
Defined.

(** ** Coverage of a free week *)

Lemma markCells_other_day day fid cid entry cells g day' :
  day' ≠ day →
  schedule (foldl (markCell day fid cid entry) g cells) day' = schedule g day'
  ∧ facultySchedule (foldl (markCell day fid cid entry) g cells) day' = facultySchedule g day'
  ∧ classroomSchedule (foldl (markCell day fid cid entry) g cells) day'
    = classroomSchedule g day'.
Proof.
  intros Hne. revert g. induction cells as [|i cells IH]; intros g; [done|].
  cbn [foldl]. destruct (IH (markCell day fid cid entry g i)) as (-> & -> & ->).
  cbn [markCell schedule facultySchedule classroomSchedule].
  by rewrite !fn_lookup_insert_ne.
Qed.

Lemma slotFits_other_day g day i d fid cid entry day' d' fid' cid' i' :
  day' ≠ day →
  slotFits (markSlotOccupied g day i d fid cid entry) day' d' fid' cid' i'
  = slotFits g day' d' fid' cid' i'.
Proof.
  intros Hne. unfold slotFits, isSlotAvailable, isFacultyAvailable, isClassroomAvailable,
    markSlotOccupied.
  by destruct (markCells_other_day day fid cid entry
                 (range i ((i + d) `min` length timeSlots)) g day' Hne) as (-> & -> & ->).
Qed.

Lemma findRoom_some rand inp st day fid :
  lectureFits inp fid (grid st) day →
  ∃ room i next pos, findRoom rand inp st lecture day fid = (Some (room, i, next), pos).
Proof.
  intros (room & i & Hroom & Hfits).
  destruct (findRoom rand inp st lecture day fid) as [[[[r j] next]|] pos] eqn:Hfind;
    [by eauto|].
  pose proof (findRoom_none _ _ _ _ _ _ _ Hfind room i Hroom) as Hnone.
  cbn [sessionDuration] in Hnone. congruence.
Qed.

Lemma NoDup_delete {A} (l : list A) i : NoDup l → NoDup (delete i l).
Proof.
  intros Hl. exact (sublist_NoDup _ _ Hl (sublist_delete l i)).
Qed.

Lemma elem_of_delete_NoDup {A} (l : list A) i x y :
  NoDup l → l !! i = Some x → y ∈ delete i l ↔ y ∈ l ∧ y ≠ x.
Proof.
  intros Hl Hx. rewrite (delete_take_drop l i).
  rewrite <- (take_drop_middle l i x Hx) in Hl at 1.
  rewrite <- (take_drop_middle l i x Hx) at 3.
  apply list.NoDup_app in Hl as (_ & Htake & Hdrop).
  apply list.NoDup_cons in Hdrop as [Hx' _].
  rewrite !elem_of_app, elem_of_cons. split.
  - intros [Hy|Hy]; (split; [tauto|]); intros ->; [|done].
    apply (Htake x Hy). by left.
  - intros [[Hy|[->|Hy]] Hne]; tauto.
Qed.

Section LectureProgress.
Variable rand : nat → nat.
Variable inp : Inputs.
Variable shuffledDays : list Day.
Variable subject : Subject.t.
Variable fid : string.

Lemma lectureRound_progress st hours days :
  openWeek inp subject fid st days →
  lectureGuard subject hours days = true →
  ∃ st' e,
    lectureRound rand inp shuffledDays subject fid st hours days
    = (st', S hours, delete (hours mod length days) days)
    ∧ timetableEntries st' = timetableEntries st ++ [e]
    ∧ builtFor inp lecture subject fid None e
    ∧ openWeek inp subject fid st' (delete (hours mod length days) days).
Proof.
  intros (Hnd & Hopen & Hdone) [_ Hdays%bool_decide_eq_true]%andb_true_iff.
  unfold lectureRound.
  destruct (lookup_lt_is_Some_2 days (hours mod length days)) as [day Hday];
    [apply Nat.mod_upper_bound; lia|].
  rewrite Hday.
  destruct (Hopen day) as [Hfits Hfresh]; [by eapply list_elem_of_lookup_2|].
  rewrite bool_decide_eq_false_2 by done.
  destruct (findRoom_some rand inp st day fid Hfits) as (room & i & next & pos & Hroom).
  rewrite Hroom.
  set (st' := placeSession inp st lecture subject fid room day i next None pos).
  assert (openWeek inp subject fid st' (delete (hours mod length days) days)) as Hweek.
  { split; [by apply NoDup_delete|]. split.
    - intros day' [Hin Hne]%(elem_of_delete_NoDup _ _ day); [|done..].
      destruct (Hopen day' Hin) as [(r & j & Hr & Hj) Hfresh'].
      split.
      + exists r, j. split; [done|]. subst st'. cbn [placeSession grid].
        by rewrite slotFits_other_day.
      + subst st'. cbn [placeSession dailySubjectLectures].
        by rewrite fn_lookup_insert_ne.
    - intros day' Hout. subst st'. cbn [placeSession dailySubjectLectures].
      destruct (decide (day = day')) as [<-|Hne].
      + rewrite fn_lookup_insert. apply elem_of_union_r. by apply elem_of_singleton.
      + rewrite fn_lookup_insert_ne by done. apply Hdone. intros Hin. apply Hout.
        apply (elem_of_delete_NoDup _ _ day); [done..|]. by split. }
  assert ((if bool_decide (length (delete (hours mod length days) days) = 0)
              && bool_decide (Z.of_nat (S hours) < Subject.weekly_hours subject)%Z
           then List.filter
                  (λ d, negb (bool_decide (Subject.id subject ∈ dailySubjectLectures st' d)))
                  shuffledDays
           else []) = []) as ->.
  { destruct (_ && _) eqn:Hrefill; [|done].
    apply andb_true_iff in Hrefill as [Hnil%bool_decide_eq_true _].
    apply length_zero_iff_nil in Hnil. destruct Hweek as (_ & _ & Hall).
    rewrite Hnil in Hall. clear -Hall.
    induction shuffledDays as [|d ds IH]; [done|]. simpl.
    rewrite bool_decide_eq_true_2; [done|]. apply Hall. apply not_elem_of_nil. }
  rewrite app_nil_r. exists st', (newEntry inp lecture subject fid room day i None).
  split; [done|]. split; [done|]. split; [|done].
  exists room, day, i. split; [|done]. by apply (findRoom_room _ _ _ _ _ _ _ _ _ _ Hroom).
Qed.

Lemma lectureLoop_fills fuel st hours days :
  openWeek inp subject fid st days →
  length days < fuel →
  countIf (isLectureOf (Subject.id subject))
          (timetableEntries (lectureLoop fuel rand inp shuffledDays subject fid st hours days))
  = countIf (isLectureOf (Subject.id subject)) (timetableEntries st)
    + Z.to_nat (Z.min (Subject.weekly_hours subject - Z.of_nat hours)
                      (Z.of_nat (length days))).
Proof.
  revert st hours days. induction fuel as [|fuel IH]; intros st hours days Hweek Hfuel;
    [lia|].
  cbn [lectureLoop]. destruct (lectureGuard subject hours days) eqn:Hguard.
  - destruct (lectureRound_progress st hours days Hweek Hguard)
      as (st' & e & -> & Hentries & Hbuilt & Hweek').
    apply andb_true_iff in Hguard as [Hlt%bool_decide_eq_true Hdays%bool_decide_eq_true].
    assert (length (delete (hours mod length days) days) = length days - 1) as Hlen.
    { destruct (lookup_lt_is_Some_2 days (hours mod length days)) as [day Hday];
        [apply Nat.mod_upper_bound; lia|].
      rewrite length_delete by eauto. lia. }
    rewrite IH by (done || lia). rewrite Hentries, countIf_app, Hlen.
    assert (countIf (isLectureOf (Subject.id subject)) [e] = 1) as ->.
    { destruct (builtFor_fields _ _ _ _ _ _ Hbuilt) as (_ & Hs & _ & Hk & _).
      unfold countIf. simpl. unfold isLectureOf. by rewrite bool_decide_eq_true_2. }
    lia.
  - apply andb_false_iff in Hguard as [Hge%bool_decide_eq_false|Hnil%bool_decide_eq_false];
      lia.
Qed.
End LectureProgress.

Lemma foldl_count_skip {B} (f : Sched → B → Sched) (q : Entry.t → bool) (l : list B) st :
  (∀ s b, b ∈ l → countIf q (timetableEntries (f s b)) = countIf q (timetableEntries s)) →
  countIf q (timetableEntries (foldl f st l)) = countIf q (timetableEntries st).
Proof.
  revert st. induction l as [|b l IH]; intros st Hf; [done|].
  cbn [foldl]. rewrite IH by (intros s b' Hb'; apply Hf; by right).
  apply Hf. by left.
Qed.

Lemma selectLeastUsed_fresh first others :
  selectLeastUsed ∅ (first :: others) = Some first.
Proof.
  cbn [selectLeastUsed]. f_equal. induction others as [|fs others IH]; [done|].
  cbn [foldl]. unfold leastUsedStep at 2, usageOf. rewrite !lookup_empty. cbn [default].
  rewrite bool_decide_eq_false_2 by lia. exact IH.
Qed.

Lemma scheduleLectures_fills rand inp shuffledDays st subject faculty :
  selectLeastUsed (facultyUsageCount st) (qualifiedFaculty inp subject lecture)
  = Some faculty →
  openWeek inp subject (FacultySubject.faculty_id faculty) st shuffledDays →
  countIf (isLectureOf (Subject.id subject))
          (timetableEntries (scheduleLectures rand inp shuffledDays st subject))
  = countIf (isLectureOf (Subject.id subject)) (timetableEntries st)
    + Z.to_nat (Z.min (Subject.weekly_hours subject) (Z.of_nat (length shuffledDays))).
Proof.
  intros Hsel Hweek. unfold scheduleLectures. rewrite Hsel.
  rewrite (lectureLoop_fills rand inp shuffledDays subject _ _ st 0 shuffledDays Hweek).
  - do 3 f_equal. lia.
  - unfold lectureFuel, lectureMeasure. lia.
Qed.

(** X20: when the first subject of the catalog has a qualified lecture
    teacher, and before the run every weekday offers some lecture room and
    start at which the first-listed such teacher and the room pass the slot
    tests on the seeded grid, the run gives that subject exactly
    [min(weekly_hours, 5)] lectures (none for a non-positive
    [weekly_hours]). *)
Theorem free_week_is_filled rand inp existing subject rest first others :
  subjects inp = subject :: rest →
  NoDup (Subject.id <$> subjects inp) →
  qualifiedFaculty inp subject lecture = first :: others →
  (∀ day, lectureFits inp (FacultySubject.faculty_id first) (seedGrid existing) day) →
  countIf (isLectureOf (Subject.id subject)) (generateEntries rand inp existing)
  = Z.to_nat (Z.min (Subject.weekly_hours subject) 5).
Proof.
  intros Hsubjects Hnd Hqual Hfits. unfold generateEntries, runScheduler.
  pose proof (shuffle_perm rand 0 daysOfWeek) as Hperm.
  destruct (shuffle rand 0 daysOfWeek) as [shuffledDays pos]. cbn [fst] in Hperm.
  rewrite foldl_count_same by (intros; apply schedulePracticals_lectures).
  rewrite Hsubjects in Hnd |- *. cbn [foldl].
  rewrite fmap_cons in Hnd. apply list.NoDup_cons in Hnd as [Hfirst _].
  rewrite foldl_count_skip.
  2:{ intros s b Hb. apply scheduleLectures_lectures. intros Heq. apply Hfirst.
      rewrite <- Heq. by apply list_elem_of_fmap_2. }
  rewrite (scheduleLectures_fills _ _ _ _ _ first).
  - rewrite (Permutation_length Hperm). done.
  - cbn [initialSched facultyUsageCount]. rewrite Hqual. apply selectLeastUsed_fresh.
  - split; [|split].
    + rewrite Hperm. apply (bool_decide_unpack _). reflexivity.
    + intros day _. split; [apply Hfits|]. cbn [initialSched dailySubjectLectures].
      apply not_elem_of_empty.
    + intros day Hout. exfalso. apply Hout. rewrite Hperm.
      destruct day; apply (bool_decide_unpack _); reflexivity.
Qed.

Lemma free_week_is_filled_witness :
  subjects sampleInputs = [sampleSubject]
  ∧ NoDup (Subject.id <$> subjects sampleInputs)
  ∧ (∀ day, lectureFits sampleInputs "F1" (seedGrid []) day)
  ∧ countIf (isLectureOf "MATH") (generateEntries plainDraws sampleInputs []) = 5.
Proof.
  assert (NoDup (Subject.id <$> subjects sampleInputs)) as Hnd
    by (apply (bool_decide_unpack _); reflexivity).
  assert (∀ day, lectureFits sampleInputs "F1" (seedGrid []) day) as Hfits.
  { intros day. eexists _, 0. split; [by left|]. by destruct day. }
  split; [done|]. split; [exact Hnd|]. split; [exact Hfits|].
  exact (free_week_is_filled plainDraws sampleInputs [] sampleSubject [] _ []
           eq_refl Hnd eq_refl Hfits).
Defined.

Lemma seeded_entries_respected_witness :
  let old := {| Entry.section_id := "S1"; Entry.subject_id := "PHY";
                Entry.faculty_id := "F1"; Entry.classroom_id := "R9";
                Entry.day_of_week := Monday; Entry.start_time := "08:00:00";
                Entry.end_time := "09:00:00"; Entry.subject_type := lecture;
                Entry.batch_number := None |} in
  let new := sampleEntry lecture "F1" "R1" Monday "09:00" "10:00" None in
  new ∈ generateEntries plainDraws smallInputs [old]
  ∧ old ∈ [old]
  ∧ seededSlots old ≠ None
  ∧ sharesResource new old
  ∧ ¬ clash new old.
Proof.
  intros old new.
  assert (generateEntries plainDraws smallInputs [old] = [new]) as Hgen
    by (vm_compute; reflexivity).
  assert (new ∈ generateEntries plainDraws smallInputs [old]) as Hnew
    by (rewrite Hgen; by left).
  assert (old ∈ [old]) as Hold by (by left).
  assert (seededSlots old ≠ None) as Hseed by (by vm_compute).
  assert (sharesResource new old) as Hshare by (by left).
  repeat (split; [assumption|]).
  exact (seeded_entries_respected plainDraws smallInputs [old] new old Hnew Hold Hseed Hshare).
Defined.

(** * The half-hour revision *)

Lemma halfHour_indexOf_ge time : (-1 ≤ HalfHour.indexOf time)%Z.
Proof. unfold HalfHour.indexOf. destruct (list_find _ _) as [[i t]|]; lia. Qed.

Lemma halfHour_slotText_inj k k' :
  (-1 ≤ k < 20)%Z → (-1 ≤ k' < 20)%Z →
  HalfHour.slotText k = HalfHour.slotText k' → k = k'.
Proof.
  intros Hk Hk'.
  assert (Forall (λ a, Forall (λ b, HalfHour.slotText a = HalfHour.slotText b → a = b)
                          (seqZ (-1) 21)) (seqZ (-1) 21)) as Hall
    by (apply (bool_decide_unpack _); vm_compute; reflexivity).
  rewrite list.Forall_forall in Hall.
  specialize (Hall k). rewrite list.Forall_forall in Hall.
  apply Hall; apply elem_of_seqZ; lia.
Qed.

Lemma halfHour_key_inj day time time' :
  HalfHour.getSlotKey day time = HalfHour.getSlotKey day time' → time = time'.
Proof.
  unfold HalfHour.getSlotKey. induction day as [|c day IH]; simpl; intros H.
  - by injection H.
  - injection H as H. by apply IH.
Qed.

Lemma halfHour_has_addTo busy key id key' id' :
  HalfHour.has (HalfHour.addTo busy key id) key' id' = true
  ↔ HalfHour.has busy key' id' = true ∨ (key' = key ∧ id' = id).
Proof.
  unfold HalfHour.has, HalfHour.addTo.
  destruct (decide (key' = key)) as [->|Hne].
  - rewrite lookup_insert_eq. rewrite bool_decide_eq_true, elem_of_union, elem_of_singleton.
    destruct (busy !! key) as [s|]; cbn [default].
    + rewrite bool_decide_eq_true. tauto.
    + split; [intros [[]%elem_of_empty|]; tauto|intros [?|[_ ?]]; [done|tauto]].
  - rewrite lookup_insert_ne by done. tauto.
Qed.

(** What the marking loop leaves in the cell of slot [k] of the day. *)
Lemma halfHour_marked busy id day t offsets k id' :
  (-1 ≤ t)%Z → (-1 ≤ k < 20)%Z →
  HalfHour.has (foldl (HalfHour.markStep id day t) busy offsets)
               (HalfHour.getSlotKey day (HalfHour.slotText k)) id' = true
  ↔ HalfHour.has busy (HalfHour.getSlotKey day (HalfHour.slotText k)) id' = true
    ∨ (id' = id ∧ ∃ i, i ∈ offsets ∧ (t + Z.of_nat i)%Z = k).
Proof.
  intros Ht Hk. revert busy. induction offsets as [|i offsets IH]; intros busy.
  - cbn [foldl]. split; [tauto|]. intros [?|[_ (i & []%elem_of_nil & _)]]; done.
  - cbn [foldl]. rewrite IH. unfold HalfHour.markStep. case_bool_decide as Hlt.
    + rewrite halfHour_has_addTo. split.
      * intros [[?|[Hkey ->]]|[-> (j & Hj & Hjk)]]; [tauto| |].
        -- right. split; [done|]. exists i. split; [by left|].
           apply halfHour_key_inj, halfHour_slotText_inj in Hkey;
             [done|lia|change (Z.of_nat (length HalfHour.timeSlots)) with 20%Z in Hlt; lia].
        -- right. split; [done|]. exists j. split; [by right|done].
      * intros [?|[-> (j & [->|Hj]%elem_of_cons & Hjk)]]; [tauto| |].
        -- left. right. by rewrite Hjk.
        -- right. split; [done|]. by exists j.
    + split.
      * intros [?|[-> (j & Hj & Hjk)]]; [tauto|].
        right. split; [done|]. exists j. split; [by right|done].
      * intros [?|[-> (j & [->|Hj]%elem_of_cons & Hjk)]]; [tauto| |].
        -- exfalso. change (Z.of_nat (length HalfHour.timeSlots)) with 20%Z in Hlt. lia.
        -- right. split; [done|]. by exists j.
Qed.

Lemma halfHour_round_trip busy id day startTime duration id' startTime' duration' :
  let t := HalfHour.indexOf startTime in
  let t' := HalfHour.indexOf startTime' in
  forallb (HalfHour.freeStep
             (foldl (HalfHour.markStep id day t) busy (range 0 (duration * 2)))
             id' day t') (range 0 (duration' * 2)) = true
  ↔ forallb (HalfHour.freeStep busy id' day t') (range 0 (duration' * 2)) = true
    ∧ ¬ (id' = id
         ∧ ∃ k, (t ≤ k < t + 2 * Z.of_nat duration)%Z
                ∧ (t' ≤ k < t' + 2 * Z.of_nat duration')%Z).
Proof.
  intros t t'.
  pose proof (halfHour_indexOf_ge startTime) as Ht.
  pose proof (halfHour_indexOf_ge startTime') as Ht'. fold t in Ht. fold t' in Ht'.
  rewrite !forallb_forall. unfold HalfHour.freeStep.
  change (Z.of_nat (length HalfHour.timeSlots)) with 20%Z.
  split.
  - intros Hfree. split.
    + intros i Hi. specialize (Hfree i Hi).
      apply andb_true_iff in Hfree as [Hlt%bool_decide_eq_true Hhas%negb_true_iff].
      apply andb_true_iff. split; [by apply bool_decide_eq_true|].
      apply negb_true_iff. apply not_true_is_false. intros Hbusy.
      apply not_true_iff_false in Hhas. apply Hhas.
      apply halfHour_marked; [done|lia|by left].
    + intros [-> (k & Hk & Hk')].
      assert (In (Z.to_nat (k - t')) (range 0 (duration' * 2))) as Hi
        by (apply list_elem_of_In, elem_of_seq; lia).
      specialize (Hfree _ Hi).
      apply andb_true_iff in Hfree as [Hlt%bool_decide_eq_true Hhas%negb_true_iff].
      apply not_true_iff_false in Hhas. apply Hhas.
      apply halfHour_marked; [done|lia|]. right. split; [done|].
      exists (Z.to_nat (k - t)). split; [apply elem_of_seq; lia|].
      lia.
  - intros [Hfree Hapart] i Hi. specialize (Hfree i Hi).
    apply andb_true_iff in Hfree as [Hlt%bool_decide_eq_true Hhas%negb_true_iff].
    apply andb_true_iff. split; [by apply bool_decide_eq_true|].
    apply negb_true_iff. apply not_true_is_false. intros Hbusy.
    apply halfHour_marked in Hbusy; [|done|lia].
    destruct Hbusy as [Hbusy|[-> (j & Hj & Hjk)]]; [congruence|].
    apply Hapart. split; [done|]. exists (t' + Z.of_nat i)%Z.
    apply list_elem_of_In, elem_of_seq in Hi. apply elem_of_seq in Hj. lia.
Qed.

(** X22: in the half-hour revision, marking a teacher busy and asking for a
    teacher afterwards agree: on the same day the answer is yes exactly when
    it was yes before and the two are not the same person with windows that
    share a half-hour slot.  The same holds of rooms. *)
Theorem busy_marks_are_seen busy id day startTime duration id' startTime' duration' :
  let apart :=
    ¬ (id' = id
       ∧ ∃ k, (HalfHour.indexOf startTime ≤ k
               < HalfHour.indexOf startTime + 2 * Z.of_nat duration)%Z
              ∧ (HalfHour.indexOf startTime' ≤ k
                 < HalfHour.indexOf startTime' + 2 * Z.of_nat duration')%Z) in
  (HalfHour.isFacultyAvailable (HalfHour.markFacultyBusy busy id day startTime duration)
                               id' day startTime' duration' = true
   ↔ HalfHour.isFacultyAvailable busy id' day startTime' duration' = true ∧ apart)
  ∧ (HalfHour.isClassroomAvailable
       (HalfHour.markClassroomOccupied busy id day startTime duration)
       id' day startTime' duration' = true
     ↔ HalfHour.isClassroomAvailable busy id' day startTime' duration' = true ∧ apart).
Proof. split; apply halfHour_round_trip. Qed.

(** X23: in the half-hour revision, a window of positive length that would
    run past the last label (17:30) is refused by both availability tests,
    whatever the busy sets hold and whether or not the start is a label. *)
Theorem overrun_is_refused busy id day startTime duration :
  0 < duration →
  (Z.of_nat (length HalfHour.timeSlots)
   < HalfHour.indexOf startTime + 2 * Z.of_nat duration)%Z →
  HalfHour.isFacultyAvailable busy id day startTime duration = false
  ∧ HalfHour.isClassroomAvailable busy id day startTime duration = false.
Proof.
  intros Hd Hover.
  enough (forallb (HalfHour.freeStep busy id day (HalfHour.indexOf startTime))
                  (range 0 (duration * 2)) = false) by done.
  apply not_true_is_false. rewrite forallb_forall. intros Hfree.
  assert (In (duration * 2 - 1) (range 0 (duration * 2))) as Hi
    by (apply list_elem_of_In, elem_of_seq; lia).
  specialize (Hfree _ Hi).
  apply andb_true_iff in Hfree as [Hlt%bool_decide_eq_true _]. lia.
Qed.

Lemma overrun_is_refused_witness :
  0 < 2
  ∧ (Z.of_nat (length HalfHour.timeSlots) < HalfHour.indexOf "16:30" + 2 * Z.of_nat 2)%Z
  ∧ HalfHour.isFacultyAvailable ∅ "F1" "Monday" "16:30" 2 = false
  ∧ HalfHour.isClassroomAvailable ∅ "F1" "Monday" "16:30" 2 = false.
Proof.
  assert (0 < 2) as Hd by lia.
  assert (Z.of_nat (length HalfHour.timeSlots)
          < HalfHour.indexOf "16:30" + 2 * Z.of_nat 2)%Z as Hover by (by vm_compute).
  split; [exact Hd|]. split; [exact Hover|].
  exact (overrun_is_refused ∅ "F1" "Monday" "16:30" 2 Hd Hover).
Defined.

(** X24: in the half-hour revision a subject is tried
    [max(2, min(weekly_hours, 6))] times over the week only when that number
    is 5 or 6; for 2, 3 and 4 it is tried five times more (once every day
    and once again on the first days), so between 5 and 9 times in all. *)
Theorem lecture_tries_of_a_week weekly_hours :
  let total := HalfHour.totalLectures weekly_hours in
  (2 ≤ total ≤ 6)%Z
  ∧ HalfHour.lectureTries weekly_hours
    = (if bool_decide (total < 5)%Z then total + 5 else total)%Z
  ∧ ∀ dayIndex, (1 ≤ HalfHour.lecturesToSchedule weekly_hours dayIndex ≤ 2)%Z.
Proof.
  intros total.
  assert (total = 2 ∨ total = 3 ∨ total = 4 ∨ total = 5 ∨ total = 6)%Z as Hcases
    by (subst total; unfold HalfHour.totalLectures; lia).
  assert (HalfHour.lecturesPerDay weekly_hours = 1)%Z as Hper.
  { unfold HalfHour.lecturesPerDay. fold total.
    destruct Hcases as [Hc|[Hc|[Hc|[Hc|Hc]]]]; rewrite Hc; reflexivity. }
  assert (HalfHour.extraLectures weekly_hours
          = if bool_decide (total < 5)%Z then total else total - 5)%Z as Hextra.
  { unfold HalfHour.extraLectures. fold total.
    destruct Hcases as [Hc|[Hc|[Hc|[Hc|Hc]]]]; rewrite Hc; reflexivity. }
  split; [lia|]. split.
  - unfold HalfHour.lectureTries, HalfHour.lecturesToSchedule. rewrite Hper, Hextra.
    destruct Hcases as [Hc|[Hc|[Hc|[Hc|Hc]]]]; rewrite Hc; reflexivity.
  - intros dayIndex. unfold HalfHour.lecturesToSchedule. rewrite Hper.
    destruct (bool_decide (Z.of_nat dayIndex < _)%Z); lia.
Qed.
